(** * Time-series data fetcher: a shallow embedding of [data_fetcher.py]

    The development follows [src/data_fetcher.py] and [src/config.py]:
    the time parser, the window generator, the table registry, the count
    and page queries, the two streaming generators and the line-delimited
    export.  Python integers are [Z]; a [datetime] is a number of
    microseconds on the wall clock together with its optional UTC offset,
    bounded by [datetime.min] and [datetime.max]; exceptions are values of
    [exception]; [while] loops take fuel; a run of a generator is the log of
    its queries, yields and pauses.  The connection pool is taken as
    initialised, logging is left out, and the interpreter's [strptime],
    [isoformat], [str], [repr], the clock and the data store's reading of a
    raw predicate are parameters.  The output formats of [format_output]
    and of the ["json"], ["csv"] and ["parquet"] exports and the [stream]
    command of [src/cli.py] follow, with pandas as a parameter and the
    console as the list of the lines printed. *)

From Stdlib Require Import ZArith List String Ascii Bool Lia QArith Permutation.
From Stdlib Require Import DecimalString DecimalPos DecimalZ.
Import ListNotations.
Open Scope string_scope.
Open Scope list_scope.
Open Scope Z_scope.

(** ** Exceptions and results *)

Inductive exception : Type :=
| ValueError_time_format (time_str : string)
    (* raise ValueError(f"无法解析时间格式: {time_str}") *)
| ValueError_unsupported_table (table_name : string)
    (* raise ValueError(f"不支持的表: {table_name}") *)
| TypeError_naive_aware
    (* can't compare offset-naive and offset-aware datetimes *)
| OverflowError
    (* timedelta or datetime arithmetic left the representable range *)
| KeyError (key : string)
| PostgresError (msg : string).

Inductive outcome (A : Type) : Type :=
| Returned (a : A)
| Raised (e : exception)
| OutOfFuel.
Arguments Returned {A} a.
Arguments Raised {A} e.
Arguments OutOfFuel {A}.

Definition obind {A B : Type} (m : outcome A) (k : A -> outcome B) : outcome B :=
  match m with
  | Returned a => k a
  | Raised e => Raised e
  | OutOfFuel => OutOfFuel
  end.

Declare Scope outcome_scope.
Delimit Scope outcome_scope with outcome.
Notation "'try' x <- m ; k" := (obind m (fun x => k))
  (at level 10, x name, m at level 100, k at level 200)
  : outcome_scope.
Open Scope outcome_scope.

(** ** [datetime] and [timedelta]

    [wall] counts the microseconds since 0001-01-01T00:00:00 shown by the
    fields of the object; [tzinfo] is [None] for an offset-naive object and
    [Some off] for an aware one whose UTC offset is [off] microseconds. *)

Record datetime : Type := mk_datetime {
  wall : Z;
  tzinfo : option Z
}.

(** [datetime.max] is 9999-12-31T23:59:59.999999, day 3652059 of the
    proleptic calendar. *)
Definition US_PER_MINUTE : Z := 60000000.
Definition US_PER_DAY : Z := 86400000000.
Definition DATETIME_MAX : Z := 3652059 * US_PER_DAY - 1.
Definition TIMEDELTA_MAX_DAYS : Z := 999999999.

Definition timezone_utc : option Z := Some 0.

Definition valid_datetime (d : datetime) : Prop :=
  0 <= wall d <= DATETIME_MAX.

Definition is_utc (d : datetime) : Prop := tzinfo d = timezone_utc.

(** The instant an object denotes; a naive object is read as UTC. *)
Definition utc_micros (d : datetime) : Z :=
  match tzinfo d with
  | Some off => wall d - off
  | None => wall d
  end.

(** [a < b] on datetimes: mixing naive and aware raises [TypeError]. *)
Definition dt_lt (a b : datetime) : outcome bool :=
  match tzinfo a, tzinfo b with
  | None, None => Returned (wall a <? wall b)
  | Some oa, Some ob => Returned (wall a - oa <? wall b - ob)
  | _, _ => Raised TypeError_naive_aware
  end.

(** [timedelta(minutes=m)], in microseconds; the constructor rejects a
    magnitude of more than 999999999 days. *)
Definition timedelta_minutes (m : Z) : outcome Z :=
  let days := m / 1440 in
  if (Z.abs days >? TIMEDELTA_MAX_DAYS) then Raised OverflowError
  else Returned (m * US_PER_MINUTE).

(** [d + delta]: the fields move, the offset stays, and a result outside
    [datetime.min .. datetime.max] raises [OverflowError]. *)
Definition dt_add (d : datetime) (delta : Z) : outcome datetime :=
  let w := wall d + delta in
  if (0 <=? w) && (w <=? DATETIME_MAX)
  then Returned {| wall := w; tzinfo := tzinfo d |}
  else Raised OverflowError.

(** Python's [min(a, b)] keeps [a] unless [b < a]. *)
Definition py_min (a b : datetime) : outcome datetime :=
  try c <- dt_lt b a;
  Returned (if c then b else a).

(** [dt.replace(tzinfo=timezone.utc)] *)
Definition replace_tzinfo_utc (d : datetime) : datetime :=
  {| wall := wall d; tzinfo := timezone_utc |}.

(** Calendar helper used to write instants in examples
    (the day count is Python's [_ymd2ord] minus one). *)
Definition is_leap (y : Z) : bool :=
  ((y mod 4 =? 0) && negb (y mod 100 =? 0)) || (y mod 400 =? 0).

Definition days_before_year (y : Z) : Z :=
  let p := y - 1 in p * 365 + p / 4 - p / 100 + p / 400.

Definition days_before_month (y m : Z) : Z :=
  nth (Z.to_nat (m - 1)) [0; 31; 59; 90; 120; 151; 181; 212; 243; 273; 304; 334] 0
  + (if (2 <? m) && is_leap y then 1 else 0).

Definition utc_datetime (y mo d h mi s : Z) : datetime :=
  {| wall := (days_before_year y + days_before_month y mo + (d - 1)) * US_PER_DAY
             + ((h * 60 + mi) * 60 + s) * 1000000;
     tzinfo := timezone_utc |}.

Definition naive_datetime (y mo d h mi s : Z) : datetime :=
  {| wall := wall (utc_datetime y mo d h mi s); tzinfo := None |}.

(** ** Configuration ([config.py]) *)

Record table_config : Type := {
  time_field : string;
  primary_key : string;
  order_fields : list string
}.

Definition TABLE_CONFIGS : list (string * table_config) :=
  [ ("tweets",
     {| time_field := "created_at_ts"; primary_key := "tweet_id";
        order_fields := ["created_at_ts"; "tweet_id"] |});
    ("replies",
     {| time_field := "created_at_ts"; primary_key := "tweet_id";
        order_fields := ["created_at_ts"; "tweet_id"] |});
    ("users",
     {| time_field := "updated_at"; primary_key := "user_id";
        order_fields := ["updated_at"; "user_id"] |});
    ("followers",
     {| time_field := "follower_created_at_ts"; primary_key := "follower_id";
        order_fields := ["follower_created_at_ts"; "user_id"; "follower_id"] |});
    ("following",
     {| time_field := "following_created_at_ts"; primary_key := "following_id";
        order_fields := ["following_created_at_ts"; "user_id"; "following_id"] |});
    ("quoted_status_summary",
     {| time_field := "created_at_ts"; primary_key := "tweet_id";
        order_fields := ["created_at_ts"; "tweet_id"] |});
    ("retweeted_status_summary",
     {| time_field := "created_at_ts"; primary_key := "tweet_id";
        order_fields := ["created_at_ts"; "tweet_id"] |});
    ("kol_task_status",
     {| time_field := "updated_at"; primary_key := "user_id";
        order_fields := ["updated_at"; "user_id"] |}) ].

Record default_config : Type := {
  default_chunk_size : Z;
  default_time_interval_minutes : Z;
  default_output_format : string;
  default_include_metadata : bool;
  default_max_connections : Z;
  default_fetch_timeout : Z
}.

Definition DEFAULT_CONFIG : default_config :=
  {| default_chunk_size := 1000;
     default_time_interval_minutes := 60;
     default_output_format := "json";
     default_include_metadata := true;
     default_max_connections := 3;
     default_fetch_timeout := 300 |}.

Definition TIME_FORMATS : list string :=
  [ "%Y-%m-%d %H:%M:%S";
    "%Y-%m-%d";
    "%Y-%m-%dT%H:%M:%S";
    "%Y-%m-%dT%H:%M:%SZ";
    "%Y-%m-%d %H:%M:%S.%f" ].

(** Dictionary lookup by key. *)
Fixpoint dict_get {V : Type} (k : string) (d : list (string * V)) : option V :=
  match d with
  | [] => None
  | (k', v) :: rest => if String.eqb k k' then Some v else dict_get k rest
  end.

(** ** The fetcher object *)

Record TimeSeriesDataFetcher : Type := {
  self_chunk_size : Z;
  self_time_interval_minutes : Z;
  self_max_connections : Z
}.

(** [x or default] on an [Optional[int]]: [None] and [0] are falsy. *)
Definition py_or (x : option Z) (default : Z) : Z :=
  match x with
  | Some v => if v =? 0 then default else v
  | None => default
  end.

(** [TimeSeriesDataFetcher.__init__] *)
Definition init (chunk_size time_interval_minutes max_connections : option Z)
  : TimeSeriesDataFetcher :=
  {| self_chunk_size := py_or chunk_size (default_chunk_size DEFAULT_CONFIG);
     self_time_interval_minutes :=
       py_or time_interval_minutes (default_time_interval_minutes DEFAULT_CONFIG);
     self_max_connections :=
       py_or max_connections (default_max_connections DEFAULT_CONFIG) |}.

(** ** Time parser and window generator *)

Inductive time_input : Type :=
| TStr (s : string)
| TDatetime (d : datetime).

Section TimeParser.

(** [datetime.strptime(time_str, fmt)]; [None] stands for its [ValueError]. *)
Variable strptime : string -> string -> option datetime.

Fixpoint parse_formats (time_str : string) (formats : list string)
  : outcome datetime :=
  match formats with
  | [] => Raised (ValueError_time_format time_str)
  | fmt :: rest =>
      match strptime time_str fmt with
      | Some dt =>
          Returned (match tzinfo dt with
                    | None => replace_tzinfo_utc dt
                    | Some _ => dt
                    end)
      | None => parse_formats time_str rest
      end
  end.

Definition parse_time (time_str : time_input) : outcome datetime :=
  match time_str with
  | TDatetime d => Returned d
  | TStr s => parse_formats s TIME_FORMATS
  end.

(** The [while current_time < end_dt] loop of [generate_time_windows];
    one unit of fuel per evaluation of the loop condition. *)
Fixpoint windows_loop (fuel : nat) (minutes : Z) (current_time end_dt : datetime)
    (windows : list (datetime * datetime)) : outcome (list (datetime * datetime)) :=
  match fuel with
  | O => OutOfFuel
  | S fuel' =>
      try continue <- dt_lt current_time end_dt;
      if continue : bool then
        try delta <- timedelta_minutes minutes;
        try next <- dt_add current_time delta;
        try window_end <- py_min next end_dt;
        windows_loop fuel' minutes window_end end_dt
                     (windows ++ [(current_time, window_end)])
      else Returned windows
  end.

Definition generate_time_windows (fuel : nat) (self : TimeSeriesDataFetcher)
    (start_time end_time : time_input) : outcome (list (datetime * datetime)) :=
  try start_dt <- parse_time start_time;
  try end_dt <- parse_time end_time;
  windows_loop fuel (self_time_interval_minutes self) start_dt end_dt [].

End TimeParser.

(** ** The data store

    A row is what [dict(row)] gives for an asyncpg record: column names
    mapped to scalars.  The store is a capability outside the repository;
    it is modelled as a static table of rows on which the two queries the
    fetcher builds are evaluated. *)

Inductive value : Type :=
| VNull
| VBool (b : bool)
| VInt (z : Z)
| VStr (s : string)
| VTimestamp (d : datetime).

Definition row : Type := list (string * value).
Definition database : Type := list (string * list row).

(** The two statements built by [get_table_count] and [fetch_data_chunk],
    kept structured instead of as SQL text. *)
Inductive sql : Type :=
| SelectCount (table time_col : string) (p1 p2 : datetime) (cond : option string)
| SelectRows (fields : option (list string)) (table time_col : string)
             (p1 p2 : datetime) (cond : option string)
             (order_by : list string) (limit offset : Z).

Definition column (name : string) (r : row) : value :=
  match dict_get name r with
  | Some v => v
  | None => VNull
  end.

Definition value_rank (v : value) : Z :=
  match v with
  | VBool _ => 0
  | VInt _ => 1
  | VStr _ => 2
  | VTimestamp _ => 3
  | VNull => 4
  end.

(** Ascending order of a column; NULL sorts last. *)
Definition value_compare (a b : value) : comparison :=
  match a, b with
  | VBool x, VBool y => Bool.compare x y
  | VInt x, VInt y => x ?= y
  | VStr x, VStr y => String.compare x y
  | VTimestamp x, VTimestamp y => utc_micros x ?= utc_micros y
  | _, _ => value_rank a ?= value_rank b
  end.

Fixpoint order_compare (fields : list string) (r1 r2 : row) : comparison :=
  match fields with
  | [] => Eq
  | f :: rest =>
      match value_compare (column f r1) (column f r2) with
      | Eq => order_compare rest r1 r2
      | c => c
      end
  end.

Fixpoint insert_row (fields : list string) (r : row) (sorted : list row) : list row :=
  match sorted with
  | [] => [r]
  | x :: rest =>
      match order_compare fields r x with
      | Gt => x :: insert_row fields r rest
      | _ => r :: x :: rest
      end
  end.

(** [ORDER BY fields] *)
Fixpoint sort_rows (fields : list string) (rows : list row) : list row :=
  match rows with
  | [] => []
  | r :: rest => insert_row fields r (sort_rows fields rest)
  end.

Fixpoint dict_set {V : Type} (k : string) (v : V) (d : list (string * V))
  : list (string * V) :=
  match d with
  | [] => [(k, v)]
  | (k', v') :: rest =>
      if String.eqb k k' then (k, v) :: rest else (k', v') :: dict_set k v rest
  end.

(** [dict(row)] of a result record with the given columns. *)
Definition dict_of_items {V : Type} (items : list (string * V)) : list (string * V) :=
  fold_left (fun d kv => dict_set (fst kv) (snd kv) d) items [].

(** [SELECT fields]; the schema is not modelled, an absent column reads NULL. *)
Definition select_columns (fields : option (list string)) (r : row) : row :=
  match fields with
  | None => r
  | Some names => dict_of_items (map (fun f => (f, column f r)) names)
  end.

(** Python truthiness of the optional arguments. *)
Definition truthy_str (s : option string) : option string :=
  match s with
  | Some EmptyString => None
  | other => other
  end.

Definition truthy_list {A : Type} (l : option (list A)) : option (list A) :=
  match l with
  | Some [] => None
  | other => other
  end.

Module Metadata.
Record t : Type := {
  table_name : string;
  time_field : string;
  query_time : string
}.
End Metadata.

(** The envelope yielded by [stream_data_by_time_windows]. *)
Module WindowChunk.
Record t : Type := {
  window_index : Z;
  window_start : string;
  window_end : string;
  chunk_offset : Z;
  chunk_size : Z;
  total_records_so_far : Z;
  data : list row;
  metadata : Metadata.t
}.
End WindowChunk.

(** The envelope yielded by [stream_data_by_chunks]; [progress] is the
    quotient Python's true division rounds to a float. *)
Module FlatChunk.
Record t : Type := {
  chunk_index : Z;
  chunk_offset : Z;
  chunk_size : Z;
  total_count : Z;
  progress : Q;
  data : list row;
  metadata : Metadata.t
}.
End FlatChunk.

(** What a run of the fetcher does, in order: statements sent to the data
    store, envelopes handed to the consumer, and [asyncio.sleep(0.01)]. *)
Inductive event : Type :=
| EvQuery (q : sql)
| EvYieldWindow (c : WindowChunk.t)
| EvYieldChunk (c : FlatChunk.t)
| EvSleep.

(** Computations thread the log of events so far. *)
Definition io (A : Type) : Type := list event -> list event * outcome A.

Definition ret {A : Type} (a : A) : io A := fun log => (log, Returned a).

Definition raise {A : Type} (e : exception) : io A := fun log => (log, Raised e).

Definition lift {A : Type} (o : outcome A) : io A := fun log => (log, o).

Definition emit (ev : event) : io unit := fun log => (log ++ [ev], Returned tt).

Definition bind {A B : Type} (m : io A) (k : A -> io B) : io B :=
  fun log =>
    match m log with
    | (log', Returned a) => k a log'
    | (log', Raised e) => (log', Raised e)
    | (log', OutOfFuel) => (log', OutOfFuel)
    end.

Declare Scope io_scope.
Delimit Scope io_scope with io.
Notation "'do' x <- m ; k" := (bind m (fun x => k))
  (at level 10, x name, m at level 100, k at level 200) : io_scope.
Notation "'exec' m ; k" := (bind m (fun _ => k))
  (at level 10, m at level 100, k at level 200) : io_scope.
Open Scope io_scope.

Definition len {A : Type} (l : list A) : Z := Z.of_nat (List.length l).

Definition is_empty {A : Type} (l : list A) : bool :=
  match l with
  | [] => true
  | _ => false
  end.

Section Fetcher.

Variable strptime : string -> string -> option datetime.
(** [datetime.isoformat()] *)
Variable isoformat : datetime -> string.
(** [datetime.now(timezone.utc)] read when the log holds [n] events. *)
Variable utcnow : nat -> datetime.
(** The meaning the data store gives to a raw predicate fragment. *)
Variable sql_where : string -> row -> bool.
(** The static contents of the data store. *)
Variable db : database.

(** The two bounds against the row's time column, as instants.  A naive
    bound is read as UTC here; the driver sends it as local time, so the
    properties about which rows a range selects take offset-aware bounds. *)
Definition in_time_range (time_col : string) (p1 p2 : datetime) (r : row) : bool :=
  match dict_get time_col r with
  | Some (VTimestamp t) =>
      (utc_micros p1 <=? utc_micros t) && (utc_micros t <? utc_micros p2)
  | _ => false
  end.

(** [WHERE time_col >= $1 AND time_col < $2 [AND (cond)]] *)
Definition selected (time_col : string) (p1 p2 : datetime) (cond : option string)
    (r : row) : bool :=
  in_time_range time_col p1 p2 r
  && match cond with
     | Some c => sql_where c r
     | None => true
     end.

Definition run_query_count (q : sql) : outcome Z :=
  match q with
  | SelectCount table time_col p1 p2 cond =>
      match dict_get table db with
      | Some rows => Returned (len (filter (selected time_col p1 p2 cond) rows))
      | None => Raised (PostgresError "relation does not exist")
      end
  | SelectRows _ _ _ _ _ _ _ _ _ => Raised (PostgresError "not an aggregate")
  end.

Definition run_query_rows (q : sql) : outcome (list row) :=
  match q with
  | SelectRows fields table time_col p1 p2 cond order limit offset =>
      match dict_get table db with
      | Some rows =>
          if offset <? 0 then Raised (PostgresError "OFFSET must not be negative")
          else if limit <? 0 then Raised (PostgresError "LIMIT must not be negative")
          else
            Returned
              (map (select_columns fields)
                 (firstn (Z.to_nat limit)
                    (skipn (Z.to_nat offset)
                       (sort_rows order
                          (filter (selected time_col p1 p2 cond) rows)))))
      | None => Raised (PostgresError "relation does not exist")
      end
  | SelectCount _ _ _ _ _ => Raised (PostgresError "not a row query")
  end.

(** The rows a range query ranges over, in [ORDER BY] order, and one page. *)
Definition matching_rows (rows : list row) (time_col : string) (p1 p2 : datetime)
    (cond : option string) (order : list string) : list row :=
  sort_rows order (filter (selected time_col p1 p2 cond) rows).

Definition page (fields : option (list string)) (ordered : list row)
    (limit offset : Z) : list row :=
  map (select_columns fields)
      (firstn (Z.to_nat limit) (skipn (Z.to_nat offset) ordered)).

Definition get_table_count (self : TimeSeriesDataFetcher) (table_name : string)
    (start_time end_time : time_input) (where_conditions : option string) : io Z :=
  match dict_get table_name TABLE_CONFIGS with
  | None => raise (ValueError_unsupported_table table_name)
  | Some config =>
      do start_dt <- lift (parse_time strptime start_time);
      do end_dt <- lift (parse_time strptime end_time);
      let query := SelectCount table_name (time_field config) start_dt end_dt
                               (truthy_str where_conditions) in
      exec emit (EvQuery query);
      lift (run_query_count query)
  end.

Definition fetch_data_chunk (self : TimeSeriesDataFetcher) (table_name : string)
    (start_time end_time : time_input) (offset : Z) (limit : option Z)
    (where_conditions : option string) (select_fields : option (list string))
  : io (list row) :=
  match dict_get table_name TABLE_CONFIGS with
  | None => raise (ValueError_unsupported_table table_name)
  | Some config =>
      do start_dt <- lift (parse_time strptime start_time);
      do end_dt <- lift (parse_time strptime end_time);
      let limit := py_or limit (self_chunk_size self) in
      let query := SelectRows (truthy_list select_fields) table_name
                              (time_field config) start_dt end_dt
                              (truthy_str where_conditions)
                              (order_fields config) limit offset in
      exec emit (EvQuery query);
      lift (run_query_rows query)
  end.

(** [TABLE_CONFIGS[table_name]["time_field"]] *)
Definition config_time_field (table_name : string) : io string :=
  match dict_get table_name TABLE_CONFIGS with
  | Some config => ret (time_field config)
  | None => raise (KeyError table_name)
  end.

(** [datetime.now(timezone.utc).isoformat()] *)
Definition now_isoformat : io string :=
  fun log => (log, Returned (isoformat (utcnow (List.length log)))).

(** The [while offset < window_count] loop of one window.  The result is
    the running [total_records]. *)
Fixpoint window_pages (fuel : nat) (self : TimeSeriesDataFetcher)
    (table_name : string) (i : Z) (window_start window_end : datetime)
    (where_conditions : option string) (select_fields : option (list string))
    (window_count offset total_records : Z) : io Z :=
  match fuel with
  | O => lift OutOfFuel
  | S fuel' =>
      if offset <? window_count then
        do chunk_data <- fetch_data_chunk self table_name
                           (TDatetime window_start) (TDatetime window_end)
                           offset (Some (self_chunk_size self))
                           where_conditions select_fields;
        if is_empty chunk_data then ret total_records
        else
          let chunk_size := len chunk_data in
          let total_records := total_records + chunk_size in
          do tf <- config_time_field table_name;
          do qt <- now_isoformat;
          exec emit (EvYieldWindow
            {| WindowChunk.window_index := i;
               WindowChunk.window_start := isoformat window_start;
               WindowChunk.window_end := isoformat window_end;
               WindowChunk.chunk_offset := offset;
               WindowChunk.chunk_size := chunk_size;
               WindowChunk.total_records_so_far := total_records;
               WindowChunk.data := chunk_data;
               WindowChunk.metadata :=
                 {| Metadata.table_name := table_name;
                    Metadata.time_field := tf;
                    Metadata.query_time := qt |} |});
          let offset := offset + self_chunk_size self in
          exec (if chunk_size >=? self_chunk_size self then emit EvSleep else ret tt);
          window_pages fuel' self table_name i window_start window_end
                       where_conditions select_fields window_count offset total_records
      else ret total_records
  end.

(** The [for i, (window_start, window_end) in enumerate(windows, 1)] loop. *)
Fixpoint for_each_window (fuel : nat) (self : TimeSeriesDataFetcher)
    (table_name : string) (where_conditions : option string)
    (select_fields : option (list string))
    (i : Z) (windows : list (datetime * datetime)) (total_records : Z) : io Z :=
  match windows with
  | [] => ret total_records
  | (window_start, window_end) :: rest =>
      do window_count <- get_table_count self table_name
                           (TDatetime window_start) (TDatetime window_end)
                           where_conditions;
      if window_count =? 0 then
        for_each_window fuel self table_name where_conditions select_fields
                        (i + 1) rest total_records
      else
        do total_records <- window_pages fuel self table_name i
                              window_start window_end where_conditions select_fields
                              window_count 0 total_records;
        for_each_window fuel self table_name where_conditions select_fields
                        (i + 1) rest total_records
  end.

Definition stream_data_by_time_windows (fuel : nat) (self : TimeSeriesDataFetcher)
    (table_name : string) (start_time end_time : time_input)
    (where_conditions : option string) (select_fields : option (list string))
  : io Z :=
  do windows <- lift (generate_time_windows strptime fuel self start_time end_time);
  for_each_window fuel self table_name where_conditions select_fields 1 windows 0.

(** The [while offset < total_count] loop of [stream_data_by_chunks]. *)
Fixpoint chunks_loop (fuel : nat) (self : TimeSeriesDataFetcher)
    (table_name : string) (start_time end_time : time_input)
    (where_conditions : option string) (select_fields : option (list string))
    (total_count offset chunk_index : Z) : io Z :=
  match fuel with
  | O => lift OutOfFuel
  | S fuel' =>
      if offset <? total_count then
        do chunk_data <- fetch_data_chunk self table_name start_time end_time
                           offset (Some (self_chunk_size self))
                           where_conditions select_fields;
        if is_empty chunk_data then ret chunk_index
        else
          let chunk_index := chunk_index + 1 in
          let chunk_size := len chunk_data in
          do tf <- config_time_field table_name;
          do qt <- now_isoformat;
          exec emit (EvYieldChunk
            {| FlatChunk.chunk_index := chunk_index;
               FlatChunk.chunk_offset := offset;
               FlatChunk.chunk_size := chunk_size;
               FlatChunk.total_count := total_count;
               FlatChunk.progress :=
                 (inject_Z (offset + chunk_size) / inject_Z total_count)%Q;
               FlatChunk.data := chunk_data;
               FlatChunk.metadata :=
                 {| Metadata.table_name := table_name;
                    Metadata.time_field := tf;
                    Metadata.query_time := qt |} |});
          let offset := offset + self_chunk_size self in
          exec emit EvSleep;
          chunks_loop fuel' self table_name start_time end_time
                      where_conditions select_fields total_count offset chunk_index
      else ret chunk_index
  end.

Definition stream_data_by_chunks (fuel : nat) (self : TimeSeriesDataFetcher)
    (table_name : string) (start_time end_time : time_input)
    (where_conditions : option string) (select_fields : option (list string))
  : io Z :=
  do total_count <- get_table_count self table_name start_time end_time
                      where_conditions;
  if total_count =? 0 then ret 0
  else chunks_loop fuel self table_name start_time end_time
                   where_conditions select_fields total_count 0 0.

End Fetcher.

(** ** Export to line-delimited JSON

    The objects handed to [json.dumps]: the envelopes are dictionaries of
    integers, strings, a float ([progress]), lists and dictionaries, and
    the rows carry whatever the store returned, timestamps included. *)

Inductive pyvalue : Type :=
| PyNone
| PyBool (b : bool)
| PyInt (z : Z)
| PyFloat (q : Q)
| PyStr (s : string)
| PyDatetime (d : datetime)
| PyList (items : list pyvalue)
| PyDict (items : list (string * pyvalue)).

Definition value_object (v : value) : pyvalue :=
  match v with
  | VNull => PyNone
  | VBool b => PyBool b
  | VInt z => PyInt z
  | VStr s => PyStr s
  | VTimestamp d => PyDatetime d
  end.

Definition row_object (r : row) : pyvalue :=
  PyDict (map (fun kv => (fst kv, value_object (snd kv))) r).

Definition metadata_object (m : Metadata.t) : pyvalue :=
  PyDict [ ("table_name", PyStr (Metadata.table_name m));
           ("time_field", PyStr (Metadata.time_field m));
           ("query_time", PyStr (Metadata.query_time m)) ].

Definition window_chunk_object (c : WindowChunk.t) : pyvalue :=
  PyDict [ ("window_index", PyInt (WindowChunk.window_index c));
           ("window_start", PyStr (WindowChunk.window_start c));
           ("window_end", PyStr (WindowChunk.window_end c));
           ("chunk_offset", PyInt (WindowChunk.chunk_offset c));
           ("chunk_size", PyInt (WindowChunk.chunk_size c));
           ("total_records_so_far", PyInt (WindowChunk.total_records_so_far c));
           ("data", PyList (map row_object (WindowChunk.data c)));
           ("metadata", metadata_object (WindowChunk.metadata c)) ].

Definition flat_chunk_object (c : FlatChunk.t) : pyvalue :=
  PyDict [ ("chunk_index", PyInt (FlatChunk.chunk_index c));
           ("chunk_offset", PyInt (FlatChunk.chunk_offset c));
           ("chunk_size", PyInt (FlatChunk.chunk_size c));
           ("total_count", PyInt (FlatChunk.total_count c));
           ("progress", PyFloat (FlatChunk.progress c));
           ("data", PyList (map row_object (FlatChunk.data c)));
           ("metadata", metadata_object (FlatChunk.metadata c)) ].

(** The chunks a consumer of the generator receives, in order. *)
Definition streamed_objects (log : list event) : list pyvalue :=
  flat_map (fun ev =>
              match ev with
              | EvYieldWindow c => [window_chunk_object c]
              | EvYieldChunk c => [flat_chunk_object c]
              | _ => []
              end) log.

Definition dquote : ascii := "034"%char.
Definition backslash : ascii := "\"%char.
Definition newline : ascii := "010"%char.

Definition hex_digit (n : nat) : ascii :=
  nth n [ "0"; "1"; "2"; "3"; "4"; "5"; "6"; "7";
          "8"; "9"; "a"; "b"; "c"; "d"; "e"; "f" ]%char "0"%char.

(** The replacement [json] makes for one character with
    [ensure_ascii=False]: the quote, the backslash and the control
    characters are escaped, everything else is copied. *)
Definition escape_char (c : ascii) : string :=
  if Ascii.eqb c dquote then String backslash (String dquote EmptyString)
  else if Ascii.eqb c backslash then String backslash (String backslash EmptyString)
  else if Ascii.eqb c "008" then "\b"
  else if Ascii.eqb c "012" then "\f"
  else if Ascii.eqb c "010" then "\n"
  else if Ascii.eqb c "013" then "\r"
  else if Ascii.eqb c "009" then "\t"
  else if (nat_of_ascii c <? 32)%nat then
    ("\u00" ++ String (hex_digit (nat_of_ascii c / 16))
                 (String (hex_digit (nat_of_ascii c mod 16)) EmptyString))%string
  else String c EmptyString.

Fixpoint escape (s : string) : string :=
  match s with
  | EmptyString => EmptyString
  | String c rest => (escape_char c ++ escape rest)%string
  end.

Definition encode_string (s : string) : string :=
  String dquote (escape s ++ String dquote EmptyString)%string.

(** [str(n)] for an integer. *)
Definition int_repr (z : Z) : string := NilZero.string_of_int (Z.to_int z).

Fixpoint join_comma (parts : list string) : string :=
  match parts with
  | [] => EmptyString
  | [x] => x
  | x :: rest => (x ++ ", " ++ join_comma rest)%string
  end.

Section Json.

(** [str(d)] for a datetime, [repr(x)] for a float and its inverse
    [float(text)] belong to the interpreter. *)
Variable datetime_str : datetime -> string.
Variable float_repr : Q -> string.
Variable float_parse : string -> option Q.

(** [json.dumps(v, ensure_ascii=False, default=str)] *)
Fixpoint json_dumps (v : pyvalue) : string :=
  match v with
  | PyNone => "null"
  | PyBool true => "true"
  | PyBool false => "false"
  | PyInt z => int_repr z
  | PyFloat q => float_repr q
  | PyStr s => encode_string s
  | PyDatetime d => encode_string (datetime_str d)
  | PyList items => ("[" ++ join_comma (map json_dumps items) ++ "]")%string
  | PyDict items =>
      ("{" ++ join_comma
                (map (fun kv => encode_string (fst kv) ++ ": " ++ json_dumps (snd kv))
                     items)
           ++ "}")%string
  end.

(** The [jsonl] branch of [export_to_file]: one [json.dumps(chunk) + '\n']
    per chunk received from the stream; the result is the text of the file. *)
Fixpoint write_jsonl (chunks : list pyvalue) : string :=
  match chunks with
  | [] => EmptyString
  | chunk :: rest =>
      ((json_dumps chunk ++ String newline EmptyString) ++ write_jsonl rest)%string
  end.

(** What a JSON document keeps of an object: a value [json] cannot write
    goes through [default=str] and is stored as that text. *)
Fixpoint json_view (v : pyvalue) : pyvalue :=
  match v with
  | PyDatetime d => PyStr (datetime_str d)
  | PyList items => PyList (map json_view items)
  | PyDict items => PyDict (map (fun kv => (fst kv, json_view (snd kv))) items)
  | other => other
  end.

(** *** Reading the file back ([json.loads] on each line) *)

Definition is_ws (c : ascii) : bool :=
  Ascii.eqb c " " || Ascii.eqb c "009" || Ascii.eqb c "010" || Ascii.eqb c "013".

Fixpoint skip_ws (s : string) : string :=
  match s with
  | EmptyString => EmptyString
  | String c rest => if is_ws c then skip_ws rest else s
  end.

Definition unescape (e : ascii) : option ascii :=
  if Ascii.eqb e dquote then Some dquote
  else if Ascii.eqb e backslash then Some backslash
  else if Ascii.eqb e "/" then Some "/"%char
  else if Ascii.eqb e "b" then Some "008"%char
  else if Ascii.eqb e "f" then Some "012"%char
  else if Ascii.eqb e "n" then Some "010"%char
  else if Ascii.eqb e "r" then Some "013"%char
  else if Ascii.eqb e "t" then Some "009"%char
  else None.

Definition hex_value (c : ascii) : option nat :=
  let n := nat_of_ascii c in
  if (48 <=? n)%nat && (n <=? 57)%nat then Some (n - 48)%nat
  else if (97 <=? n)%nat && (n <=? 102)%nat then Some (n - 87)%nat
  else if (65 <=? n)%nat && (n <=? 70)%nat then Some (n - 55)%nat
  else None.

Definition hex4 (a b c d : ascii) : option nat :=
  match hex_value a, hex_value b, hex_value c, hex_value d with
  | Some x, Some y, Some z, Some t => Some (((x * 16 + y) * 16 + z) * 16 + t)%nat
  | _, _, _, _ => None
  end.

Definition cons_char (c : ascii) (r : option (string * string))
  : option (string * string) :=
  match r with
  | Some (s, rest) => Some (String c s, rest)
  | None => None
  end.

(** The body of a string literal up to its closing quote; escapes above
    127 are not decoded ([dumps] with [ensure_ascii=False] writes none). *)
Fixpoint scan_string (s : string) : option (string * string) :=
  match s with
  | EmptyString => None
  | String c rest =>
      if Ascii.eqb c dquote then Some (EmptyString, rest)
      else if Ascii.eqb c backslash then
        match rest with
        | EmptyString => None
        | String e rest1 =>
            if Ascii.eqb e "u" then
              match rest1 with
              | String h1 (String h2 (String h3 (String h4 rest2))) =>
                  match hex4 h1 h2 h3 h4 with
                  | Some code =>
                      if (code <? 128)%nat
                      then cons_char (ascii_of_nat code) (scan_string rest2)
                      else None
                  | None => None
                  end
              | _ => None
              end
            else
              match unescape e with
              | Some ch => cons_char ch (scan_string rest1)
              | None => None
              end
        end
      else if (nat_of_ascii c <? 32)%nat then None
      else cons_char c (scan_string rest)
  end.

Definition is_number_char (c : ascii) : bool :=
  let n := nat_of_ascii c in
  ((48 <=? n)%nat && (n <=? 57)%nat)
  || Ascii.eqb c "-" || Ascii.eqb c "+" || Ascii.eqb c "."
  || Ascii.eqb c "e" || Ascii.eqb c "E".

(** The characters of an integer literal. *)
Definition is_int_char (c : ascii) : bool :=
  let n := nat_of_ascii c in
  ((48 <=? n)%nat && (n <=? 57)%nat) || Ascii.eqb c "-".

Definition not_newline (c : ascii) : bool := negb (Ascii.eqb c newline).

Definition is_float_mark (c : ascii) : bool :=
  Ascii.eqb c "." || Ascii.eqb c "e" || Ascii.eqb c "E".

Fixpoint string_forallb (p : ascii -> bool) (s : string) : bool :=
  match s with
  | EmptyString => true
  | String c rest => p c && string_forallb p rest
  end.

Fixpoint string_existsb (p : ascii -> bool) (s : string) : bool :=
  match s with
  | EmptyString => false
  | String c rest => p c || string_existsb p rest
  end.

Fixpoint span_number (s : string) : string * string :=
  match s with
  | EmptyString => (EmptyString, EmptyString)
  | String c rest =>
      if is_number_char c then
        let (tok, r) := span_number rest in (String c tok, r)
      else (EmptyString, s)
  end.

Definition parse_number (tok : string) : option pyvalue :=
  if string_existsb is_float_mark tok then option_map PyFloat (float_parse tok)
  else option_map (fun d => PyInt (Z.of_int d)) (NilZero.int_of_string tok).

Fixpoint strip_prefix (p s : string) : option string :=
  match p with
  | EmptyString => Some s
  | String a p' =>
      match s with
      | String b s' => if Ascii.eqb a b then strip_prefix p' s' else None
      | EmptyString => None
      end
  end.

Fixpoint parse_value (fuel : nat) (s : string) : option (pyvalue * string) :=
  match fuel with
  | O => None
  | S fuel' =>
      match s with
      | EmptyString => None
      | String c rest =>
          if Ascii.eqb c dquote then
            option_map (fun p => (PyStr (fst p), snd p)) (scan_string rest)
          else if Ascii.eqb c "[" then
            match skip_ws rest with
            | EmptyString => None
            | String c' rest' =>
                if Ascii.eqb c' "]" then Some (PyList [], rest')
                else option_map (fun p => (PyList (fst p), snd p))
                                (parse_elements fuel' (String c' rest'))
            end
          else if Ascii.eqb c "{" then
            match skip_ws rest with
            | EmptyString => None
            | String c' rest' =>
                if Ascii.eqb c' "}" then Some (PyDict [], rest')
                else option_map (fun p => (PyDict (fst p), snd p))
                                (parse_members fuel' (String c' rest'))
            end
          else if Ascii.eqb c "n" then
            option_map (fun r => (PyNone, r)) (strip_prefix "ull" rest)
          else if Ascii.eqb c "t" then
            option_map (fun r => (PyBool true, r)) (strip_prefix "rue" rest)
          else if Ascii.eqb c "f" then
            option_map (fun r => (PyBool false, r)) (strip_prefix "alse" rest)
          else
            let (tok, r) := span_number s in
            option_map (fun v => (v, r)) (parse_number tok)
      end
  end

with parse_elements (fuel : nat) (s : string) : option (list pyvalue * string) :=
  match fuel with
  | O => None
  | S fuel' =>
      match parse_value fuel' s with
      | None => None
      | Some (v, rest) =>
          match skip_ws rest with
          | EmptyString => None
          | String c rest' =>
              if Ascii.eqb c "," then
                option_map (fun p => (v :: fst p, snd p))
                           (parse_elements fuel' (skip_ws rest'))
              else if Ascii.eqb c "]" then Some ([v], rest')
              else None
          end
      end
  end

with parse_members (fuel : nat) (s : string)
  : option (list (string * pyvalue) * string) :=
  match fuel with
  | O => None
  | S fuel' =>
      match s with
      | EmptyString => None
      | String c rest =>
          if Ascii.eqb c dquote then
            match scan_string rest with
            | None => None
            | Some (key, rest1) =>
                match skip_ws rest1 with
                | EmptyString => None
                | String c1 rest2 =>
                    if Ascii.eqb c1 ":" then
                      match parse_value fuel' (skip_ws rest2) with
                      | None => None
                      | Some (v, rest3) =>
                          match skip_ws rest3 with
                          | EmptyString => None
                          | String c3 rest4 =>
                              if Ascii.eqb c3 "," then
                                option_map (fun p => ((key, v) :: fst p, snd p))
                                           (parse_members fuel' (skip_ws rest4))
                              else if Ascii.eqb c3 "}" then Some ([(key, v)], rest4)
                              else None
                          end
                      end
                    else None
                end
            end
          else None
      end
  end.

(** [json.loads(line)]: one value, then nothing but white space. *)
Definition json_loads (fuel : nat) (line : string) : option pyvalue :=
  match parse_value fuel (skip_ws line) with
  | Some (v, rest) =>
      match skip_ws rest with
      | EmptyString => Some v
      | _ => None
      end
  | None => None
  end.

(** The lines of a text file, without their terminators. *)
Fixpoint split_lines (s : string) : list string :=
  match s with
  | EmptyString => []
  | String c rest =>
      if Ascii.eqb c newline then EmptyString :: split_lines rest
      else
        match split_lines rest with
        | [] => [String c EmptyString]
        | l :: ls => String c l :: ls
        end
  end.

Fixpoint all_some {A : Type} (l : list (option A)) : option (list A) :=
  match l with
  | [] => Some []
  | Some x :: rest => option_map (cons x) (all_some rest)
  | None :: _ => None
  end.

(** [[json.loads(line) for line in file]] *)
Definition read_jsonl (fuel : nat) (file : string) : option (list pyvalue) :=
  all_some (map (json_loads fuel) (split_lines file)).

(** What the reader needs of the interpreter for a float: its text is a
    number token with a fraction or exponent mark, and reads back as the
    same float. *)
Definition float_contract (q : Q) : Prop :=
  float_repr q <> EmptyString
  /\ string_forallb is_number_char (float_repr q) = true
  /\ string_existsb is_float_mark (float_repr q) = true
  /\ float_parse (float_repr q) = Some q.

Fixpoint floats_readable (v : pyvalue) : Prop :=
  match v with
  | PyFloat q => float_contract q
  | PyList items => fold_right (fun x acc => floats_readable x /\ acc) True items
  | PyDict items =>
      fold_right (fun kv acc => floats_readable (snd kv) /\ acc) True items
  | _ => True
  end.

(** No value that [json] has to pass through [default=str]. *)
Fixpoint json_native (v : pyvalue) : Prop :=
  match v with
  | PyDatetime _ => False
  | PyList items => fold_right (fun x acc => json_native x /\ acc) True items
  | PyDict items => fold_right (fun kv acc => json_native (snd kv) /\ acc) True items
  | _ => True
  end.

(** A text after which a number token ends. *)
Definition delimited (rest : string) : Prop :=
  match rest with
  | EmptyString => True
  | String c _ => is_number_char c = false
  end.

(** Fuel that is enough to read a value back. *)
Fixpoint reading_fuel (v : pyvalue) : nat :=
  match v with
  | PyList items => S (fold_right (fun x n => S (reading_fuel x + n)) 0%nat items)
  | PyDict items =>
      S (fold_right (fun kv n => S (reading_fuel (snd kv) + n)) 0%nat items)
  | _ => 1%nat
  end.

End Json.

(** [export_to_file]: the events of the run and the text left in the file
    at [output_path].  With [output_format="jsonl"] every chunk received is
    written at once, so the file holds a line for each of them even when the
    stream ends with an exception.  The writers of ["json"], ["csv"] and
    ["parquet"] ([json.dump] of the buffered list and pandas) are not
    modelled: their text is [None].  With any other format no branch runs
    and the stream is never iterated. *)
Definition export_to_file
    (strptime : string -> string -> option datetime)
    (isoformat : datetime -> string) (utcnow : nat -> datetime)
    (sql_where : string -> row -> bool) (db : database)
    (datetime_str : datetime -> string) (float_repr : Q -> string)
    (fuel : nat) (self : TimeSeriesDataFetcher) (table_name : string)
    (start_time end_time : time_input) (output_path output_format : string)
    (use_time_windows : bool)
    (where_conditions : option string) (select_fields : option (list string))
  : list event * outcome unit * option string :=
  let data_stream :=
    if use_time_windows
    then stream_data_by_time_windows strptime isoformat utcnow sql_where db fuel
           self table_name start_time end_time where_conditions select_fields
    else stream_data_by_chunks strptime isoformat utcnow sql_where db fuel
           self table_name start_time end_time where_conditions select_fields in
  if String.eqb output_format "jsonl" then
    let (log, out) := data_stream [] in
    (log, obind out (fun _ => Returned tt),
     Some (write_jsonl datetime_str float_repr (streamed_objects log)))
  else if String.eqb output_format "json" || String.eqb output_format "csv"
          || String.eqb output_format "parquet" then
    let (log, out) := data_stream [] in
    (log, obind out (fun _ => Returned tt), None)
  else ([], Returned tt, None).

(** The text of the file, empty when none was written. *)
Definition file_text (run : list event * outcome unit * option string) : string :=
  match snd run with
  | Some text => text
  | None => EmptyString
  end.

(** [obj[key]] on a dictionary. *)
Definition py_get (key : string) (v : pyvalue) : option pyvalue :=
  match v with
  | PyDict items => dict_get key items
  | _ => None
  end.

(** ** Vocabulary of the properties *)

Definition ceil_div (a b : Z) : Z := (a + b - 1) / b.

(** [LIMIT] and [OFFSET] reach the store as text and are read there as
    [bigint]; a number outside this range is rejected before the statement
    runs, which [run_query_rows] does not model.  A property that needs a
    page query with a limit chosen by the caller to return says that the
    limit lies within the range. *)
Definition BIGINT_MAX : Z := 9223372036854775807.
Definition BIGINT_MIN : Z := - 9223372036854775808.

(** The [ORDER BY] fields tell any two rows of the table apart, as a unique
    key among them does.  Only then does the statement fix the order of its
    result, and with it the content of a page: among rows that compare
    equal the store is free to choose, where [sort_rows] keeps the stored
    order. *)
Definition order_tells_rows_apart (fields : list string) (rows : list row) : Prop :=
  forall i j r1 r2,
    nth_error rows i = Some r1 -> nth_error rows j = Some r2 ->
    order_compare fields r1 r2 = Eq -> i = j.

(** [tiles d ws from to]: the windows [ws] begin at [from], each one begins
    where the previous one ended, none is empty, each ends [d] microseconds
    after its start or at [to] when that comes first, each keeps the offset
    of its start, and the last one ends at [to]. *)
Fixpoint tiles (d : Z) (ws : list (datetime * datetime)) (from to : datetime) : Prop :=
  match ws with
  | [] => from = to
  | (a, b) :: rest =>
      a = from /\ wall a < wall b /\ wall b = Z.min (wall a + d) (wall to)
      /\ tzinfo b = tzinfo a /\ tiles d rest b to
  end.

(** Observations on a log of events. *)
Definition yielded_chunks (log : list event) : list FlatChunk.t :=
  flat_map (fun ev => match ev with EvYieldChunk c => [c] | _ => [] end) log.

Definition yielded_windows (log : list event) : list WindowChunk.t :=
  flat_map (fun ev => match ev with EvYieldWindow c => [c] | _ => [] end) log.

Definition issued_queries (log : list event) : list sql :=
  flat_map (fun ev => match ev with EvQuery q => [q] | _ => [] end) log.

Definition sum_Z (l : list Z) : Z := fold_right Z.add 0 l.

Definition yield_size (ev : event) : option Z :=
  match ev with
  | EvYieldWindow c => Some (WindowChunk.chunk_size c)
  | EvYieldChunk c => Some (FlatChunk.chunk_size c)
  | _ => None
  end.

(** Each yielded envelope's [chunk_size], paired with whether the very next
    event of the run is the pause. *)
Fixpoint pause_after_yield (log : list event) : list (Z * bool) :=
  match log with
  | [] => []
  | ev :: rest =>
      match yield_size ev with
      | Some size =>
          (size, match rest with EvSleep :: _ => true | _ => false end)
            :: pause_after_yield rest
      | None => pause_after_yield rest
      end
  end.

Definition no_leading_sleep (evs : list event) : Prop :=
  match evs with
  | EvSleep :: _ => False
  | _ => True
  end.

(** [running_totals total cs]: every envelope of [cs] is non-empty and its
    [total_records_so_far] adds its own [chunk_size] to the total reached
    before it, starting from [total]. *)
Fixpoint running_totals (total : Z) (cs : list WindowChunk.t) : Prop :=
  match cs with
  | [] => True
  | c :: rest =>
      0 < WindowChunk.chunk_size c
      /\ WindowChunk.total_records_so_far c = total + WindowChunk.chunk_size c
      /\ running_totals (WindowChunk.total_records_so_far c) rest
  end.

(** [window_order prev cs]: going through [cs], the [window_index] either
    stays or grows, and where it grows the [chunk_offset] is back at 0;
    [prev] is the index before the first envelope. *)
Fixpoint window_order (prev : Z) (cs : list WindowChunk.t) : Prop :=
  match cs with
  | [] => True
  | c :: rest =>
      (WindowChunk.window_index c = prev
       \/ (prev < WindowChunk.window_index c /\ WindowChunk.chunk_offset c = 0))
      /\ window_order (WindowChunk.window_index c) rest
  end.

Definition first_offset_is (offset : Z) (cs : list WindowChunk.t) : Prop :=
  match cs with
  | [] => True
  | c :: _ => WindowChunk.chunk_offset c = offset
  end.

(** ** Sample environment for the examples *)

Definition t_2024_01_01 : datetime := utc_datetime 2024 1 1 0 0 0.
Definition t_2024_01_01_01h : datetime := utc_datetime 2024 1 1 1 0 0.
Definition t_2024_01_01_02h : datetime := utc_datetime 2024 1 1 2 0 0.

(** A finite table standing for [datetime.strptime] on a few inputs. *)
Definition sample_strptime (time_str fmt : string) : option datetime :=
  if String.eqb fmt "%Y-%m-%dT%H:%M:%SZ" then
    if String.eqb time_str "2024-01-01T00:00:00Z" then Some (naive_datetime 2024 1 1 0 0 0)
    else if String.eqb time_str "2024-01-01T02:00:00Z" then Some (naive_datetime 2024 1 1 2 0 0)
    else None
  else if String.eqb fmt "%Y-%m-%d" then
    if String.eqb time_str "2024-01-01" then Some (naive_datetime 2024 1 1 0 0 0)
    else if String.eqb time_str "2024-01-02" then Some (naive_datetime 2024 1 2 0 0 0)
    else None
  else None.

(** Stand-ins for [isoformat] and [str] of a datetime (the calendar follows
    Python's [_ord2ymd]), for the clock, for [repr] and [float] on the few
    floats of the examples, and for the store's reading of a predicate
    fragment. *)
Definition ord2ymd (n0 : Z) : Z * Z * Z :=
  let n400 := n0 / 146097 in
  let n := n0 mod 146097 in
  let n100 := n / 36524 in
  let n := n mod 36524 in
  let n4 := n / 1461 in
  let n := n mod 1461 in
  let n1 := n / 365 in
  let n := n mod 365 in
  let year := n400 * 400 + 1 + n100 * 100 + n4 * 4 + n1 in
  if (n1 =? 4) || (n100 =? 4) then (year - 1, 12, 31)
  else
    let leap := (n1 =? 3) && (negb (n4 =? 24) || (n100 =? 3)) in
    let month := (n + 50) / 32 in
    let preceding := days_before_month (if leap then 4 else 1) month in
    if preceding >? n then
      let month := month - 1 in
      (year, month, n - days_before_month (if leap then 4 else 1) month + 1)
    else (year, month, n - preceding + 1).

Definition pad_left (width : nat) (s : string) : string :=
  (string_of_list_ascii (repeat "0"%char (width - String.length s)) ++ s)%string.

Definition digits (width : nat) (n : Z) : string := pad_left width (int_repr n).

Definition format_offset (tz : option Z) : string :=
  match tz with
  | Some off =>
      let minutes := Z.abs off / US_PER_MINUTE in
      let sign := if off <? 0 then "-" else "+" in
      let hh := digits 2 (minutes / 60) in
      let mm := digits 2 (minutes mod 60) in
      (sign ++ hh ++ ":" ++ mm)%string
  | None => EmptyString
  end.

Definition format_datetime (sep : string) (d : datetime) : string :=
  let day := wall d / US_PER_DAY in
  let us := wall d mod US_PER_DAY in
  let '(y, m, dd) := ord2ymd day in
  let secs := us / 1000000 in
  let frac := us mod 1000000 in
  let hh := digits 2 (secs / 3600) in
  let mm := digits 2 (secs / 60 mod 60) in
  let ss := digits 2 (secs mod 60) in
  let fraction :=
    if frac =? 0 then EmptyString else ("." ++ digits 6 frac)%string in
  (digits 4 y ++ "-" ++ digits 2 m ++ "-" ++ digits 2 dd ++ sep
   ++ hh ++ ":" ++ mm ++ ":" ++ ss ++ fraction ++ format_offset (tzinfo d))%string.

Definition sample_isoformat (d : datetime) : string := format_datetime "T" d.

Definition sample_datetime_str (d : datetime) : string := format_datetime " " d.

Definition sample_float_repr (q : Q) : string :=
  match q with
  | Qmake 3 4 => "0.75"
  | Qmake 4 4 => "1.0"
  | _ => "0.5"
  end.

Definition sample_float_parse (text : string) : option Q :=
  if String.eqb text "0.75" then Some (3 # 4)%Q
  else if String.eqb text "1.0" then Some (4 # 4)%Q
  else if String.eqb text "0.5" then Some (1 # 2)%Q
  else None.

Definition sample_utcnow (k : nat) : datetime :=
  {| wall := wall (utc_datetime 2024 6 1 12 0 0) + Z.of_nat k;
     tzinfo := timezone_utc |}.

Definition sample_sql_where (cond : string) (r : row) : bool :=
  if String.eqb cond "lang = 'en'" then
    match column "lang" r with
    | VStr l => String.eqb l "en"
    | _ => false
    end
  else true.

Definition tweet (id minute : Z) (lang : string) : row :=
  [ ("tweet_id", VInt id);
    ("created_at_ts",
     VTimestamp {| wall := wall t_2024_01_01 + minute * US_PER_MINUTE;
                   tzinfo := timezone_utc |});
    ("lang", VStr lang) ].

(** Five tweets, four of them in the first two hours of 2024. *)
Definition sample_db : database :=
  [ ("tweets",
     [ tweet 3 70 "en"; tweet 1 10 "en"; tweet 2 10 "fr";
       tweet 4 119 "en"; tweet 5 120 "en" ]);
    ("users", []) ].

(** 2500 tweets in the first two hours of 2024. *)
Definition large_db : database :=
  [ ("tweets",
     map (fun k => tweet (Z.of_nat k) (Z.of_nat k mod 120) "en") (seq 0 2500)) ].

(** One tweet an hour after [datetime.min]. *)
Definition early_db : database :=
  [ ("tweets",
     [ [ ("tweet_id", VInt 1);
         ("created_at_ts", VTimestamp (utc_datetime 1 1 1 1 0 0)) ] ]) ].

(** One tweet a quarter of an hour before [datetime.max]. *)
Definition late_db : database :=
  [ ("tweets",
     [ [ ("tweet_id", VInt 1);
         ("created_at_ts", VTimestamp (utc_datetime 9999 12 31 23 45 0)) ] ]) ].

(** Two exports of the first two hours of 2024 from the sample store: flat
    mode in pages of three rows, and windowed mode over a quarter of an hour
    with a predicate and a projection. *)
Definition sample_flat_export : list event * outcome unit * option string :=
  export_to_file sample_strptime sample_isoformat sample_utcnow
    sample_sql_where sample_db sample_datetime_str sample_float_repr
    10 (init (Some 3) None None) "tweets"
    (TDatetime t_2024_01_01) (TDatetime t_2024_01_01_02h)
    "output/tweets.jsonl" "jsonl" false None None.

Definition sample_windowed_export : list event * outcome unit * option string :=
  export_to_file sample_strptime sample_isoformat sample_utcnow
    sample_sql_where sample_db sample_datetime_str sample_float_repr
    10 (init None None None) "tweets"
    (TDatetime t_2024_01_01) (TDatetime (utc_datetime 2024 1 1 0 15 0))
    "output/tweets.jsonl" "jsonl" true
    (Some "lang = 'en'") (Some ["tweet_id"; "created_at_ts"]).

(** ** Further vocabulary *)

(** What an envelope of windowed mode says about itself: [chunk_size]
    counts its rows, which are at least one and at most a page,
    [chunk_offset] is a whole number of pages, and the metadata names the
    table and its registered time column. *)
Definition window_envelope_ok (self : TimeSeriesDataFetcher) (table_name : string)
    (c : WindowChunk.t) : Prop :=
  WindowChunk.chunk_size c = len (WindowChunk.data c)
  /\ 0 < WindowChunk.chunk_size c <= self_chunk_size self
  /\ (exists k, 0 <= k /\ WindowChunk.chunk_offset c = k * self_chunk_size self)
  /\ Metadata.table_name (WindowChunk.metadata c) = table_name
  /\ option_map time_field (dict_get table_name TABLE_CONFIGS)
     = Some (Metadata.time_field (WindowChunk.metadata c)).

(** [flat_envelopes cs total finished idx offset chunks]: the envelopes of
    flat mode from the round that starts with [chunk_index = idx] and
    [offset] on.  Each one continues the numbering, sits at the current
    offset, holds the rows left up to a page, and reports the fraction
    reached; when the run [finished], nothing is left after the last one. *)
Fixpoint flat_envelopes (cs total : Z) (finished : bool) (idx offset : Z)
    (chunks : list FlatChunk.t) : Prop :=
  match chunks with
  | [] => finished = true -> 0 < cs -> total <= offset
  | c :: rest =>
      FlatChunk.chunk_index c = idx + 1
      /\ FlatChunk.chunk_offset c = offset
      /\ FlatChunk.total_count c = total
      /\ FlatChunk.chunk_size c = len (FlatChunk.data c)
      /\ FlatChunk.chunk_size c = Z.min cs (total - offset)
      /\ 0 < FlatChunk.chunk_size c
      /\ FlatChunk.progress c
         = (inject_Z (offset + FlatChunk.chunk_size c) / inject_Z total)%Q
      /\ flat_envelopes cs total finished (idx + 1) (offset + cs) rest
  end.

Definition returned {A : Type} (o : outcome A) : bool :=
  match o with
  | Returned _ => true
  | _ => false
  end.

(** [envelope_of_window ... i ws we c]: the envelope [c] belongs to the
    window [ws .. we] numbered [i]: it carries the window's number and the
    text of its bounds, and its rows are the page at its [chunk_offset] of
    the window's rows in order. *)
Definition envelope_of_window (isoformat : datetime -> string)
    (sql_where : string -> row -> bool) (db : database)
    (self : TimeSeriesDataFetcher) (table_name : string)
    (where_conditions : option string) (select_fields : option (list string))
    (i : Z) (ws we : datetime) (c : WindowChunk.t) : Prop :=
  WindowChunk.window_index c = i
  /\ WindowChunk.window_start c = isoformat ws
  /\ WindowChunk.window_end c = isoformat we
  /\ forall config rows,
       dict_get table_name TABLE_CONFIGS = Some config ->
       dict_get table_name db = Some rows ->
       WindowChunk.data c
       = page (truthy_list select_fields)
              (matching_rows sql_where rows (time_field config) ws we
                             (truthy_str where_conditions) (order_fields config))
              (self_chunk_size self) (WindowChunk.chunk_offset c).

(** The number of rows of [rows] a range query selects. *)
Definition rows_in_range (sql_where : string -> row -> bool) (rows : list row)
    (time_col : string) (where_conditions : option string)
    (window : datetime * datetime) : Z :=
  len (filter (selected sql_where time_col (fst window) (snd window)
                        (truthy_str where_conditions)) rows).

(** The errors of the validation and of the data store in a call for
    [table_name] over [start_time .. end_time]: the unsupported-table error
    names the table, the time-format error names one of the two times
    given as text. *)
Definition query_error (table_name : string) (start_time end_time : time_input)
    (e : exception) : Prop :=
  match e with
  | ValueError_unsupported_table name => name = table_name
  | ValueError_time_format text => start_time = TStr text \/ end_time = TStr text
  | PostgresError _ => True
  | _ => False
  end.

(** The errors of the arithmetic on [datetime] in the window generator. *)
Definition window_error (e : exception) : Prop :=
  match e with
  | TypeError_naive_aware | OverflowError => True
  | _ => False
  end.

(** ** Output formats ([format_output] and the ["json"] export) *)

(** [config.SUPPORTED_FORMATS] *)
Definition SUPPORTED_FORMATS : list string := ["json"; "csv"; "parquet"; "jsonl"].

(** Truthiness of an object. *)
Definition py_truthy (v : pyvalue) : bool :=
  match v with
  | PyNone => false
  | PyBool b => b
  | PyInt z => negb (z =? 0)
  | PyFloat q => negb (Qeq_bool q 0)
  | PyStr s => negb (String.eqb s EmptyString)
  | PyDatetime _ => true
  | PyList items => negb (is_empty items)
  | PyDict items => negb (is_empty items)
  end.

(** What [format_output] does: it returns a text, or raises
    [ValueError(f"不支持的输出格式: {output_format}")]; [data.get] fails on an
    object that is no dictionary, and pandas may reject the records. *)
Inductive format_result : Type :=
| Formatted (text : string)
| ValueError_unsupported_format (output_format : string)
| AttributeError_get
| PandasError.

(** The line break and the indentation [json] writes in front of an item
    at nesting depth [level] when [indent=2]. *)
Definition newline_indent (level : nat) : string :=
  String newline (string_of_list_ascii (repeat " "%char (2 * level))).

Fixpoint join_with (sep : string) (parts : list string) : string :=
  match parts with
  | [] => EmptyString
  | [x] => x
  | x :: rest => (x ++ sep ++ join_with sep rest)%string
  end.

Section Formats.

Variable datetime_str : datetime -> string.
Variable float_repr : Q -> string.
(** [pandas.DataFrame(records).to_csv(index=False)], [None] when pandas
    raises. *)
Variable to_csv : pyvalue -> option string.

(** [json.dumps(v, ensure_ascii=False, indent=2, default=str)] at nesting
    depth [level]: an empty list or dictionary stays on one line, every
    item of another one goes on a line of its own. *)
Fixpoint json_dumps_indent (level : nat) (v : pyvalue) : string :=
  match v with
  | PyList items =>
      match items with
      | [] => "[]"
      | _ =>
          ("[" ++ newline_indent (S level)
           ++ join_with ("," ++ newline_indent (S level))
                (map (json_dumps_indent (S level)) items)
           ++ newline_indent level ++ "]")%string
      end
  | PyDict items =>
      match items with
      | [] => "{}"
      | _ =>
          ("{" ++ newline_indent (S level)
           ++ join_with ("," ++ newline_indent (S level))
                (map (fun kv => encode_string (fst kv) ++ ": "
                                ++ json_dumps_indent (S level) (snd kv))
                     items)
           ++ newline_indent level ++ "}")%string
      end
  | scalar => json_dumps datetime_str float_repr scalar
  end.

(** [TimeSeriesDataFetcher.format_output] *)
Definition format_output (self : TimeSeriesDataFetcher) (data : pyvalue)
    (output_format : string) : format_result :=
  if String.eqb output_format "json" then Formatted (json_dumps_indent 0 data)
  else if String.eqb output_format "jsonl" then
    Formatted (json_dumps datetime_str float_repr data)
  else if String.eqb output_format "csv" then
    match data with
    | PyDict items =>
        match dict_get "data" items with
        | Some records =>
            if py_truthy records then
              match to_csv records with
              | Some text => Formatted text
              | None => PandasError
              end
            else Formatted EmptyString
        | None => Formatted EmptyString
        end
    | _ => AttributeError_get
    end
  else if String.eqb output_format "parquet" then Formatted "parquet"
  else ValueError_unsupported_format output_format.

(** The ["json"] branch of [export_to_file]: the chunks are buffered while
    the stream runs and written by one
    [json.dump(all_chunks, f, ensure_ascii=False, indent=2, default=str)]
    after it has ended, so a stream that raises leaves no file. *)
Definition write_json (chunks : list pyvalue) : string :=
  json_dumps_indent 0 (PyList chunks).

Definition export_json (run : list event * outcome Z)
  : list event * outcome unit * option string :=
  match snd run with
  | Returned _ => (fst run, Returned tt, Some (write_json (streamed_objects (fst run))))
  | Raised e => (fst run, Raised e, None)
  | OutOfFuel => (fst run, OutOfFuel, None)
  end.

End Formats.

(** ** The command line ([cli.py])

    The parsed arguments of the [stream] command, what the command prints,
    line by line, and how it ends. *)

Module Args.
Record t : Type := {
  table : string;
  start_time : string;
  end_time : string;
  format : string;
  chunk_size : Z;
  time_interval : Z;
  max_connections : Z;
  use_time_windows : bool;
  where_ : option string;
  fields : option (list string);
  output : option string;
  verbose : bool
}.
End Args.

Inductive console_line : Type :=
| PrintStart (table : string)                 (* 开始获取表 '{table}' 的数据... *)
| PrintTimeRange (start_time end_time : string) (* 时间范围: {start} ~ {end} *)
| PrintFormat (output_format : string)        (* 输出格式: {format} *)
| PrintText (text : string)                   (* print(output) *)
| PrintChunk (total_chunks chunk_size : Z)    (* 处理块 {k}: {n} 条记录 *)
| PrintChunkRange (window_start window_end : string)
| PrintRunningTotal (total_records : Z)       (* 累计记录: {n} *)
| PrintDone                                   (* 数据获取完成: *)
| PrintTotalChunks (total_chunks : Z)         (* 总块数: {n} *)
| PrintTotalRecords (total_records : Z).      (* 总记录数: {n} *)

Inductive command_result : Type :=
| CommandReturned
| CommandRaised (e : exception)
| CommandFormatFailed (r : format_result)
| CommandOutOfFuel.

(** The lines that show rows, and the lines that close a run. *)
Definition is_data_line (line : console_line) : bool :=
  match line with
  | PrintText _ => true
  | _ => false
  end.

Definition is_totals_line (line : console_line) : bool :=
  match line with
  | PrintDone | PrintTotalChunks _ | PrintTotalRecords _ => true
  | _ => false
  end.

(** A chunk as the consumer of a generator receives it. *)
Inductive envelope : Type :=
| WindowEnvelope (c : WindowChunk.t)
| FlatEnvelope (c : FlatChunk.t).

Definition envelopes (log : list event) : list envelope :=
  flat_map (fun ev =>
              match ev with
              | EvYieldWindow c => [WindowEnvelope c]
              | EvYieldChunk c => [FlatEnvelope c]
              | _ => []
              end) log.

Definition envelope_object (chunk : envelope) : pyvalue :=
  match chunk with
  | WindowEnvelope c => window_chunk_object c
  | FlatEnvelope c => flat_chunk_object c
  end.

(** [chunk["chunk_size"]] *)
Definition envelope_chunk_size (chunk : envelope) : Z :=
  match chunk with
  | WindowEnvelope c => WindowChunk.chunk_size c
  | FlatEnvelope c => FlatChunk.chunk_size c
  end.

(** [chunk.get('window_start', 'N/A')] and [chunk.get('window_end', 'N/A')] *)
Definition envelope_window_start (chunk : envelope) : string :=
  match chunk with
  | WindowEnvelope c => WindowChunk.window_start c
  | FlatEnvelope _ => "N/A"
  end.

Definition envelope_window_end (chunk : envelope) : string :=
  match chunk with
  | WindowEnvelope c => WindowChunk.window_end c
  | FlatEnvelope _ => "N/A"
  end.

Section CommandLine.

Variable strptime : string -> string -> option datetime.
Variable isoformat : datetime -> string.
Variable utcnow : nat -> datetime.
Variable sql_where : string -> row -> bool.
Variable db : database.
Variable datetime_str : datetime -> string.
Variable float_repr : Q -> string.
Variable to_csv : pyvalue -> option string.

(** The body of [async for chunk in data_stream] in [stream_data_command],
    for the chunks in the order received: the lines printed, the two
    counters, and the failure of [format_output] that ended the loop, if
    any. *)
Fixpoint consume_stream (fetcher : TimeSeriesDataFetcher) (args : Args.t)
    (chunks : list envelope) (total_chunks total_records : Z)
  : list console_line * (Z * Z) * option format_result :=
  match chunks with
  | [] => ([], (total_chunks, total_records), None)
  | chunk :: rest =>
      let total_chunks := total_chunks + 1 in
      let chunk_size := envelope_chunk_size chunk in
      let total_records := total_records + chunk_size in
      let printed :=
        match truthy_str (Args.output args) with
        | Some _ => inl []
        | None =>
            if String.eqb (Args.format args) "json" then
              match format_output datetime_str float_repr to_csv fetcher
                      (envelope_object chunk) "json" with
              | Formatted text => inl [PrintText text]
              | failure => inr failure
              end
            else if String.eqb (Args.format args) "jsonl" then
              match format_output datetime_str float_repr to_csv fetcher
                      (envelope_object chunk) "jsonl" with
              | Formatted text => inl [PrintText text]
              | failure => inr failure
              end
            else
              inl (PrintChunk total_chunks chunk_size
                   :: if Args.verbose args
                      then [PrintChunkRange (envelope_window_start chunk)
                                            (envelope_window_end chunk);
                            PrintRunningTotal total_records]
                      else [])
        end in
      match printed with
      | inl lines =>
          let '(more, totals, failure) :=
            consume_stream fetcher args rest total_chunks total_records in
          (lines ++ more, totals, failure)
      | inr failure => ([], (total_chunks, total_records), Some failure)
      end
  end.

(** [stream_data_command]: the events of the run, the console, and how the
    command ends.  The totals are printed only when the stream ends without
    an exception. *)
Definition stream_data_command (fuel : nat) (args : Args.t)
  : list event * list console_line * command_result :=
  let fetcher := init (Some (Args.chunk_size args)) (Some (Args.time_interval args))
                      (Some (Args.max_connections args)) in
  let banner := [PrintStart (Args.table args);
                 PrintTimeRange (Args.start_time args) (Args.end_time args);
                 PrintFormat (Args.format args)] in
  let data_stream :=
    if Args.use_time_windows args
    then stream_data_by_time_windows strptime isoformat utcnow sql_where db fuel
           fetcher (Args.table args) (TStr (Args.start_time args))
           (TStr (Args.end_time args)) (Args.where_ args) (Args.fields args)
    else stream_data_by_chunks strptime isoformat utcnow sql_where db fuel
           fetcher (Args.table args) (TStr (Args.start_time args))
           (TStr (Args.end_time args)) (Args.where_ args) (Args.fields args) in
  let (log, out) := data_stream [] in
  let '(printed, totals, failure) :=
    consume_stream fetcher args (envelopes log) 0 0 in
  match failure with
  | Some r => (log, banner ++ printed, CommandFormatFailed r)
  | None =>
      match out with
      | Returned _ =>
          (log,
           banner ++ printed
           ++ [PrintDone; PrintTotalChunks (fst totals); PrintTotalRecords (snd totals)],
           CommandReturned)
      | Raised e => (log, banner ++ printed, CommandRaised e)
      | OutOfFuel => (log, banner ++ printed, CommandOutOfFuel)
      end
  end.

End CommandLine.

(** [chunk["data"]] *)
Definition envelope_data (chunk : envelope) : list row :=
  match chunk with
  | WindowEnvelope c => WindowChunk.data c
  | FlatEnvelope c => FlatChunk.data c
  end.

(** The ["csv"] and ["parquet"] branches of [export_to_file]: the rows of
    all chunks are collected while the stream runs and handed to pandas
    ([DataFrame(all_data).to_csv(output_path, index=False)] or
    [to_parquet(output_path)]) only when there are any; [write_table]
    stands for what pandas leaves in the file. *)
Definition export_table (write_table : list row -> string)
    (run : list event * outcome Z) : list event * outcome unit * option string :=
  match snd run with
  | Returned _ =>
      let all_data := flat_map envelope_data (envelopes (fst run)) in
      (fst run, Returned tt,
       if is_empty all_data then None else Some (write_table all_data))
  | Raised e => (fst run, Raised e, None)
  | OutOfFuel => (fst run, OutOfFuel, None)
  end.

(** ** Further samples *)

(** The [stream] command asked for the tweets since "yesterday". *)
Definition sample_unparseable_args : Args.t :=
  {| Args.table := "tweets";
     Args.start_time := "yesterday";
     Args.end_time := "2024-01-02";
     Args.format := "json";
     Args.chunk_size := 1000;
     Args.time_interval := 60;
     Args.max_connections := 3;
     Args.use_time_windows := true;
     Args.where_ := None;
     Args.fields := None;
     Args.output := None;
     Args.verbose := false |}.

(** The [stream] command in flat mode, asked for the tweets until
    "tomorrow". *)
Definition sample_unparseable_end_args : Args.t :=
  {| Args.table := "tweets";
     Args.start_time := "2024-01-01";
     Args.end_time := "tomorrow";
     Args.format := "jsonl";
     Args.chunk_size := 1000;
     Args.time_interval := 60;
     Args.max_connections := 3;
     Args.use_time_windows := false;
     Args.where_ := None;
     Args.fields := None;
     Args.output := None;
     Args.verbose := false |}.

(** A stand-in for pandas that accepts a list of records only. *)
Definition sample_to_csv (records : pyvalue) : option string :=
  match records with
  | PyList _ => Some "csv"
  | _ => None
  end.

(** An envelope as flat mode yields it, with one row. *)
Definition sample_envelope_object : pyvalue :=
  PyDict [ ("chunk_index", PyInt 1);
           ("chunk_offset", PyInt 0);
           ("chunk_size", PyInt 1);
           ("total_count", PyInt 4);
           ("progress", PyFloat (3 # 4));
           ("data", PyList [ PyDict [ ("tweet_id", PyInt 1);
                                      ("created_at_ts", PyDatetime t_2024_01_01);
                                      ("lang", PyStr "en") ] ]);
           ("metadata", PyDict [ ("table_name", PyStr "tweets");
                                 ("empty", PyList []) ]) ].

(** The registry entry and the stored rows of the sample's table. *)
Definition sample_tweets_config : table_config :=
  {| time_field := "created_at_ts"; primary_key := "tweet_id";
     order_fields := ["created_at_ts"; "tweet_id"] |}.

Definition sample_tweets : list row :=
  [ tweet 3 70 "en"; tweet 1 10 "en"; tweet 2 10 "fr";
    tweet 4 119 "en"; tweet 5 120 "en" ].

(** The windows of the first two hours of 2024, an hour each. *)
Definition sample_windows : list (datetime * datetime) :=
  [ (t_2024_01_01, t_2024_01_01_01h); (t_2024_01_01_01h, t_2024_01_01_02h) ].

(** * Properties *)

(** ** The constructor *)

(** C9: a falsy [chunk_size], [time_interval_minutes] or [max_connections]
    ([None] or [0]) is replaced by the default 1000, 60 or 3 without any
    error, and a negative value is kept as given. *)
Theorem init_falsy_arguments_take_defaults :
  (forall ti mc, self_chunk_size (init None ti mc) = 1000
                 /\ self_chunk_size (init (Some 0) ti mc) = 1000)
  /\ (forall cs mc, self_time_interval_minutes (init cs None mc) = 60
                    /\ self_time_interval_minutes (init cs (Some 0) mc) = 60)
  /\ (forall cs ti, self_max_connections (init cs ti None) = 3
                    /\ self_max_connections (init cs ti (Some 0)) = 3)
  /\ (forall p ti mc, self_chunk_size (init (Some (Z.neg p)) ti mc) = Z.neg p)
  /\ (forall p cs mc,
        self_time_interval_minutes (init cs (Some (Z.neg p)) mc) = Z.neg p)
  /\ (forall p cs ti, self_max_connections (init cs ti (Some (Z.neg p))) = Z.neg p).
Proof.
  repeat split; reflexivity.
Qed.

Lemma init_chunk_size_nonzero cs ti mc : self_chunk_size (init cs ti mc) <> 0.
Proof.
  unfold init, py_or; simpl.
  destruct cs as [v|]; [destruct (v =? 0) eqn:E|]; try discriminate.
  apply Z.eqb_neq in E; exact E.
Qed.

(** ** The time parser *)

Section ParserFacts.

Variable strptime : string -> string -> option datetime.

Lemma parse_formats_aware time_str formats d :
  parse_formats strptime time_str formats = Returned d -> tzinfo d <> None.
Proof.
  induction formats as [|fmt rest IH]; simpl; [discriminate|].
  destruct (strptime time_str fmt) as [dt|]; [|exact IH].
  intros H; injection H as <-.
  destruct (tzinfo dt) eqn:E; simpl; [rewrite E|]; discriminate.
Qed.

(** A string accepted by the parser always comes back offset-aware. *)
Lemma parse_time_str_aware s d :
  parse_time strptime (TStr s) = Returned d -> tzinfo d <> None.
Proof. apply parse_formats_aware. Qed.

Lemma parse_formats_utc time_str formats d :
  (forall fmt dt, In fmt formats -> strptime time_str fmt = Some dt -> tzinfo dt = None) ->
  parse_formats strptime time_str formats = Returned d -> is_utc d.
Proof.
  induction formats as [|fmt rest IH]; simpl; intros Hn; [discriminate|].
  destruct (strptime time_str fmt) as [dt|] eqn:E.
  - intros H; injection H as <-.
    rewrite (Hn fmt dt (or_introl eq_refl) E). reflexivity.
  - apply IH. intros f dt Hin. apply Hn. right; exact Hin.
Qed.

(** C3: [parse_time] hands a [datetime] object back unchanged, so an
    offset-naive object stays offset-naive instead of becoming a UTC-aware
    instant, while every string the parser accepts comes back
    offset-aware. *)
Theorem parse_time_naive_datetime_stays_naive :
  (forall d : datetime, parse_time strptime (TDatetime d) = Returned d)
  /\ (forall w : Z,
        exists d,
          parse_time strptime (TDatetime {| wall := w; tzinfo := None |}) = Returned d
          /\ tzinfo d = None)
  /\ (forall s d, parse_time strptime (TStr s) = Returned d -> tzinfo d <> None).
Proof.
  split; [reflexivity|]. split.
  - intros w. exists {| wall := w; tzinfo := None |}. split; reflexivity.
  - exact parse_time_str_aware.
Qed.

End ParserFacts.

(** What the naive object does further on: compared with an aware end of
    range in the window loop, it raises [TypeError]. *)
Example generate_time_windows_naive_start :
  generate_time_windows sample_strptime 5 (init None None None)
    (TDatetime (naive_datetime 2024 1 1 0 0 0)) (TStr "2024-01-01T02:00:00Z")
  = Raised TypeError_naive_aware.
Proof. reflexivity. Qed.

(** ** The window generator *)

Lemma dt_lt_utc a b :
  is_utc a -> is_utc b -> dt_lt a b = Returned (wall a <? wall b).
Proof.
  unfold is_utc, dt_lt, timezone_utc. intros -> ->.
  now rewrite !Z.sub_0_r.
Qed.

Lemma utc_datetime_eq a b : is_utc a -> is_utc b -> wall a = wall b -> a = b.
Proof.
  destruct a, b; unfold is_utc; simpl; intros; subst; reflexivity.
Qed.

Lemma timedelta_minutes_in_range m :
  0 <= m * US_PER_MINUTE <= DATETIME_MAX ->
  timedelta_minutes m = Returned (m * US_PER_MINUTE).
Proof.
  unfold timedelta_minutes, US_PER_MINUTE, DATETIME_MAX, US_PER_DAY, TIMEDELTA_MAX_DAYS.
  intros H.
  assert (0 <= m / 1440 <= 999999999).
  { split.
    - apply Z.div_pos; lia.
    - apply Z.div_le_upper_bound; lia. }
  rewrite Z.abs_eq by lia.
  destruct (m / 1440 >? 999999999) eqn:E; [|reflexivity].
  apply Z.gtb_lt in E. lia.
Qed.

Section WindowFacts.

Variable strptime : string -> string -> option datetime.

(** One round of the loop between UTC instants whose step is representable. *)
Lemma windows_loop_step fuel m c e acc d :
  is_utc c -> is_utc e -> wall c < wall e ->
  timedelta_minutes m = Returned d ->
  0 <= wall c + d <= DATETIME_MAX ->
  windows_loop (S fuel) m c e acc
  = let next := {| wall := wall c + d; tzinfo := tzinfo c |} in
    let window_end := if wall e <? wall c + d then e else next in
    windows_loop fuel m window_end e (acc ++ [(c, window_end)]).
Proof.
  intros Hc He Hlt Htd Hr.
  cbn [windows_loop]. rewrite (dt_lt_utc c e Hc He).
  replace (wall c <? wall e) with true by (symmetry; apply Z.ltb_lt; lia).
  cbn [obind]. rewrite Htd. cbn [obind]. unfold dt_add.
  replace ((0 <=? wall c + d) && (wall c + d <=? DATETIME_MAX)) with true
    by (symmetry; apply andb_true_iff; split; apply Z.leb_le; lia).
  cbn [obind]. unfold py_min.
  rewrite dt_lt_utc; [|exact He|exact Hc].
  cbn [obind wall]. destruct (wall e <? wall c + d); reflexivity.
Qed.

(** With a positive step the loop stops after [k] rounds, where [k] is the
    least number of steps of [d] microseconds that reach [e] from [c]. *)
Lemma windows_loop_positive (k : nat) :
  forall (m : Z) (c e : datetime),
    0 < m -> is_utc c -> is_utc e -> 0 <= wall c -> wall c <= wall e ->
    wall e - wall c <= Z.of_nat k * (m * US_PER_MINUTE) ->
    Z.of_nat k * (m * US_PER_MINUTE) < wall e - wall c + m * US_PER_MINUTE ->
    wall c + Z.of_nat k * (m * US_PER_MINUTE) <= DATETIME_MAX ->
    exists ws,
      List.length ws = k
      /\ tiles (m * US_PER_MINUTE) ws c e
      /\ forall fuel acc, (k < fuel)%nat ->
           windows_loop fuel m c e acc = Returned (acc ++ ws).
Proof.
  induction k as [|k IH]; intros m c e Hm Hc He Hc0 Hce Hup Hlo Hmax.
  - exists []. simpl. split; [reflexivity|]. split.
    + apply utc_datetime_eq; auto; lia.
    + intros fuel acc Hfuel. destruct fuel as [|fuel]; [lia|].
      simpl. rewrite (dt_lt_utc c e Hc He).
      assert (E : (wall c <? wall e) = false) by (apply Z.ltb_ge; lia).
      rewrite E. simpl. now rewrite app_nil_r.
  - set (d := m * US_PER_MINUTE) in *.
    assert (Hd : 0 < d) by (unfold d, US_PER_MINUTE; lia).
    rewrite Nat2Z.inj_succ in Hup, Hlo, Hmax.
    assert (Hlt : wall c < wall e) by nia.
    assert (Htd : timedelta_minutes m = Returned d).
    { apply timedelta_minutes_in_range. fold d. nia. }
    assert (E2 : 0 <= wall c + d <= DATETIME_MAX) by nia.
    destruct (wall e <? wall c + d) eqn:E3.
    + pose proof (proj1 (Z.ltb_lt _ _) E3) as L3.
      assert (k = 0%nat) by nia. subst k.
      destruct (IH m e e Hm He He) as (ws & Hlen & Ht & Hrun);
        try (fold d); try lia.
      exists ((c, e) :: ws). simpl.
      split; [now rewrite Hlen|]. split; [repeat split; auto; try lia; congruence|].
      intros fuel acc Hfuel. destruct fuel as [|fuel]; [lia|].
      rewrite (windows_loop_step fuel m c e acc d) by (auto; lia).
      cbn zeta. rewrite E3, Hrun by lia. now rewrite <- app_assoc.
    + pose proof (proj1 (Z.ltb_ge _ _) E3) as L3.
      set (c' := {| wall := wall c + d; tzinfo := tzinfo c |}).
      destruct (IH m c' e Hm) as (ws & Hlen & Ht & Hrun);
        try (fold d); simpl; try lia; auto.
      exists ((c, c') :: ws). simpl.
      split; [now rewrite Hlen|]. split; [repeat split; auto; simpl; lia|].
      intros fuel acc Hfuel. destruct fuel as [|fuel]; [lia|].
      rewrite (windows_loop_step fuel m c e acc d) by (auto; lia).
      cbn zeta. rewrite E3. fold c'. rewrite Hrun by lia. now rewrite <- app_assoc.
Qed.

Lemma ceil_div_bounds a d :
  0 < d -> 0 <= a ->
  0 <= ceil_div a d /\ a <= ceil_div a d * d /\ ceil_div a d * d < a + d.
Proof.
  intros Hd Ha. unfold ceil_div.
  pose proof (Z.div_mod (a + d - 1) d ltac:(lia)) as E.
  pose proof (Z.mod_pos_bound (a + d - 1) d Hd) as B.
  assert (0 <= (a + d - 1) / d) by (apply Z.div_pos; lia).
  split; [assumption|]. split; nia.
Qed.

(** Positive durations: the windows tile the range. *)
Lemma generate_time_windows_tiles :
  forall (self : TimeSeriesDataFetcher) (start_time end_time : time_input)
         (s e : datetime),
    parse_time strptime start_time = Returned s ->
    parse_time strptime end_time = Returned e ->
    is_utc s -> is_utc e -> valid_datetime s -> wall s <= wall e ->
    0 < self_time_interval_minutes self ->
    let d := self_time_interval_minutes self * US_PER_MINUTE in
    let n := ceil_div (wall e - wall s) d in
    wall s + n * d <= DATETIME_MAX ->
    exists ws,
      (forall fuel, (Z.to_nat n < fuel)%nat ->
         generate_time_windows strptime fuel self start_time end_time = Returned ws)
      /\ tiles d ws s e.
Proof.
  intros self start_time end_time s e Ps Pe Hs He Hv Hse Hm d n Hmax.
  assert (Hd : 0 < d) by (unfold d, US_PER_MINUTE; lia).
  destruct (ceil_div_bounds (wall e - wall s) d Hd ltac:(lia)) as (Hn0 & Hn1 & Hn2).
  fold n in Hn0, Hn1, Hn2.
  destruct (windows_loop_positive (Z.to_nat n) (self_time_interval_minutes self) s e)
    as (ws & _ & Ht & Hrun); auto; try (rewrite Z2Nat.id by lia; fold d; lia).
  - apply Hv.
  - exists ws. split; [|exact Ht].
    intros fuel Hfuel. unfold generate_time_windows.
    rewrite Ps, Pe. cbn [obind]. now rewrite (Hrun fuel [] Hfuel).
Qed.

(** C2: between UTC instants [start <= end], with a positive duration whose
    steps from [start] stay representable ([start + n * duration] does not
    pass [datetime.max], where [n] is the number of windows), the generator
    returns [n = ceil((end - start) / duration)] windows that begin at
    [start], are contiguous, non-empty and non-overlapping, are [duration]
    long except for a last one cut at [end], and end at [end]. *)
Theorem generate_time_windows_tiles_range :
  forall (self : TimeSeriesDataFetcher) (start_time end_time : time_input)
         (s e : datetime),
    parse_time strptime start_time = Returned s ->
    parse_time strptime end_time = Returned e ->
    is_utc s -> is_utc e -> valid_datetime s -> wall s <= wall e ->
    0 < self_time_interval_minutes self ->
    let d := self_time_interval_minutes self * US_PER_MINUTE in
    let n := ceil_div (wall e - wall s) d in
    wall s + n * d <= DATETIME_MAX ->
    exists ws,
      (forall fuel, (Z.to_nat n < fuel)%nat ->
         generate_time_windows strptime fuel self start_time end_time = Returned ws)
      /\ len ws = n
      /\ tiles d ws s e.
Proof.
  intros self start_time end_time s e Ps Pe Hs He Hv Hse Hm d n Hmax.
  assert (Hd : 0 < d) by (unfold d, US_PER_MINUTE; lia).
  destruct (ceil_div_bounds (wall e - wall s) d Hd ltac:(lia)) as (Hn0 & Hn1 & Hn2).
  fold n in Hn0, Hn1, Hn2.
  destruct (windows_loop_positive (Z.to_nat n) (self_time_interval_minutes self) s e)
    as (ws & Hlen & Ht & Hrun); auto.
  - apply Hv.
  - rewrite Z2Nat.id by lia. fold d. lia.
  - rewrite Z2Nat.id by lia. fold d. lia.
  - rewrite Z2Nat.id by lia. exact Hmax.
  - exists ws. split; [|split].
    + intros fuel Hfuel. unfold generate_time_windows.
      rewrite Ps, Pe. cbn [obind]. now rewrite (Hrun fuel [] Hfuel).
    + unfold len. rewrite Hlen. apply Z2Nat.id. lia.
    + exact Ht.
Qed.

(** *** Non-positive durations *)

Lemma windows_loop_empty_range fuel m c e acc :
  is_utc c -> is_utc e -> wall e <= wall c ->
  windows_loop (S fuel) m c e acc = Returned acc.
Proof.
  intros Hc He Hle. cbn [windows_loop]. rewrite (dt_lt_utc c e Hc He).
  replace (wall c <? wall e) with false by (symmetry; apply Z.ltb_ge; lia).
  reflexivity.
Qed.

(** A step that does not advance never lets the loop return. *)
Lemma windows_loop_nonpositive_no_result fuel :
  forall m c e acc,
    m <= 0 -> is_utc c -> is_utc e -> wall c < wall e ->
    windows_loop fuel m c e acc = OutOfFuel
    \/ windows_loop fuel m c e acc = Raised OverflowError.
Proof.
  induction fuel as [|fuel IH]; intros m c e acc Hm Hc He Hlt; [now left|].
  destruct (timedelta_minutes m) as [d| |] eqn:Htd.
  - assert (Hd : d <= 0).
    { unfold timedelta_minutes in Htd.
      destruct (Z.abs (m / 1440) >? TIMEDELTA_MAX_DAYS); [discriminate|].
      injection Htd as <-. unfold US_PER_MINUTE. lia. }
    destruct ((0 <=? wall c + d) && (wall c + d <=? DATETIME_MAX)) eqn:E.
    + apply andb_true_iff in E. destruct E as [E1 E2].
      apply Z.leb_le in E1. apply Z.leb_le in E2.
      rewrite (windows_loop_step fuel m c e acc d) by (auto; lia).
      cbn zeta.
      replace (wall e <? wall c + d) with false by (symmetry; apply Z.ltb_ge; lia).
      apply IH; auto. simpl. lia.
    + right. cbn [windows_loop]. rewrite (dt_lt_utc c e Hc He).
      replace (wall c <? wall e) with true by (symmetry; apply Z.ltb_lt; lia).
      cbn [obind]. rewrite Htd. cbn [obind]. unfold dt_add. rewrite E. reflexivity.
  - right. cbn [windows_loop]. rewrite (dt_lt_utc c e Hc He).
    replace (wall c <? wall e) with true by (symmetry; apply Z.ltb_lt; lia).
    cbn [obind]. rewrite Htd. cbn [obind].
    unfold timedelta_minutes in Htd.
    destruct (Z.abs (m / 1440) >? TIMEDELTA_MAX_DAYS); congruence.
  - unfold timedelta_minutes in Htd.
    destruct (Z.abs (m / 1440) >? TIMEDELTA_MAX_DAYS); discriminate.
Qed.

(** A zero step leaves the cursor in place: the loop never ends. *)
Lemma windows_loop_zero_diverges fuel :
  forall c e acc,
    is_utc c -> is_utc e -> valid_datetime c -> wall c < wall e ->
    windows_loop fuel 0 c e acc = OutOfFuel.
Proof.
  induction fuel as [|fuel IH]; intros c e acc Hc He Hv Hlt; [reflexivity|].
  rewrite (windows_loop_step fuel 0 c e acc 0); auto.
  - cbn zeta.
    replace (wall e <? wall c + 0) with false by (symmetry; apply Z.ltb_ge; lia).
    apply IH; auto; unfold valid_datetime in *; simpl; lia.
  - unfold valid_datetime in Hv. lia.
Qed.

(** A negative step walks the cursor down until the arithmetic overflows. *)
Lemma windows_loop_negative_overflows (n : nat) :
  forall fuel m c e acc,
    m < 0 -> is_utc c -> is_utc e -> wall c < wall e ->
    wall c < Z.of_nat n -> (n < fuel)%nat ->
    windows_loop fuel m c e acc = Raised OverflowError.
Proof.
  induction n as [|n IH]; intros fuel m c e acc Hm Hc He Hlt Hn Hfuel;
    (destruct fuel as [|fuel]; [lia|]).
  - cbn [windows_loop]. rewrite (dt_lt_utc c e Hc He).
    replace (wall c <? wall e) with true by (symmetry; apply Z.ltb_lt; lia).
    cbn [obind]. unfold timedelta_minutes.
    destruct (Z.abs (m / 1440) >? TIMEDELTA_MAX_DAYS); [reflexivity|].
    cbn [obind]. unfold dt_add.
    replace (0 <=? wall c + m * US_PER_MINUTE) with false
      by (symmetry; apply Z.leb_gt; unfold US_PER_MINUTE; lia).
    reflexivity.
  - destruct (timedelta_minutes m) as [d| |] eqn:Htd.
    + assert (Hd : d < 0).
      { unfold timedelta_minutes in Htd.
        destruct (Z.abs (m / 1440) >? TIMEDELTA_MAX_DAYS); [discriminate|].
        injection Htd as <-. unfold US_PER_MINUTE. lia. }
      destruct ((0 <=? wall c + d) && (wall c + d <=? DATETIME_MAX)) eqn:E.
      * apply andb_true_iff in E. destruct E as [E1 E2].
        apply Z.leb_le in E1. apply Z.leb_le in E2.
        rewrite (windows_loop_step fuel m c e acc d) by (auto; lia).
        cbn zeta.
        replace (wall e <? wall c + d) with false by (symmetry; apply Z.ltb_ge; lia).
        apply IH; auto; simpl; lia.
      * cbn [windows_loop]. rewrite (dt_lt_utc c e Hc He).
        replace (wall c <? wall e) with true by (symmetry; apply Z.ltb_lt; lia).
        cbn [obind]. rewrite Htd. cbn [obind]. unfold dt_add. rewrite E. reflexivity.
    + cbn [windows_loop]. rewrite (dt_lt_utc c e Hc He).
      replace (wall c <? wall e) with true by (symmetry; apply Z.ltb_lt; lia).
      cbn [obind]. rewrite Htd. cbn [obind].
      unfold timedelta_minutes in Htd.
      destruct (Z.abs (m / 1440) >? TIMEDELTA_MAX_DAYS); congruence.
    + unfold timedelta_minutes in Htd.
      destruct (Z.abs (m / 1440) >? TIMEDELTA_MAX_DAYS); discriminate.
Qed.

(** C4: with a duration [<= 0] the generator raises no configuration
    error.  Between UTC instants it returns the empty list when
    [start >= end]; when [start < end] it never returns a list: with
    duration 0 the loop does not terminate, and with a negative duration it
    runs until the datetime arithmetic raises [OverflowError]. *)
Theorem generate_time_windows_nonpositive_duration :
  forall (self : TimeSeriesDataFetcher) (start_time end_time : time_input)
         (s e : datetime),
    parse_time strptime start_time = Returned s ->
    parse_time strptime end_time = Returned e ->
    is_utc s -> is_utc e -> valid_datetime s ->
    self_time_interval_minutes self <= 0 ->
    (wall e <= wall s ->
       forall fuel,
         generate_time_windows strptime (S fuel) self start_time end_time = Returned [])
    /\ (wall s < wall e ->
          (forall fuel,
             generate_time_windows strptime fuel self start_time end_time = OutOfFuel
             \/ generate_time_windows strptime fuel self start_time end_time
                = Raised OverflowError)
          /\ (self_time_interval_minutes self = 0 ->
                forall fuel,
                  generate_time_windows strptime fuel self start_time end_time
                  = OutOfFuel)
          /\ (self_time_interval_minutes self < 0 ->
                forall fuel, (Z.to_nat (wall s) + 1 < fuel)%nat ->
                  generate_time_windows strptime fuel self start_time end_time
                  = Raised OverflowError)).
Proof.
  intros self start_time end_time s e Ps Pe Hs He Hv Hm.
  unfold generate_time_windows. rewrite Ps, Pe. cbn [obind].
  split; [|split; [|split]].
  - intros Hle fuel. now apply windows_loop_empty_range.
  - intros fuel. now apply windows_loop_nonpositive_no_result.
  - intros E fuel. rewrite E. now apply windows_loop_zero_diverges.
  - intros Hneg fuel Hfuel.
    apply (windows_loop_negative_overflows (Z.to_nat (wall s) + 1)); auto.
    destruct Hv as [Hv _]. lia.
Qed.

End WindowFacts.

(** The spec's example: two hours in 60-minute steps give the two windows
    [00:00, 01:00) and [01:00, 02:00). *)
Example generate_time_windows_two_hours :
  generate_time_windows sample_strptime 3 (init None (Some 60) None)
    (TStr "2024-01-01T00:00:00Z") (TStr "2024-01-01T02:00:00Z")
  = Returned [ (t_2024_01_01, t_2024_01_01_01h);
               (t_2024_01_01_01h, t_2024_01_01_02h) ].
Proof. vm_compute. reflexivity. Qed.

Lemma generate_time_windows_tiles_range_witness :
  exists ws,
    (forall fuel, (2 < fuel)%nat ->
       generate_time_windows sample_strptime fuel (init None (Some 60) None)
         (TStr "2024-01-01T00:00:00Z") (TDatetime t_2024_01_01_02h) = Returned ws)
    /\ len ws = 2
    /\ tiles (60 * US_PER_MINUTE) ws t_2024_01_01 t_2024_01_01_02h.
Proof.
  apply (generate_time_windows_tiles_range sample_strptime
           (init None (Some 60) None)
           (TStr "2024-01-01T00:00:00Z") (TDatetime t_2024_01_01_02h)
           t_2024_01_01 t_2024_01_01_02h).
  - reflexivity.
  - reflexivity.
  - reflexivity.
  - reflexivity.
  - unfold valid_datetime. vm_compute. split; discriminate.
  - vm_compute. discriminate.
  - reflexivity.
  - vm_compute. discriminate.
Defined.

(** Half an hour before [datetime.max] the first step of 60 minutes leaves
    the representable range: the call raises instead of returning windows. *)
Lemma generate_time_windows_overflows_near_max :
  generate_time_windows sample_strptime 10 (init None None None)
    (TDatetime (utc_datetime 9999 12 31 23 30 0))
    (TDatetime (utc_datetime 9999 12 31 23 59 59))
  = Raised OverflowError.
Proof. vm_compute. reflexivity. Qed.

Lemma generate_time_windows_nonpositive_duration_witness :
  generate_time_windows sample_strptime 1 (init None (Some (-60)) None)
    (TDatetime t_2024_01_01_02h) (TStr "2024-01-01T00:00:00Z")
  = Returned [].
Proof.
  apply (generate_time_windows_nonpositive_duration sample_strptime
           (init None (Some (-60)) None)
           (TDatetime t_2024_01_01_02h) (TStr "2024-01-01T00:00:00Z")
           t_2024_01_01_02h t_2024_01_01).
  - reflexivity.
  - reflexivity.
  - reflexivity.
  - reflexivity.
  - unfold valid_datetime. vm_compute. split; discriminate.
  - vm_compute. discriminate.
  - vm_compute. discriminate.
Defined.

(** An empty range with a negative duration: the call returns the empty
    list, no error is raised. *)
Lemma generate_time_windows_negative_duration_returns :
  generate_time_windows sample_strptime 10 (init None (Some (-60)) None)
    (TDatetime t_2024_01_01) (TDatetime t_2024_01_01)
  = Returned [].
Proof. vm_compute. reflexivity. Qed.

(** ** Queries against the static store *)

Lemma py_or_same v : py_or (Some v) v = v.
Proof.
  unfold py_or. destruct (v =? 0) eqn:E; reflexivity.
Qed.

Lemma length_insert_row fields r l :
  List.length (insert_row fields r l) = S (List.length l).
Proof.
  induction l as [|x l IH]; simpl; [reflexivity|].
  destruct (order_compare fields r x); simpl; congruence.
Qed.

Lemma length_sort_rows fields l : List.length (sort_rows fields l) = List.length l.
Proof.
  induction l as [|x l IH]; simpl; [reflexivity|].
  now rewrite length_insert_row, IH.
Qed.

Lemma len_nonneg {A : Type} (l : list A) : 0 <= len l.
Proof. unfold len. lia. Qed.

Lemma is_empty_len {A : Type} (l : list A) : is_empty l = (len l =? 0).
Proof. destruct l; reflexivity. Qed.

Lemma len_page fields ordered limit offset :
  0 <= limit -> 0 <= offset ->
  len (page fields ordered limit offset) = Z.min limit (Z.max 0 (len ordered - offset)).
Proof.
  intros Hl Ho. unfold page, len.
  rewrite length_map, length_firstn, length_skipn. lia.
Qed.

Lemma yielded_chunks_app a b :
  yielded_chunks (a ++ b) = yielded_chunks a ++ yielded_chunks b.
Proof. apply flat_map_app. Qed.

Lemma yielded_windows_app a b :
  yielded_windows (a ++ b) = yielded_windows a ++ yielded_windows b.
Proof. apply flat_map_app. Qed.

Lemma issued_queries_app a b :
  issued_queries (a ++ b) = issued_queries a ++ issued_queries b.
Proof. apply flat_map_app. Qed.

Lemma sum_Z_cons x l : sum_Z (x :: l) = x + sum_Z l.
Proof. reflexivity. Qed.

Lemma sum_Z_app a b : sum_Z (a ++ b) = sum_Z a + sum_Z b.
Proof.
  induction a as [|x a IH]; simpl; [reflexivity|]. rewrite IH. lia.
Qed.

Lemma pause_after_yield_app a b :
  no_leading_sleep b ->
  pause_after_yield (a ++ b) = pause_after_yield a ++ pause_after_yield b.
Proof.
  intros Hb. induction a as [|ev a IH]; [reflexivity|].
  cbn [app pause_after_yield]. rewrite IH.
  destruct (yield_size ev); [|reflexivity].
  destruct a as [|ev' a]; [|reflexivity].
  simpl. destruct b as [|[ | | | ] b]; simpl in *; try reflexivity. contradiction.
Qed.

Section StoreFacts.

Variable strptime : string -> string -> option datetime.
Variable sql_where : string -> row -> bool.
Variable db : database.

Lemma get_table_count_known self t cfg st en s e w rows log :
  dict_get t TABLE_CONFIGS = Some cfg ->
  parse_time strptime st = Returned s ->
  parse_time strptime en = Returned e ->
  dict_get t db = Some rows ->
  get_table_count strptime sql_where db self t st en w log
  = (log ++ [EvQuery (SelectCount t (time_field cfg) s e (truthy_str w))],
     Returned (len (filter (selected sql_where (time_field cfg) s e (truthy_str w))
                           rows))).
Proof.
  intros Hc Hs He Hd. unfold get_table_count, bind, lift, emit.
  rewrite Hc, Hs, He. cbn [run_query_count]. now rewrite Hd.
Qed.

(** A count that returns tells everything about its arguments. *)
Lemma get_table_count_returned self t st en w log log' n :
  get_table_count strptime sql_where db self t st en w log = (log', Returned n) ->
  exists cfg s e rows,
    dict_get t TABLE_CONFIGS = Some cfg
    /\ parse_time strptime st = Returned s
    /\ parse_time strptime en = Returned e
    /\ dict_get t db = Some rows
    /\ n = len (filter (selected sql_where (time_field cfg) s e (truthy_str w)) rows)
    /\ log' = log ++ [EvQuery (SelectCount t (time_field cfg) s e (truthy_str w))].
Proof.
  unfold get_table_count, bind, lift, emit, raise.
  destruct (dict_get t TABLE_CONFIGS) as [cfg|] eqn:Hc; [|discriminate].
  destruct (parse_time strptime st) as [s| |] eqn:Hs; try discriminate.
  destruct (parse_time strptime en) as [e| |] eqn:He; try discriminate.
  cbn [run_query_count].
  destruct (dict_get t db) as [rows|] eqn:Hd; [|discriminate].
  intros H. injection H as <- <-.
  exists cfg, s, e, rows. repeat split; auto.
Qed.

Lemma fetch_data_chunk_known self t cfg st en s e w sf rows offset log :
  dict_get t TABLE_CONFIGS = Some cfg ->
  parse_time strptime st = Returned s ->
  parse_time strptime en = Returned e ->
  dict_get t db = Some rows ->
  0 <= self_chunk_size self -> 0 <= offset ->
  fetch_data_chunk strptime sql_where db self t st en offset
                   (Some (self_chunk_size self)) w sf log
  = (log ++ [EvQuery (SelectRows (truthy_list sf) t (time_field cfg) s e
                                 (truthy_str w) (order_fields cfg)
                                 (self_chunk_size self) offset)],
     Returned (page (truthy_list sf)
                    (matching_rows sql_where rows (time_field cfg) s e
                                   (truthy_str w) (order_fields cfg))
                    (self_chunk_size self) offset)).
Proof.
  intros Hc Hs He Hd Hcs Ho. unfold fetch_data_chunk, bind, lift, emit.
  rewrite Hc, Hs, He, py_or_same. cbn [run_query_rows]. rewrite Hd.
  replace (self_chunk_size self <? 0) with false by (symmetry; apply Z.ltb_ge; lia).
  replace (offset <? 0) with false by (symmetry; apply Z.ltb_ge; lia).
  reflexivity.
Qed.

(** Whatever a page query returns is no longer than its limit. *)
Lemma fetch_data_chunk_returned self t st en offset w sf log log' data :
  fetch_data_chunk strptime sql_where db self t st en offset
                   (Some (self_chunk_size self)) w sf log = (log', Returned data) ->
  0 <= self_chunk_size self /\ len data <= self_chunk_size self.
Proof.
  unfold fetch_data_chunk, bind, lift, emit, raise.
  destruct (dict_get t TABLE_CONFIGS) as [cfg|]; [|discriminate].
  destruct (parse_time strptime st) as [s| |]; try discriminate.
  destruct (parse_time strptime en) as [e| |]; try discriminate.
  rewrite py_or_same. cbn [run_query_rows].
  destruct (dict_get t db) as [rows|]; [|discriminate].
  destruct (offset <? 0) eqn:E2; [discriminate|].
  destruct (self_chunk_size self <? 0) eqn:E1; [discriminate|].
  intros H. injection H as <- <-.
  apply Z.ltb_ge in E1. split; [exact E1|].
  unfold len. rewrite length_map, length_firstn. lia.
Qed.

(** Every computation of the fetcher only appends to the log. *)
Lemma get_table_count_log self t st en w log :
  exists evs out,
    get_table_count strptime sql_where db self t st en w log = (log ++ evs, out)
    /\ yielded_windows evs = [] /\ yielded_chunks evs = []
    /\ pause_after_yield evs = [] /\ no_leading_sleep evs.
Proof.
  unfold get_table_count, bind, lift, emit, raise.
  destruct (dict_get t TABLE_CONFIGS) as [cfg|].
  - destruct (parse_time strptime st) as [s| |];
      try (eexists [], _; rewrite app_nil_r; repeat split; reflexivity).
    destruct (parse_time strptime en) as [e| |];
      try (eexists [], _; rewrite app_nil_r; repeat split; reflexivity).
    eexists [_], _. repeat split; reflexivity.
  - eexists [], _. rewrite app_nil_r. repeat split; reflexivity.
Qed.

End StoreFacts.

(** ** Flat mode *)

Section FlatFacts.

Variable strptime : string -> string -> option datetime.
Variable isoformat : datetime -> string.
Variable utcnow : nat -> datetime.
Variable sql_where : string -> row -> bool.
Variable db : database.

Variable self : TimeSeriesDataFetcher.
Variable t : string.
Variable cfg : table_config.
Variables st en : time_input.
Variables s e : datetime.
Variable w : option string.
Variable sf : option (list string).
Variable rows : list row.

Hypothesis known_table : dict_get t TABLE_CONFIGS = Some cfg.
Hypothesis parsed_start : parse_time strptime st = Returned s.
Hypothesis parsed_end : parse_time strptime en = Returned e.
Hypothesis stored : dict_get t db = Some rows.
Hypothesis positive_chunk_size : 0 < self_chunk_size self.

Local Notation ordered :=
  (matching_rows sql_where rows (time_field cfg) s e (truthy_str w) (order_fields cfg)).
Local Notation n :=
  (len (filter (selected sql_where (time_field cfg) s e (truthy_str w)) rows)).

Lemma len_ordered : len ordered = n.
Proof.
  unfold matching_rows, len. now rewrite length_sort_rows.
Qed.

(** One round of the paging loop while rows remain. *)
Lemma chunks_loop_step fuel o idx log :
  0 <= o < n ->
  exists q c,
    chunks_loop strptime isoformat utcnow sql_where db (S fuel) self t st en w sf
                n o idx log
    = chunks_loop strptime isoformat utcnow sql_where db fuel self t st en w sf
                  n (o + self_chunk_size self) (idx + 1)
                  (log ++ [EvQuery q; EvYieldChunk c; EvSleep])
    /\ FlatChunk.chunk_index c = idx + 1
    /\ FlatChunk.chunk_offset c = o
    /\ FlatChunk.chunk_size c = Z.min (self_chunk_size self) (n - o)
    /\ FlatChunk.total_count c = n
    /\ FlatChunk.progress c
       = (inject_Z (o + Z.min (self_chunk_size self) (n - o)) / inject_Z n)%Q
    /\ FlatChunk.data c = page (truthy_list sf) ordered (self_chunk_size self) o.
Proof.
  intros Ho.
  assert (Hlen : len (page (truthy_list sf) ordered (self_chunk_size self) o)
                 = Z.min (self_chunk_size self) (n - o)).
  { rewrite len_page, len_ordered by lia. lia. }
  do 2 eexists. split.
  - cbn [chunks_loop].
    replace (o <? n) with true by (symmetry; apply Z.ltb_lt; lia).
    unfold bind at 1.
    rewrite (fetch_data_chunk_known strptime sql_where db self t cfg st en s e w sf
               rows o log known_table parsed_start parsed_end stored) by lia.
    rewrite is_empty_len, Hlen.
    replace (Z.min (self_chunk_size self) (n - o) =? 0) with false
      by (symmetry; apply Z.eqb_neq; lia).
    unfold bind, config_time_field, now_isoformat, emit, ret.
    rewrite known_table. rewrite <- !app_assoc. cbn [app]. reflexivity.
  - cbn. repeat split; auto.
Qed.

(** With enough fuel the paging loop runs to its end and hands over,
    page after page, exactly the rows from [o] on. *)
Lemma chunks_loop_complete fuel :
  forall o idx log,
    0 <= o -> (Z.to_nat (n - o) < fuel)%nat ->
    exists evs idx',
      chunks_loop strptime isoformat utcnow sql_where db fuel self t st en w sf
                  n o idx log = (log ++ evs, Returned idx')
      /\ sum_Z (map FlatChunk.chunk_size (yielded_chunks evs)) = Z.max 0 (n - o)
      /\ List.concat (map FlatChunk.data (yielded_chunks evs))
         = map (select_columns (truthy_list sf)) (skipn (Z.to_nat o) ordered)
      /\ Z.of_nat (List.length (yielded_chunks evs)) = idx' - idx.
Proof.
  induction fuel as [|fuel IH]; intros o idx log Ho Hfuel; [lia|].
  destruct (Z.lt_ge_cases o n) as [Hlt|Hge].
  - destruct (chunks_loop_step fuel o idx log ltac:(lia))
      as (q & c & Hstep & _ & _ & Hsize & _ & _ & Hdata).
    destruct (IH (o + self_chunk_size self) (idx + 1)
                 (log ++ [EvQuery q; EvYieldChunk c; EvSleep]))
      as (evs & idx' & Hrun & Hsum & Hcat & Hcnt); try lia.
    exists ([EvQuery q; EvYieldChunk c; EvSleep] ++ evs), idx'.
    rewrite Hstep, Hrun, <- app_assoc. split; [reflexivity|].
    rewrite yielded_chunks_app. cbn [yielded_chunks flat_map app].
    cbn [map sum_Z fold_right].
    fold (yielded_chunks evs). fold (sum_Z (map FlatChunk.chunk_size (yielded_chunks evs))).
    rewrite Hsum, Hsize. change (List.concat (?x :: ?l)) with (x ++ List.concat l).
    rewrite Hcat, Hdata. cbn [List.length]. rewrite Nat2Z.inj_succ.
    split; [lia|]. split; [|lia].
    unfold page. rewrite <- map_app. f_equal.
    rewrite Z2Nat.inj_add by lia. rewrite Nat.add_comm, <- skipn_skipn.
    apply firstn_skipn.
  - exists [], idx. cbn [chunks_loop].
    replace (o <? n) with false by (symmetry; apply Z.ltb_ge; lia).
    unfold ret. rewrite app_nil_r. split; [reflexivity|].
    cbn. split; [lia|]. split; [|lia].
    rewrite skipn_all2; [reflexivity|].
    pose proof len_ordered as H. unfold len in *. lia.
Qed.

End FlatFacts.

(** ** What every run looks like *)

Lemma no_leading_sleep_app a b :
  no_leading_sleep a -> no_leading_sleep b -> no_leading_sleep (a ++ b).
Proof. destruct a as [|[ | | | ] a]; simpl; auto. Qed.

Lemma pause_after_yield_no_sleep ev rest size :
  yield_size ev = Some size -> no_leading_sleep rest ->
  pause_after_yield (ev :: rest) = (size, false) :: pause_after_yield rest.
Proof.
  intros Hy Hn. cbn [pause_after_yield]. rewrite Hy.
  destruct rest as [|[ | | | ] rest]; simpl in *; try reflexivity. contradiction.
Qed.

Lemma running_totals_app total a b :
  running_totals total a ->
  running_totals (total + sum_Z (map WindowChunk.chunk_size a)) b ->
  running_totals total (a ++ b).
Proof.
  revert total. induction a as [|c a IH]; intros total Ha Hb.
  - simpl in *. now rewrite Z.add_0_r in Hb.
  - destruct Ha as (Hpos & Htot & Ha). cbn [app running_totals].
    split; [exact Hpos|]. split; [exact Htot|].
    apply IH; [exact Ha|]. rewrite Htot.
    cbn [map sum_Z fold_right] in Hb.
    fold (sum_Z (map WindowChunk.chunk_size a)) in Hb.
    now rewrite Z.add_assoc in Hb.
Qed.

Lemma window_order_same i a b :
  Forall (fun c => WindowChunk.window_index c = i) a ->
  window_order i b -> window_order i (a ++ b).
Proof.
  induction 1 as [|c a Hc Ha IH]; intros Hb; [exact Hb|].
  cbn [app window_order]. split; [now left|]. rewrite Hc. now apply IH.
Qed.

Lemma window_order_app prev i a b :
  prev < i ->
  Forall (fun c => WindowChunk.window_index c = i) a ->
  first_offset_is 0 a ->
  (forall p, p < i + 1 -> window_order p b) ->
  window_order prev (a ++ b).
Proof.
  intros Hp Ha Hf Hb. destruct a as [|c a].
  - apply Hb. lia.
  - inversion Ha as [|? ? Hc Ha']; subst. simpl in Hf.
    cbn [app window_order]. split; [right; split; [lia|exact Hf]|].
    apply window_order_same; [exact Ha'|]. apply Hb. lia.
Qed.

(** The running total at position [k] is the sum of the first [k + 1]
    chunk sizes. *)
Lemma running_totals_prefix_sum cs :
  forall total k c,
    running_totals total cs -> nth_error cs k = Some c ->
    WindowChunk.total_records_so_far c
    = total + sum_Z (map WindowChunk.chunk_size (firstn (S k) cs)).
Proof.
  induction cs as [|c0 cs IH]; intros total k c Hr Hk.
  - destruct k; discriminate.
  - destruct Hr as (Hpos & Htot & Hr). destruct k as [|k].
    + injection Hk as <-. cbn. rewrite Htot. lia.
    + cbn [nth_error] in Hk. rewrite (IH _ k c Hr Hk).
      cbn [firstn map sum_Z fold_right].
      fold (sum_Z (map WindowChunk.chunk_size (firstn (S k) cs))).
      rewrite Htot. lia.
Qed.

Lemma running_totals_increase cs :
  forall total k c c',
    running_totals total cs ->
    nth_error cs k = Some c -> nth_error cs (S k) = Some c' ->
    WindowChunk.total_records_so_far c < WindowChunk.total_records_so_far c'.
Proof.
  induction cs as [|c0 cs IH]; intros total k c c' Hr Hk Hk'.
  - destruct k; discriminate.
  - destruct Hr as (Hpos & Htot & Hr). destruct k as [|k].
    + injection Hk as <-. cbn [nth_error] in Hk'.
      destruct cs as [|c1 cs]; [discriminate|]. injection Hk' as <-.
      destruct Hr as (Hpos1 & Htot1 & _). lia.
    + cbn [nth_error] in Hk, Hk'. exact (IH _ k c c' Hr Hk Hk').
Qed.

Lemma window_order_steps cs :
  forall prev k c c',
    window_order prev cs ->
    nth_error cs k = Some c -> nth_error cs (S k) = Some c' ->
    WindowChunk.window_index c <= WindowChunk.window_index c'
    /\ (WindowChunk.window_index c < WindowChunk.window_index c' ->
        WindowChunk.chunk_offset c' = 0).
Proof.
  induction cs as [|c0 cs IH]; intros prev k c c' Hw Hk Hk'.
  - destruct k; discriminate.
  - destruct Hw as (_ & Hw). destruct k as [|k].
    + injection Hk as <-. cbn [nth_error] in Hk'.
      destruct cs as [|c1 cs]; [discriminate|]. injection Hk' as <-.
      destruct Hw as ([E|[Hlt Hoff]] & _); split; intros; try lia; auto.
    + cbn [nth_error] in Hk, Hk'. exact (IH _ k c c' Hw Hk Hk').
Qed.

Section TraceFacts.

Variable strptime : string -> string -> option datetime.
Variable isoformat : datetime -> string.
Variable utcnow : nat -> datetime.
Variable sql_where : string -> row -> bool.
Variable db : database.

Lemma fetch_data_chunk_log self t st en offset limit w sf log :
  exists evs out,
    fetch_data_chunk strptime sql_where db self t st en offset limit w sf log
    = (log ++ evs, out)
    /\ yielded_windows evs = [] /\ yielded_chunks evs = []
    /\ pause_after_yield evs = [] /\ no_leading_sleep evs.
Proof.
  unfold fetch_data_chunk, bind, lift, emit, raise.
  destruct (dict_get t TABLE_CONFIGS) as [cfg|].
  - destruct (parse_time strptime st) as [s| |];
      try (eexists [], _; rewrite app_nil_r; repeat split; reflexivity).
    destruct (parse_time strptime en) as [e| |];
      try (eexists [], _; rewrite app_nil_r; repeat split; reflexivity).
    eexists [_], _. repeat split; reflexivity.
  - eexists [], _. rewrite app_nil_r. repeat split; reflexivity.
Qed.

(** The paging loop of one window, whatever the store answers. *)
Lemma window_pages_trace fuel :
  forall self t i ws we w sf wc offset total log,
    exists evs out,
      window_pages strptime isoformat utcnow sql_where db fuel self t i ws we w sf
                   wc offset total log = (log ++ evs, out)
      /\ no_leading_sleep evs
      /\ yielded_chunks evs = []
      /\ Forall (fun p => snd p = (fst p =? self_chunk_size self))
                (pause_after_yield evs)
      /\ running_totals total (yielded_windows evs)
      /\ Forall (fun c => WindowChunk.window_index c = i) (yielded_windows evs)
      /\ first_offset_is offset (yielded_windows evs)
      /\ (forall total', out = Returned total' ->
            total' = total + sum_Z (map WindowChunk.chunk_size (yielded_windows evs))).
Proof.
  induction fuel as [|fuel IH]; intros self t i ws we w sf wc offset total log.
  { eexists [], _. cbn [window_pages]. unfold lift. rewrite app_nil_r.
    repeat split; try constructor. discriminate. }
  cbn [window_pages]. destruct (offset <? wc).
  2:{ eexists [], _. unfold ret. rewrite app_nil_r.
      repeat split; try constructor.
      intros total' H. injection H as <-. cbn. lia. }
  unfold bind at 1.
  destruct (fetch_data_chunk_log self t (TDatetime ws) (TDatetime we) offset
              (Some (self_chunk_size self)) w sf log)
    as (evs1 & out1 & E1 & Hw1 & Hc1 & Hp1 & Hn1).
  rewrite E1.
  destruct out1 as [data| |];
    try (exists evs1; eexists; split; [reflexivity|];
         rewrite Hw1, Hc1, Hp1; repeat split; try constructor; auto; discriminate).
  destruct (fetch_data_chunk_returned strptime sql_where db self t _ _ offset w sf
              log _ data E1) as [Hcs Hle].
  rewrite is_empty_len. destruct (len data =? 0) eqn:Eempty.
  { exists evs1; eexists; split; [reflexivity|].
    rewrite Hw1, Hc1, Hp1. repeat split; try constructor; auto.
    intros total' H. injection H as <-. cbn. lia. }
  apply Z.eqb_neq in Eempty. pose proof (len_nonneg data) as Hnn.
  unfold config_time_field.
  destruct (dict_get t TABLE_CONFIGS) as [cfg|].
  2:{ exists evs1; eexists; unfold bind, raise; split; [reflexivity|].
      rewrite Hw1, Hc1, Hp1. repeat split; try constructor; auto. discriminate. }
  unfold bind at 1. unfold ret at 1.
  unfold bind at 1. unfold now_isoformat at 1.
  unfold bind at 1. unfold emit at 1.
  match goal with
  | |- context [EvYieldWindow ?c] => set (chunk := c)
  end.
  destruct (len data >=? self_chunk_size self) eqn:Efull.
  - unfold bind at 1. unfold emit at 1.
    destruct (IH self t i ws we w sf wc (offset + self_chunk_size self)
                 (total + len data)
                 (((log ++ evs1) ++ [EvYieldWindow chunk]) ++ [EvSleep]))
      as (evs & out & E & Hn & Hc & Hp & Hr & Hi & Hf & Ht).
    exists (evs1 ++ [EvYieldWindow chunk; EvSleep] ++ evs), out.
    split; [rewrite E; f_equal; now rewrite <- !app_assoc|].
    rewrite !yielded_windows_app, !yielded_chunks_app, Hw1, Hc1, Hc.
    rewrite pause_after_yield_app, Hp1 by exact I.
    cbn [app yielded_windows yielded_chunks flat_map pause_after_yield yield_size].
    fold (yielded_windows evs).
    split; [apply no_leading_sleep_app; [exact Hn1|exact I]|].
    split; [reflexivity|].
    split.
    { constructor; [|exact Hp]. cbn [fst snd chunk WindowChunk.chunk_size].
      symmetry. apply Z.eqb_eq. apply Z.geb_le in Efull. lia. }
    split; [cbn; repeat split; [lia|exact Hr]|].
    split; [constructor; [reflexivity|exact Hi]|].
    split; [reflexivity|].
    intros total' H. rewrite (Ht total' H). cbn [map]. rewrite sum_Z_cons.
    unfold chunk. cbn [WindowChunk.chunk_size]. lia.
  - unfold bind at 1. unfold ret at 1.
    destruct (IH self t i ws we w sf wc (offset + self_chunk_size self)
                 (total + len data)
                 ((log ++ evs1) ++ [EvYieldWindow chunk]))
      as (evs & out & E & Hn & Hc & Hp & Hr & Hi & Hf & Ht).
    exists (evs1 ++ [EvYieldWindow chunk] ++ evs), out.
    split; [rewrite E; f_equal; now rewrite <- !app_assoc|].
    rewrite !yielded_windows_app, !yielded_chunks_app, Hw1, Hc1, Hc.
    rewrite pause_after_yield_app, Hp1 by exact I.
    cbn [app yielded_windows yielded_chunks flat_map].
    fold (yielded_windows evs).
    rewrite (pause_after_yield_no_sleep _ _ (len data)) by (auto; reflexivity).
    split; [apply no_leading_sleep_app; [exact Hn1|exact I]|].
    split; [reflexivity|].
    split.
    { constructor; [|exact Hp]. cbn [fst snd].
      symmetry. apply Z.eqb_neq.
      destruct (Z.geb_spec (len data) (self_chunk_size self)); [discriminate|lia]. }
    split; [cbn; repeat split; [lia|exact Hr]|].
    split; [constructor; [reflexivity|exact Hi]|].
    split; [reflexivity|].
    intros total' H. rewrite (Ht total' H). cbn [map]. rewrite sum_Z_cons.
    unfold chunk. cbn [WindowChunk.chunk_size]. lia.
Qed.

(** The loop over the windows, whatever the store answers. *)
Lemma for_each_window_trace fuel self t w sf windows :
  forall i total log,
    exists evs out,
      for_each_window strptime isoformat utcnow sql_where db fuel self t w sf
                      i windows total log = (log ++ evs, out)
      /\ no_leading_sleep evs
      /\ yielded_chunks evs = []
      /\ Forall (fun p => snd p = (fst p =? self_chunk_size self))
                (pause_after_yield evs)
      /\ running_totals total (yielded_windows evs)
      /\ Forall (fun c => i <= WindowChunk.window_index c) (yielded_windows evs)
      /\ (forall prev, prev < i -> window_order prev (yielded_windows evs)).
Proof.
  induction windows as [|[ws we] rest IH]; intros i total log.
  { eexists [], _. cbn [for_each_window]. unfold ret. rewrite app_nil_r.
    repeat split; constructor. }
  cbn [for_each_window]. unfold bind at 1.
  destruct (get_table_count_log strptime sql_where db self t
              (TDatetime ws) (TDatetime we) w log)
    as (evs0 & out0 & E0 & Hw0 & Hc0 & Hp0 & Hn0).
  rewrite E0.
  destruct out0 as [wc| |];
    try (exists evs0; eexists; split; [reflexivity|];
         rewrite Hw0, Hc0, Hp0; repeat split; try constructor; auto).
  destruct (wc =? 0).
  - destruct (IH (i + 1) total (log ++ evs0))
      as (evs & out & E & Hn & Hc & Hp & Hr & Hi & Ho).
    exists (evs0 ++ evs), out.
    split; [rewrite E; f_equal; now rewrite <- app_assoc|].
    rewrite yielded_windows_app, yielded_chunks_app, Hw0, Hc0, Hc.
    rewrite pause_after_yield_app, Hp0 by exact Hn.
    cbn [app].
    split; [now apply no_leading_sleep_app|].
    split; [reflexivity|]. split; [exact Hp|]. split; [exact Hr|].
    split.
    + eapply Forall_impl; [|exact Hi]. cbn. intros; lia.
    + intros prev Hprev. apply Ho. lia.
  - unfold bind at 1.
    destruct (window_pages_trace fuel self t i ws we w sf wc 0 total (log ++ evs0))
      as (evs1 & out1 & E1 & Hn1 & Hc1 & Hp1 & Hr1 & Hi1 & Hf1 & Ht1).
    rewrite E1.
    destruct out1 as [total1| |].
    + destruct (IH (i + 1) total1 ((log ++ evs0) ++ evs1))
        as (evs & out & E & Hn & Hc & Hp & Hr & Hi & Ho).
      exists (evs0 ++ evs1 ++ evs), out.
      split; [rewrite E; f_equal; now rewrite <- !app_assoc|].
      rewrite !yielded_windows_app, !yielded_chunks_app, Hw0, Hc0, Hc1, Hc.
      rewrite pause_after_yield_app, Hp0 by (now apply no_leading_sleep_app).
      rewrite pause_after_yield_app by exact Hn.
      cbn [app].
      split; [apply no_leading_sleep_app; [exact Hn0|now apply no_leading_sleep_app]|].
      split; [reflexivity|].
      split; [apply Forall_app; split; assumption|].
      split.
      { apply running_totals_app; [exact Hr1|].
        now rewrite <- (Ht1 total1 eq_refl). }
      split.
      { apply Forall_app; split.
        - eapply Forall_impl; [|exact Hi1]. cbn. intros; lia.
        - eapply Forall_impl; [|exact Hi]. cbn. intros; lia. }
      intros prev Hprev. now apply (window_order_app prev i).
    + exists (evs0 ++ evs1); eexists.
      split; [now rewrite <- app_assoc|].
      rewrite yielded_windows_app, yielded_chunks_app, Hw0, Hc0, Hc1.
      rewrite pause_after_yield_app, Hp0 by exact Hn1.
      cbn [app].
      split; [now apply no_leading_sleep_app|].
      split; [reflexivity|]. split; [exact Hp1|]. split; [exact Hr1|].
      split.
      { eapply Forall_impl; [|exact Hi1]. cbn. intros; lia. }
      intros prev Hprev.
      rewrite <- (app_nil_r (yielded_windows evs1)).
      apply (window_order_app prev i); auto. intros; exact I.
    + exists (evs0 ++ evs1); eexists.
      split; [now rewrite <- app_assoc|].
      rewrite yielded_windows_app, yielded_chunks_app, Hw0, Hc0, Hc1.
      rewrite pause_after_yield_app, Hp0 by exact Hn1.
      cbn [app].
      split; [now apply no_leading_sleep_app|].
      split; [reflexivity|]. split; [exact Hp1|]. split; [exact Hr1|].
      split.
      { eapply Forall_impl; [|exact Hi1]. cbn. intros; lia. }
      intros prev Hprev.
      rewrite <- (app_nil_r (yielded_windows evs1)).
      apply (window_order_app prev i); auto. intros; exact I.
Qed.

Lemma stream_data_by_time_windows_trace fuel self t st en w sf :
  exists evs out,
    stream_data_by_time_windows strptime isoformat utcnow sql_where db fuel self t
                                st en w sf [] = (evs, out)
    /\ Forall (fun p => snd p = (fst p =? self_chunk_size self))
              (pause_after_yield evs)
    /\ running_totals 0 (yielded_windows evs)
    /\ Forall (fun c => 1 <= WindowChunk.window_index c) (yielded_windows evs)
    /\ window_order 0 (yielded_windows evs).
Proof.
  unfold stream_data_by_time_windows, bind, lift.
  destruct (generate_time_windows strptime fuel self st en) as [windows| |];
    try (eexists [], _; repeat split; constructor).
  destruct (for_each_window_trace fuel self t w sf windows 1 0 [])
    as (evs & out & E & Hn & Hc & Hp & Hr & Hi & Ho).
  exists evs, out. repeat split; auto. apply Ho. lia.
Qed.

(** The paging loop of flat mode, whatever the store answers. *)
Lemma chunks_loop_trace fuel :
  forall self t st en w sf total offset idx log,
    exists evs out,
      chunks_loop strptime isoformat utcnow sql_where db fuel self t st en w sf
                  total offset idx log = (log ++ evs, out)
      /\ no_leading_sleep evs
      /\ Forall (fun p => snd p = true) (pause_after_yield evs).
Proof.
  induction fuel as [|fuel IH]; intros self t st en w sf total offset idx log.
  { eexists [], _. cbn [chunks_loop]. unfold lift. rewrite app_nil_r.
    repeat split; constructor. }
  cbn [chunks_loop]. destruct (offset <? total).
  2:{ eexists [], _. unfold ret. rewrite app_nil_r. repeat split; constructor. }
  unfold bind at 1.
  destruct (fetch_data_chunk_log self t st en offset
              (Some (self_chunk_size self)) w sf log)
    as (evs1 & out1 & E1 & Hw1 & Hc1 & Hp1 & Hn1).
  rewrite E1.
  destruct out1 as [data| |];
    try (exists evs1; eexists; split; [reflexivity|];
         rewrite Hp1; repeat split; try constructor; auto).
  destruct (is_empty data).
  { exists evs1; eexists; split; [reflexivity|].
    rewrite Hp1. repeat split; try constructor; auto. }
  unfold config_time_field.
  destruct (dict_get t TABLE_CONFIGS) as [cfg|].
  2:{ exists evs1; eexists; unfold bind, raise; split; [reflexivity|].
      rewrite Hp1. repeat split; try constructor; auto. }
  unfold bind at 1. unfold ret at 1.
  unfold bind at 1. unfold now_isoformat at 1.
  unfold bind at 1. unfold emit at 1.
  unfold bind at 1. unfold emit at 1.
  match goal with
  | |- context [EvYieldChunk ?c] => set (chunk := c)
  end.
  destruct (IH self t st en w sf total (offset + self_chunk_size self) (idx + 1)
               (((log ++ evs1) ++ [EvYieldChunk chunk]) ++ [EvSleep]))
    as (evs & out & E & Hn & Hp).
  exists (evs1 ++ [EvYieldChunk chunk; EvSleep] ++ evs), out.
  split; [rewrite E; f_equal; now rewrite <- !app_assoc|].
  rewrite pause_after_yield_app, Hp1 by exact I.
  cbn [app pause_after_yield yield_size].
  split; [apply no_leading_sleep_app; [exact Hn1|exact I]|].
  constructor; [reflexivity|exact Hp].
Qed.

Lemma stream_data_by_chunks_trace fuel self t st en w sf :
  exists evs out,
    stream_data_by_chunks strptime isoformat utcnow sql_where db fuel self t
                          st en w sf [] = (evs, out)
    /\ Forall (fun p => snd p = true) (pause_after_yield evs).
Proof.
  unfold stream_data_by_chunks. unfold bind at 1.
  destruct (get_table_count_log strptime sql_where db self t st en w [])
    as (evs0 & out0 & E0 & Hw0 & Hc0 & Hp0 & Hn0).
  rewrite E0. cbn [app].
  destruct out0 as [total| |];
    try (exists evs0; eexists; split; [reflexivity|]; rewrite Hp0; constructor).
  destruct (total =? 0).
  { exists evs0; eexists; split; [reflexivity|]. rewrite Hp0; constructor. }
  destruct (chunks_loop_trace fuel self t st en w sf total 0 0 evs0)
    as (evs & out & E & Hn & Hp).
  exists (evs0 ++ evs), out. split; [exact E|].
  rewrite pause_after_yield_app, Hp0 by exact Hn. exact Hp.
Qed.

(** C6: in windowed mode the pause follows a yielded chunk exactly when the
    chunk is a full page ([chunk_size] equal to the configured chunk size);
    in flat mode the pause follows every yielded chunk, full or short. *)
Theorem pause_after_full_page_or_always :
  forall fuel self t st en w sf,
    Forall (fun p => snd p = (fst p =? self_chunk_size self))
      (pause_after_yield
         (fst (stream_data_by_time_windows strptime isoformat utcnow sql_where db
                 fuel self t st en w sf [])))
    /\ Forall (fun p => snd p = true)
         (pause_after_yield
            (fst (stream_data_by_chunks strptime isoformat utcnow sql_where db
                    fuel self t st en w sf []))).
Proof.
  intros fuel self t st en w sf. split.
  - destruct (stream_data_by_time_windows_trace fuel self t st en w sf)
      as (evs & out & E & Hp & _). now rewrite E.
  - destruct (stream_data_by_chunks_trace fuel self t st en w sf)
      as (evs & out & E & Hp). now rewrite E.
Qed.

(** C10: in windowed mode [total_records_so_far] of the [k]-th yielded
    envelope is the sum of the [chunk_size] of the envelopes yielded up to
    and including it, so it grows strictly along the whole call and across
    windows; [window_index] starts at 1 or more and never decreases, and
    the first envelope of every window has [chunk_offset] 0. *)
Theorem windowed_envelopes_running_total :
  forall fuel self t st en w sf,
    let ys := yielded_windows
                (fst (stream_data_by_time_windows strptime isoformat utcnow
                        sql_where db fuel self t st en w sf [])) in
    (forall k c, nth_error ys k = Some c ->
       WindowChunk.total_records_so_far c
       = sum_Z (map WindowChunk.chunk_size (firstn (S k) ys)))
    /\ (forall k c c', nth_error ys k = Some c -> nth_error ys (S k) = Some c' ->
          WindowChunk.total_records_so_far c < WindowChunk.total_records_so_far c'
          /\ WindowChunk.window_index c <= WindowChunk.window_index c'
          /\ (WindowChunk.window_index c < WindowChunk.window_index c' ->
              WindowChunk.chunk_offset c' = 0))
    /\ (forall c, nth_error ys 0 = Some c -> WindowChunk.chunk_offset c = 0)
    /\ Forall (fun c => 1 <= WindowChunk.window_index c) ys.
Proof.
  intros fuel self t st en w sf ys.
  destruct (stream_data_by_time_windows_trace fuel self t st en w sf)
    as (evs & out & E & _ & Hr & Hi & Ho).
  unfold ys. rewrite E. cbn [fst].
  split; [|split; [|split]].
  - intros k c Hk. now rewrite (running_totals_prefix_sum _ 0 k c Hr Hk).
  - intros k c c' Hk Hk'. split.
    + exact (running_totals_increase _ 0 k c c' Hr Hk Hk').
    + exact (window_order_steps _ 0 k c c' Ho Hk Hk').
  - intros c Hc. destruct (yielded_windows evs) as [|c0 rest]; [discriminate|].
    injection Hc as <-. destruct Ho as ([E0|[_ Hoff]] & _); [|exact Hoff].
    inversion Hi; subst. lia.
  - exact Hi.
Qed.

End TraceFacts.

(** ** Rows are neither lost nor repeated *)

Lemma insert_row_permutation fields r l : Permutation (insert_row fields r l) (r :: l).
Proof.
  induction l as [|x l IH]; simpl; [reflexivity|].
  destruct (order_compare fields r x); try reflexivity.
  rewrite IH. apply perm_swap.
Qed.

Lemma sort_rows_permutation fields l : Permutation (sort_rows fields l) l.
Proof.
  induction l as [|x l IH]; simpl; [reflexivity|].
  rewrite insert_row_permutation. now constructor.
Qed.

Lemma tiles_ends d ws :
  forall c e, tiles d ws c e -> tzinfo e = tzinfo c /\ wall c <= wall e.
Proof.
  induction ws as [|[a b] ws IH]; intros c e Ht.
  - simpl in Ht. subst. split; [reflexivity|lia].
  - destruct Ht as (-> & Hlt & _ & Htz & Ht).
    destruct (IH b e Ht) as [Htz' Hle]. split; [congruence|lia].
Qed.

Lemma utc_micros_le a b :
  tzinfo a = tzinfo b -> wall a <= wall b -> utc_micros a <= utc_micros b.
Proof.
  unfold utc_micros. intros -> H. destruct (tzinfo b); lia.
Qed.

Section RangeSplit.

Variable sql_where : string -> row -> bool.

(** A range cut at [b] selects each row of the range on exactly one side. *)
Lemma selected_split tf a b e cond r :
  utc_micros a <= utc_micros b -> utc_micros b <= utc_micros e ->
  selected sql_where tf a e cond r
  = selected sql_where tf a b cond r || selected sql_where tf b e cond r
  /\ (selected sql_where tf a b cond r = true ->
      selected sql_where tf b e cond r = false).
Proof.
  intros Hab Hbe. unfold selected, in_time_range.
  destruct (dict_get tf r) as [[ | | | |ts]|]; try (split; [reflexivity|discriminate]).
  destruct (match cond with Some c => sql_where c r | None => true end);
    rewrite ?andb_true_r, ?andb_false_r; [|split; [reflexivity|discriminate]].
  destruct (Z.leb_spec (utc_micros a) (utc_micros ts));
    destruct (Z.ltb_spec (utc_micros ts) (utc_micros e));
    destruct (Z.ltb_spec (utc_micros ts) (utc_micros b));
    destruct (Z.leb_spec (utc_micros b) (utc_micros ts));
    cbn; try lia; split; try reflexivity; try discriminate.
Qed.

Lemma filter_range_split tf a b e cond rows :
  utc_micros a <= utc_micros b -> utc_micros b <= utc_micros e ->
  Permutation (filter (selected sql_where tf a e cond) rows)
              (filter (selected sql_where tf a b cond) rows
               ++ filter (selected sql_where tf b e cond) rows).
Proof.
  intros Hab Hbe. induction rows as [|r rows IH]; [reflexivity|].
  destruct (selected_split tf a b e cond r Hab Hbe) as [E X].
  cbn [filter]. rewrite E.
  destruct (selected sql_where tf a b cond r) eqn:E1.
  - rewrite (X eq_refl). cbn. now constructor.
  - cbn. destruct (selected sql_where tf b e cond r).
    + rewrite IH. apply Permutation_middle.
    + exact IH.
Qed.

Lemma count_range_split tf a b e cond rows :
  utc_micros a <= utc_micros b -> utc_micros b <= utc_micros e ->
  len (filter (selected sql_where tf a e cond) rows)
  = len (filter (selected sql_where tf a b cond) rows)
    + len (filter (selected sql_where tf b e cond) rows).
Proof.
  intros Hab Hbe. unfold len.
  rewrite (Permutation_length (filter_range_split tf a b e cond rows Hab Hbe)).
  rewrite length_app. lia.
Qed.

End RangeSplit.

(** ** Windowed mode over a known table *)

Section WindowedFacts.

Variable strptime : string -> string -> option datetime.
Variable isoformat : datetime -> string.
Variable utcnow : nat -> datetime.
Variable sql_where : string -> row -> bool.
Variable db : database.

Variable self : TimeSeriesDataFetcher.
Variable t : string.
Variable cfg : table_config.
Variable w : option string.
Variable sf : option (list string).
Variable rows : list row.

Hypothesis known_table : dict_get t TABLE_CONFIGS = Some cfg.
Hypothesis stored : dict_get t db = Some rows.
Hypothesis positive_chunk_size : 0 < self_chunk_size self.

Local Notation "'in_window' a b" :=
  (filter (selected sql_where (time_field cfg) a b (truthy_str w)) rows)
  (at level 10, a at level 9, b at level 9).
Local Notation "'ordered_window' a b" :=
  (matching_rows sql_where rows (time_field cfg) a b (truthy_str w) (order_fields cfg))
  (at level 10, a at level 9, b at level 9).

(** With enough fuel the paging loop of a window runs to its end and hands
    over, page after page, exactly the rows of the window from [o] on. *)
Lemma window_pages_complete fuel i a b :
  forall o total log,
    0 <= o -> (Z.to_nat (len (in_window a b) - o) < fuel)%nat ->
    exists evs,
      window_pages strptime isoformat utcnow sql_where db fuel self t i a b w sf
                   (len (in_window a b)) o total log
      = (log ++ evs,
         Returned (total + sum_Z (map WindowChunk.chunk_size (yielded_windows evs))))
      /\ sum_Z (map WindowChunk.chunk_size (yielded_windows evs))
         = Z.max 0 (len (in_window a b) - o)
      /\ List.concat (map WindowChunk.data (yielded_windows evs))
         = map (select_columns (truthy_list sf))
               (skipn (Z.to_nat o) (ordered_window a b)).
Proof.
  assert (Hlo : len (ordered_window a b) = len (in_window a b)).
  { unfold matching_rows, len. now rewrite length_sort_rows. }
  induction fuel as [|fuel IH]; intros o total log Ho Hfuel; [lia|].
  destruct (Z.lt_ge_cases o (len (in_window a b))) as [Hlt|Hge].
  - assert (Hlen : len (page (truthy_list sf) (ordered_window a b)
                             (self_chunk_size self) o)
                   = Z.min (self_chunk_size self) (len (in_window a b) - o)).
    { rewrite len_page, Hlo by lia. lia. }
    cbn [window_pages].
    replace (o <? len (in_window a b)) with true by (symmetry; apply Z.ltb_lt; lia).
    unfold bind at 1.
    rewrite (fetch_data_chunk_known strptime sql_where db self t cfg
               (TDatetime a) (TDatetime b) a b w sf rows o log
               known_table eq_refl eq_refl stored) by lia.
    rewrite is_empty_len, Hlen.
    replace (Z.min (self_chunk_size self) (len (in_window a b) - o) =? 0) with false
      by (symmetry; apply Z.eqb_neq; lia).
    unfold config_time_field. rewrite known_table.
    unfold bind at 1. unfold ret at 1.
    unfold bind at 1. unfold now_isoformat at 1.
    unfold bind at 1. unfold emit at 1.
    match goal with
    | |- context [EvYieldWindow ?c] => set (chunk := c)
    end.
    match goal with
    | |- context [bind ?m _ ?l] =>
        assert (Hpause : exists evs0,
                   m l = (l ++ evs0, Returned tt)
                   /\ yielded_windows evs0 = [])
    end.
    { destruct (Z.min (self_chunk_size self) (len (in_window a b) - o)
                >=? self_chunk_size self).
      - exists [EvSleep]. split; reflexivity.
      - exists []. unfold ret. now rewrite app_nil_r. }
    destruct Hpause as (evs0 & Epause & Hw0).
    unfold bind at 1. rewrite Epause.
    destruct (IH (o + self_chunk_size self)
                 (total + Z.min (self_chunk_size self) (len (in_window a b) - o))
                 (((log ++ [EvQuery
                     (SelectRows (truthy_list sf) t (time_field cfg) a b
                        (truthy_str w) (order_fields cfg) (self_chunk_size self) o)])
                   ++ [EvYieldWindow chunk]) ++ evs0))
      as (evs & Hrun & Hsum & Hcat); try lia.
    eexists (_ :: EvYieldWindow chunk :: evs0 ++ evs).
    split.
    { rewrite Hrun. f_equal.
      - rewrite <- !app_assoc. reflexivity.
      - f_equal. cbn [yielded_windows flat_map app].
        fold (yielded_windows (evs0 ++ evs)).
        rewrite yielded_windows_app, Hw0. cbn [app map]. rewrite sum_Z_cons.
        unfold chunk. cbn [WindowChunk.chunk_size]. lia. }
    cbn [yielded_windows flat_map app].
    fold (yielded_windows (evs0 ++ evs)).
    rewrite yielded_windows_app, Hw0. cbn [app map]. rewrite sum_Z_cons.
    change (List.concat (?x :: ?l)) with (x ++ List.concat l).
    rewrite Hsum, Hcat. unfold chunk. cbn [WindowChunk.chunk_size WindowChunk.data].
    split; [lia|].
    unfold page. rewrite <- map_app. f_equal.
    rewrite Z2Nat.inj_add by lia. rewrite Nat.add_comm, <- skipn_skipn.
    apply firstn_skipn.
  - exists []. cbn [window_pages].
    replace (o <? len (in_window a b)) with false by (symmetry; apply Z.ltb_ge; lia).
    unfold ret. rewrite app_nil_r. cbn. rewrite Z.add_0_r.
    split; [reflexivity|]. split; [lia|].
    rewrite skipn_all2; [reflexivity|]. unfold len in *. lia.
Qed.

(** With enough fuel the loop over a tiling of [c .. e] hands over every
    selected row of the range exactly once. *)
Lemma for_each_window_complete d fuel windows :
  forall c e i total log,
    tiles d windows c e ->
    (Z.to_nat (len (in_window c e)) < fuel)%nat ->
    exists evs total',
      for_each_window strptime isoformat utcnow sql_where db fuel self t w sf
                      i windows total log = (log ++ evs, Returned total')
      /\ sum_Z (map WindowChunk.chunk_size (yielded_windows evs))
         = len (in_window c e)
      /\ Permutation (List.concat (map WindowChunk.data (yielded_windows evs)))
                     (map (select_columns (truthy_list sf)) (in_window c e)).
Proof.
  induction windows as [|[a b] rest IH]; intros c e i total log Ht Hfuel.
  - simpl in Ht. subst e. exists [], total. cbn [for_each_window]. unfold ret.
    rewrite app_nil_r. split; [reflexivity|].
    assert (E : in_window c c = []).
    { clear. induction rows as [|r l IHl]; [reflexivity|]. cbn [filter].
      replace (selected sql_where (time_field cfg) c c (truthy_str w) r) with false;
        [exact IHl|].
      unfold selected, in_time_range.
      destruct (dict_get (time_field cfg) r) as [[ | | | |ts]|]; try reflexivity.
      destruct (Z.leb_spec (utc_micros c) (utc_micros ts));
        destruct (Z.ltb_spec (utc_micros ts) (utc_micros c)); cbn; try reflexivity; lia. }
    rewrite E. cbn. split; [reflexivity|constructor].
  - destruct Ht as (-> & Hlt & _ & Htz & Ht).
    destruct (tiles_ends _ _ _ _ Ht) as [Htz' Hle].
    assert (Hab : utc_micros c <= utc_micros b)
      by (apply utc_micros_le; [congruence|lia]).
    assert (Hbe : utc_micros b <= utc_micros e)
      by (apply utc_micros_le; [congruence|lia]).
    pose proof (count_range_split sql_where (time_field cfg) c b e (truthy_str w)
                  rows Hab Hbe) as Hsplit.
    pose proof (filter_range_split sql_where (time_field cfg) c b e (truthy_str w)
                  rows Hab Hbe) as Hperm.
    pose proof (len_nonneg (in_window c b)) as Hn1.
    pose proof (len_nonneg (in_window b e)) as Hn2.
    cbn [for_each_window]. unfold bind at 1.
    rewrite (get_table_count_known strptime sql_where db self t cfg
               (TDatetime c) (TDatetime b) c b w rows log
               known_table eq_refl eq_refl stored).
    destruct (len (in_window c b) =? 0) eqn:E0.
    + apply Z.eqb_eq in E0.
      destruct (IH b e (i + 1) total
                   (log ++ [EvQuery (SelectCount t (time_field cfg) c b (truthy_str w))]))
        as (evs & total' & Hrun & Hsum & Hcat); [exact Ht|lia|].
      eexists (_ :: evs), total'.
      split; [rewrite Hrun; now rewrite <- app_assoc|].
      cbn [yielded_windows flat_map app]. fold (yielded_windows evs).
      split; [lia|].
      rewrite Hcat, Hperm.
      assert (E : in_window c b = []).
      { unfold len in E0. destruct (in_window c b); [reflexivity|discriminate]. }
      now rewrite E.
    + apply Z.eqb_neq in E0. unfold bind at 1.
      destruct (window_pages_complete fuel i c b 0 total
                  (log ++ [EvQuery (SelectCount t (time_field cfg) c b (truthy_str w))]))
        as (evs1 & Hrun1 & Hsum1 & Hcat1); try lia.
      rewrite Hrun1.
      destruct (IH b e (i + 1)
                   (total + sum_Z (map WindowChunk.chunk_size (yielded_windows evs1)))
                   ((log ++ [EvQuery (SelectCount t (time_field cfg) c b (truthy_str w))])
                    ++ evs1))
        as (evs & total' & Hrun & Hsum & Hcat); [exact Ht|lia|].
      eexists (_ :: evs1 ++ evs), total'.
      split; [rewrite Hrun; now rewrite <- !app_assoc|].
      cbn [yielded_windows flat_map app]. fold (yielded_windows (evs1 ++ evs)).
      rewrite yielded_windows_app, !map_app, sum_Z_app, concat_app.
      split; [lia|].
      rewrite Hcat, Hcat1, Hperm, map_app. cbn [Z.to_nat skipn].
      apply Permutation_app_tail, Permutation_map.
      apply sort_rows_permutation.
Qed.

End WindowedFacts.

(** ** The table check *)

Section TableCheck.

Variable strptime : string -> string -> option datetime.
Variable isoformat : datetime -> string.
Variable utcnow : nat -> datetime.
Variable sql_where : string -> row -> bool.
Variable db : database.

Lemma dt_lt_irrefl d : dt_lt d d = Returned false.
Proof.
  unfold dt_lt. destruct (tzinfo d); now rewrite Z.ltb_irrefl.
Qed.

Lemma parse_time_raises x e :
  parse_time strptime x = Raised e -> exists s, e = ValueError_time_format s.
Proof.
  destruct x as [s|d]; [|discriminate]. cbn [parse_time].
  induction TIME_FORMATS as [|f l IH]; cbn [parse_formats].
  - intros H. injection H as <-. now exists s.
  - destruct (strptime s f); [discriminate|exact IH].
Qed.

(** A registered table never raises the unsupported-table error in the two
    query functions. *)
Lemma registered_table_accepted self t cfg st en offset limit w sf log :
  dict_get t TABLE_CONFIGS = Some cfg ->
  (forall name,
     snd (get_table_count strptime sql_where db self t st en w log)
     <> Raised (ValueError_unsupported_table name))
  /\ (forall name,
        snd (fetch_data_chunk strptime sql_where db self t st en offset limit w sf log)
        <> Raised (ValueError_unsupported_table name)).
Proof.
  intros Hc. unfold get_table_count, fetch_data_chunk, bind, lift, emit.
  rewrite Hc.
  destruct (parse_time strptime st) as [s|x|] eqn:Es; cbn [snd];
    [|destruct (parse_time_raises _ _ Es) as [? ->]; split; discriminate
     |split; discriminate].
  destruct (parse_time strptime en) as [e|x|] eqn:Ee; cbn [snd];
    [|destruct (parse_time_raises _ _ Ee) as [? ->]; split; discriminate
     |split; discriminate].
  split; intros name.
  - cbn [run_query_count]. destruct (dict_get t db); discriminate.
  - cbn [run_query_rows]. destruct (dict_get t db); [|discriminate].
    destruct (offset <? 0); [discriminate|].
    destruct (py_or limit (self_chunk_size self) <? 0); discriminate.
Qed.

(** C7: for a table name outside the registry [get_table_count],
    [fetch_data_chunk] and flat mode raise the unsupported-table error with
    no query sent, and so does windowed mode as soon as there is a window to
    process; but windowed mode over an empty range yields nothing and
    returns normally, the unknown table going unnoticed. *)
Theorem unknown_table_rejected_except_windowed_empty_range :
  forall (t : string) fuel self st en offset limit w sf log,
    dict_get t TABLE_CONFIGS = None ->
    get_table_count strptime sql_where db self t st en w log
      = (log, Raised (ValueError_unsupported_table t))
    /\ fetch_data_chunk strptime sql_where db self t st en offset limit w sf log
       = (log, Raised (ValueError_unsupported_table t))
    /\ stream_data_by_chunks strptime isoformat utcnow sql_where db fuel self t
                             st en w sf log
       = (log, Raised (ValueError_unsupported_table t))
    /\ (forall window rest,
          generate_time_windows strptime fuel self st en = Returned (window :: rest) ->
          stream_data_by_time_windows strptime isoformat utcnow sql_where db fuel
                                      self t st en w sf log
          = (log, Raised (ValueError_unsupported_table t)))
    /\ (forall d,
          stream_data_by_time_windows strptime isoformat utcnow sql_where db (S fuel)
                                      self t (TDatetime d) (TDatetime d) w sf log
          = (log, Returned 0)).
Proof.
  intros t fuel self st en offset limit w sf log Hn.
  assert (Hcount : forall a b l,
             get_table_count strptime sql_where db self t a b w l
             = (l, Raised (ValueError_unsupported_table t))).
  { intros. unfold get_table_count. now rewrite Hn. }
  split; [apply Hcount|]. split.
  { unfold fetch_data_chunk. now rewrite Hn. }
  split.
  { unfold stream_data_by_chunks, bind. now rewrite Hcount. }
  split.
  - intros [ws we] rest Hgen.
    unfold stream_data_by_time_windows, bind, lift. rewrite Hgen.
    cbn [for_each_window]. unfold bind. now rewrite Hcount.
  - intros d. unfold stream_data_by_time_windows, bind, lift, generate_time_windows.
    cbn [parse_time obind windows_loop].
    rewrite dt_lt_irrefl. reflexivity.
Qed.

End TableCheck.

Lemma unknown_table_rejected_except_windowed_empty_range_witness :
  stream_data_by_chunks sample_strptime sample_isoformat sample_utcnow
    sample_sql_where sample_db 5 (init None None None) "no_such_table"
    (TDatetime t_2024_01_01) (TDatetime t_2024_01_01) None None []
  = ([], Raised (ValueError_unsupported_table "no_such_table"))
  /\ stream_data_by_time_windows sample_strptime sample_isoformat sample_utcnow
       sample_sql_where sample_db 5 (init None None None) "no_such_table"
       (TDatetime t_2024_01_01) (TDatetime t_2024_01_01) None None []
     = ([], Returned 0).
Proof.
  pose proof (unknown_table_rejected_except_windowed_empty_range
                sample_strptime sample_isoformat sample_utcnow sample_sql_where
                sample_db "no_such_table" 4 (init None None None)
                (TDatetime t_2024_01_01) (TDatetime t_2024_01_01) 0 None None None []
                eq_refl) as (_ & _ & _ & _ & Hw).
  pose proof (unknown_table_rejected_except_windowed_empty_range
                sample_strptime sample_isoformat sample_utcnow sample_sql_where
                sample_db "no_such_table" 5 (init None None None)
                (TDatetime t_2024_01_01) (TDatetime t_2024_01_01) 0 None None None []
                eq_refl) as (_ & _ & Hc & _).
  split; [exact Hc|exact (Hw t_2024_01_01)].
Defined.

(** ** Counts against streams *)

(** [SELECT *] hands every row over as it is stored. *)
Lemma map_select_all (rows : list row) : map (select_columns None) rows = rows.
Proof.
  induction rows as [|r rows IH]; [reflexivity|]. cbn [map select_columns].
  now rewrite IH.
Qed.

Section Totals.

Variable strptime : string -> string -> option datetime.
Variable isoformat : datetime -> string.
Variable utcnow : nat -> datetime.
Variable sql_where : string -> row -> bool.
Variable db : database.

(** C1: over a static store, with a chunk size that is positive and within
    the store's [bigint], a positive window duration, all columns selected
    ([select_fields] not given), order fields that tell the rows of the
    table apart and a range of UTC instants whose window steps stay
    representable, the count returned by [get_table_count]
    equals the sum of the [chunk_size] of the envelopes of flat mode and of
    windowed mode; flat mode hands over the selected rows in query order
    and windowed mode hands over a rearrangement of them, so no row is lost
    or repeated. *)
Theorem count_equals_streamed_chunk_sizes :
  forall self t st en w sf s e total log0,
    0 < self_chunk_size self <= BIGINT_MAX ->
    0 < self_time_interval_minutes self ->
    truthy_list sf = None ->
    (forall cfg rows,
       dict_get t TABLE_CONFIGS = Some cfg -> dict_get t db = Some rows ->
       order_tells_rows_apart (order_fields cfg) rows) ->
    parse_time strptime st = Returned s ->
    parse_time strptime en = Returned e ->
    is_utc s -> is_utc e -> valid_datetime s -> wall s <= wall e ->
    let d := self_time_interval_minutes self * US_PER_MINUTE in
    let k := ceil_div (wall e - wall s) d in
    wall s + k * d <= DATETIME_MAX ->
    get_table_count strptime sql_where db self t st en w [] = (log0, Returned total) ->
    exists cfg rows,
      dict_get t TABLE_CONFIGS = Some cfg /\ dict_get t db = Some rows
      /\ forall fuel, (Z.to_nat total < fuel)%nat -> (Z.to_nat k < fuel)%nat ->
           (exists log r,
              stream_data_by_chunks strptime isoformat utcnow sql_where db fuel
                                    self t st en w sf [] = (log, Returned r)
              /\ sum_Z (map FlatChunk.chunk_size (yielded_chunks log)) = total
              /\ List.concat (map FlatChunk.data (yielded_chunks log))
                 = matching_rows sql_where rows (time_field cfg) s e
                                 (truthy_str w) (order_fields cfg))
           /\ (exists log r,
                 stream_data_by_time_windows strptime isoformat utcnow sql_where db
                                             fuel self t st en w sf []
                 = (log, Returned r)
                 /\ sum_Z (map WindowChunk.chunk_size (yielded_windows log)) = total
                 /\ Permutation
                      (List.concat (map WindowChunk.data (yielded_windows log)))
                      (filter (selected sql_where (time_field cfg) s e
                                        (truthy_str w)) rows)).
Proof.
  intros self t st en w sf s e total log0 [Hcs Hbig] Hti Hsf Horder Ps Pe Hs He Hv Hse
         d k Hmax Hcount.
  destruct (get_table_count_returned _ _ _ _ _ _ _ _ _ _ _ Hcount)
    as (cfg & s' & e' & rows & Hc & Ps' & Pe' & Hd & Htotal & Hlog0).
  rewrite Ps in Ps'. injection Ps' as <-. rewrite Pe in Pe'. injection Pe' as <-.
  exists cfg, rows. split; [exact Hc|]. split; [exact Hd|].
  intros fuel Hf1 Hf2. split.
  - unfold stream_data_by_chunks. unfold bind at 1. rewrite Hcount.
    destruct (total =? 0) eqn:E0.
    + apply Z.eqb_eq in E0. exists log0, 0. split; [reflexivity|].
      rewrite Hlog0. cbn. split; [lia|].
      assert (El : List.length (matching_rows sql_where rows (time_field cfg) s e
                                  (truthy_str w) (order_fields cfg)) = 0%nat).
      { unfold matching_rows. rewrite length_sort_rows. unfold len in Htotal. lia. }
      apply length_zero_iff_nil in El. now rewrite El.
    + destruct (chunks_loop_complete strptime isoformat utcnow sql_where db self t cfg
                  st en s e w sf rows Hc Ps Pe Hd Hcs fuel 0 0 log0)
        as (evs & idx' & Hrun & Hsum & Hcat & _); [lia|rewrite <- Htotal; lia|].
      rewrite Htotal. exists (log0 ++ evs), idx'. split; [exact Hrun|].
      rewrite yielded_chunks_app, Hlog0. cbn [yielded_chunks flat_map app].
      fold (yielded_chunks evs). rewrite Hsum, Hcat, Hsf, map_select_all.
      cbn [Z.to_nat skipn].
      split; [|reflexivity]. pose proof (len_nonneg
        (filter (selected sql_where (time_field cfg) s e (truthy_str w)) rows)). lia.
  - destruct (generate_time_windows_tiles strptime self st en s e
                Ps Pe Hs He Hv Hse Hti Hmax) as (ws & Hgen & Ht).
    unfold stream_data_by_time_windows, bind, lift.
    rewrite (Hgen fuel Hf2).
    destruct (for_each_window_complete strptime isoformat utcnow sql_where db self t
                cfg w sf rows Hc Hd Hcs _ fuel ws s e 1 0 [] Ht)
      as (evs & total' & Hrun & Hsum & Hperm); [rewrite <- Htotal; exact Hf1|].
    exists evs, total'. rewrite Hrun. cbn [app]. split; [reflexivity|].
    rewrite Htotal. split; [assumption|].
    rewrite Hsf, map_select_all in Hperm. exact Hperm.
Qed.

(** C5: with [chunk_size] 1000 and a count of 2500, flat mode yields three
    envelopes of sizes 1000, 1000 and 500 at offsets 0, 1000 and 2000 with
    [chunk_index] 1, 2, 3; each [progress] is
    [(chunk_offset + chunk_size) / total_count], and the last one is 1. *)
Theorem flat_mode_2500_rows_in_three_chunks :
  forall fuel self t st en w sf log0,
    self_chunk_size self = 1000 ->
    get_table_count strptime sql_where db self t st en w [] = (log0, Returned 2500) ->
    (3 < fuel)%nat ->
    exists log,
      stream_data_by_chunks strptime isoformat utcnow sql_where db fuel self t
                            st en w sf [] = (log, Returned 3)
      /\ map (fun c => (FlatChunk.chunk_index c, FlatChunk.chunk_offset c,
                        FlatChunk.chunk_size c, FlatChunk.total_count c))
             (yielded_chunks log)
         = [ (1, 0, 1000, 2500); (2, 1000, 1000, 2500); (3, 2000, 500, 2500) ]
      /\ Forall (fun c => FlatChunk.progress c
                          = (inject_Z (FlatChunk.chunk_offset c + FlatChunk.chunk_size c)
                             / inject_Z (FlatChunk.total_count c))%Q)
                (yielded_chunks log)
      /\ Forall2 Qeq (map FlatChunk.progress (yielded_chunks log))
                 [ (2 # 5)%Q; (4 # 5)%Q; 1%Q ].
Proof.
  intros fuel self t st en w sf log0 Hcs Hcount Hfuel.
  destruct (get_table_count_returned _ _ _ _ _ _ _ _ _ _ _ Hcount)
    as (cfg & s & e & rows & Hc & Ps & Pe & Hd & Htotal & Hlog0).
  assert (Hpos : 0 < self_chunk_size self) by lia.
  pose proof (chunks_loop_step strptime isoformat utcnow sql_where db self t cfg
                st en s e w sf rows Hc Ps Pe Hd Hpos) as Hstep.
  rewrite <- Htotal, Hcs in Hstep.
  destruct fuel as [|[|[|[|fuel]]]]; try lia.
  unfold stream_data_by_chunks. unfold bind at 1. rewrite Hcount.
  change (2500 =? 0) with false. cbv iota.
  destruct (Hstep (S (S (S fuel))) 0 0 log0 ltac:(lia))
    as (q1 & c1 & E1 & Hi1 & Ho1 & Hs1 & Ht1 & Hp1 & _).
  rewrite E1. change (0 + 1000) with 1000. change (0 + 1) with 1.
  destruct (Hstep (S (S fuel)) 1000 1 (log0 ++ [EvQuery q1; EvYieldChunk c1; EvSleep])
              ltac:(lia))
    as (q2 & c2 & E2 & Hi2 & Ho2 & Hs2 & Ht2 & Hp2 & _).
  rewrite E2. change (1000 + 1000) with 2000. change (1 + 1) with 2.
  destruct (Hstep (S fuel) 2000 2
              ((log0 ++ [EvQuery q1; EvYieldChunk c1; EvSleep])
               ++ [EvQuery q2; EvYieldChunk c2; EvSleep]) ltac:(lia))
    as (q3 & c3 & E3 & Hi3 & Ho3 & Hs3 & Ht3 & Hp3 & _).
  rewrite E3. change (2000 + 1000) with 3000. change (2 + 1) with 3.
  cbn [chunks_loop]. change (3000 <? 2500) with false. cbv iota. unfold ret.
  eexists. split; [reflexivity|].
  rewrite !yielded_chunks_app, Hlog0. cbn [yielded_chunks flat_map app map].
  rewrite Hi1, Ho1, Hs1, Ht1, Hi2, Ho2, Hs2, Ht2, Hi3, Ho3, Hs3, Ht3, Hp1, Hp2, Hp3.
  split; [reflexivity|]. split.
  - repeat constructor;
      [rewrite Hp1, Ho1, Hs1, Ht1|rewrite Hp2, Ho2, Hs2, Ht2|rewrite Hp3, Ho3, Hs3, Ht3];
      reflexivity.
  - repeat constructor; reflexivity.
Qed.

End Totals.

(** ** Runs on the sample stores *)

Lemma sample_tweets_told_apart :
  order_tells_rows_apart (order_fields sample_tweets_config) sample_tweets.
Proof.
  intros i j r1 r2 H1 H2 Hcmp.
  destruct i as [|[|[|[|[|i]]]]]; cbn in H1; try (destruct i; discriminate H1);
    injection H1 as <-;
    (destruct j as [|[|[|[|[|j]]]]]; cbn in H2; try (destruct j; discriminate H2);
     injection H2 as <-; try reflexivity; vm_compute in Hcmp; discriminate Hcmp).
Qed.

Lemma count_equals_streamed_chunk_sizes_witness :
  exists cfg rows,
    dict_get "tweets" TABLE_CONFIGS = Some cfg
    /\ dict_get "tweets" sample_db = Some rows
    /\ forall fuel,
         (Z.to_nat 3%Z < fuel)%nat ->
         (Z.to_nat (ceil_div (wall t_2024_01_01_02h - wall t_2024_01_01)
                             (self_time_interval_minutes (init (Some 2) (Some 60) None)
                              * US_PER_MINUTE))%Z < fuel)%nat ->
         (exists log r,
            stream_data_by_chunks sample_strptime sample_isoformat sample_utcnow
              sample_sql_where sample_db fuel (init (Some 2) (Some 60) None) "tweets"
              (TStr "2024-01-01T00:00:00Z") (TStr "2024-01-01T02:00:00Z")
              (Some "lang = 'en'") None [] = (log, Returned r)
            /\ sum_Z (map FlatChunk.chunk_size (yielded_chunks log)) = 3
            /\ List.concat (map FlatChunk.data (yielded_chunks log))
               = matching_rows sample_sql_where rows (time_field cfg)
                   t_2024_01_01 t_2024_01_01_02h
                   (truthy_str (Some "lang = 'en'")) (order_fields cfg))
         /\ (exists log r,
               stream_data_by_time_windows sample_strptime sample_isoformat
                 sample_utcnow sample_sql_where sample_db fuel
                 (init (Some 2) (Some 60) None) "tweets"
                 (TStr "2024-01-01T00:00:00Z") (TStr "2024-01-01T02:00:00Z")
                 (Some "lang = 'en'") None [] = (log, Returned r)
               /\ sum_Z (map WindowChunk.chunk_size (yielded_windows log)) = 3
               /\ Permutation
                    (List.concat (map WindowChunk.data (yielded_windows log)))
                    (filter (selected sample_sql_where (time_field cfg)
                               t_2024_01_01 t_2024_01_01_02h
                               (truthy_str (Some "lang = 'en'"))) rows)).
Proof.
  apply (count_equals_streamed_chunk_sizes sample_strptime sample_isoformat
           sample_utcnow sample_sql_where sample_db
           (init (Some 2) (Some 60) None) "tweets"
           (TStr "2024-01-01T00:00:00Z") (TStr "2024-01-01T02:00:00Z")
           (Some "lang = 'en'") None t_2024_01_01 t_2024_01_01_02h 3
           [EvQuery (SelectCount "tweets" "created_at_ts" t_2024_01_01
                       t_2024_01_01_02h (Some "lang = 'en'"))]).
  - vm_compute. split; [reflexivity|discriminate].
  - reflexivity.
  - reflexivity.
  - intros cfg rows Hc Hd. cbn in Hc, Hd. injection Hc as <-. injection Hd as <-.
    exact sample_tweets_told_apart.
  - reflexivity.
  - reflexivity.
  - reflexivity.
  - reflexivity.
  - unfold valid_datetime. vm_compute. split; discriminate.
  - vm_compute. discriminate.
  - vm_compute. discriminate.
  - vm_compute. reflexivity.
Defined.

(** Where the count and the streams part: a range that ends close to
    [datetime.max] stops windowed mode with [OverflowError] before any
    envelope; so does a negative window duration, here at its first step;
    and a negative chunk size makes the store reject the first page of flat
    mode. *)
Lemma count_differs_from_streamed_chunk_sizes :
  (snd (get_table_count sample_strptime sample_sql_where late_db
          (init None None None) "tweets"
          (TDatetime (utc_datetime 9999 12 31 23 30 0))
          (TDatetime (utc_datetime 9999 12 31 23 59 59)) None [])
   = Returned 1
   /\ stream_data_by_time_windows sample_strptime sample_isoformat sample_utcnow
        sample_sql_where late_db 10 (init None None None) "tweets"
        (TDatetime (utc_datetime 9999 12 31 23 30 0))
        (TDatetime (utc_datetime 9999 12 31 23 59 59)) None None []
      = ([], Raised OverflowError))
  /\ (snd (get_table_count sample_strptime sample_sql_where early_db
             (init None (Some (-60)) None) "tweets"
             (TDatetime (utc_datetime 1 1 1 0 30 0))
             (TDatetime (utc_datetime 1 1 1 2 0 0)) None [])
      = Returned 1
      /\ stream_data_by_time_windows sample_strptime sample_isoformat sample_utcnow
           sample_sql_where early_db 10 (init None (Some (-60)) None) "tweets"
           (TDatetime (utc_datetime 1 1 1 0 30 0))
           (TDatetime (utc_datetime 1 1 1 2 0 0)) None None []
         = ([], Raised OverflowError))
  /\ (snd (get_table_count sample_strptime sample_sql_where sample_db
             (init (Some (-5)) None None) "tweets"
             (TDatetime t_2024_01_01) (TDatetime t_2024_01_01_02h) None [])
      = Returned 4
      /\ snd (stream_data_by_chunks sample_strptime sample_isoformat sample_utcnow
                sample_sql_where sample_db 10 (init (Some (-5)) None None) "tweets"
                (TDatetime t_2024_01_01) (TDatetime t_2024_01_01_02h) None None [])
         = Raised (PostgresError "LIMIT must not be negative")
      /\ yielded_chunks
           (fst (stream_data_by_chunks sample_strptime sample_isoformat sample_utcnow
                   sample_sql_where sample_db 10 (init (Some (-5)) None None) "tweets"
                   (TDatetime t_2024_01_01) (TDatetime t_2024_01_01_02h) None None []))
         = []).
Proof. vm_compute. repeat split; reflexivity. Qed.

Lemma flat_mode_2500_rows_in_three_chunks_witness :
  exists log,
    stream_data_by_chunks sample_strptime sample_isoformat sample_utcnow
      sample_sql_where large_db 4 (init (Some 1000) None None) "tweets"
      (TStr "2024-01-01T00:00:00Z") (TStr "2024-01-01T02:00:00Z") None None []
    = (log, Returned 3)
    /\ map (fun c => (FlatChunk.chunk_index c, FlatChunk.chunk_offset c,
                      FlatChunk.chunk_size c, FlatChunk.total_count c))
           (yielded_chunks log)
       = [ (1, 0, 1000, 2500); (2, 1000, 1000, 2500); (3, 2000, 500, 2500) ]
    /\ Forall (fun c => FlatChunk.progress c
                        = (inject_Z (FlatChunk.chunk_offset c + FlatChunk.chunk_size c)
                           / inject_Z (FlatChunk.total_count c))%Q)
              (yielded_chunks log)
    /\ Forall2 Qeq (map FlatChunk.progress (yielded_chunks log))
               [ (2 # 5)%Q; (4 # 5)%Q; 1%Q ].
Proof.
  apply (flat_mode_2500_rows_in_three_chunks sample_strptime sample_isoformat
           sample_utcnow sample_sql_where large_db 4 (init (Some 1000) None None)
           "tweets" (TStr "2024-01-01T00:00:00Z") (TStr "2024-01-01T02:00:00Z")
           None None
           [EvQuery (SelectCount "tweets" "created_at_ts" t_2024_01_01
                       t_2024_01_01_02h None)]).
  - reflexivity.
  - vm_compute. reflexivity.
  - lia.
Defined.

(** Flat mode pauses after a short page too: one chunk of 4 rows with the
    default chunk size 1000, and the pause follows it. *)
Lemma flat_mode_pauses_after_short_page :
  pause_after_yield
    (fst (stream_data_by_chunks sample_strptime sample_isoformat sample_utcnow
            sample_sql_where sample_db 10 (init None None None) "tweets"
            (TDatetime t_2024_01_01) (TDatetime t_2024_01_01_02h) None None []))
  = [(4, true)]
  /\ self_chunk_size (init None None None) = 1000.
Proof. vm_compute. split; reflexivity. Qed.

(** A windowed run: two windows of an hour, pages of one row. *)
Example windowed_run_on_sample :
  map (fun c => (WindowChunk.window_index c, WindowChunk.chunk_offset c,
                 WindowChunk.chunk_size c, WindowChunk.total_records_so_far c))
      (yielded_windows
         (fst (stream_data_by_time_windows sample_strptime sample_isoformat
                 sample_utcnow sample_sql_where sample_db 10
                 (init (Some 1) (Some 60) None) "tweets"
                 (TDatetime t_2024_01_01) (TDatetime t_2024_01_01_02h) None None [])))
  = [ (1, 0, 1, 1); (1, 1, 1, 2); (2, 0, 1, 3); (2, 1, 1, 4) ].
Proof. vm_compute. reflexivity. Qed.

(** In windowed mode only the full page is followed by the pause. *)
Example windowed_pauses_on_sample :
  pause_after_yield
    (fst (stream_data_by_time_windows sample_strptime sample_isoformat
            sample_utcnow sample_sql_where sample_db 10
            (init (Some 3) (Some 120) None) "tweets"
            (TDatetime t_2024_01_01) (TDatetime t_2024_01_01_02h) None None []))
  = [(3, true); (1, false)].
Proof. vm_compute. reflexivity. Qed.

(** ** Line-delimited export *)

Lemma append_assoc (a b c : string) : ((a ++ b) ++ c = a ++ (b ++ c))%string.
Proof. induction a as [|x a IH]; simpl; [reflexivity|now rewrite IH]. Qed.

Lemma append_empty_r (a : string) : (a ++ EmptyString = a)%string.
Proof. induction a as [|x a IH]; simpl; [reflexivity|now rewrite IH]. Qed.

Lemma string_forallb_app p a b :
  string_forallb p (a ++ b)%string = string_forallb p a && string_forallb p b.
Proof.
  induction a as [|x a IH]; simpl; [reflexivity|]. now rewrite IH, andb_assoc.
Qed.

Lemma string_forallb_impl (p q : ascii -> bool) s :
  (forall c, p c = true -> q c = true) ->
  string_forallb p s = true -> string_forallb q s = true.
Proof.
  intros Hpq. induction s as [|c s IH]; simpl; [reflexivity|].
  intros H. apply andb_true_iff in H. destruct H as [H1 H2].
  now rewrite (Hpq c H1), IH.
Qed.

Lemma string_existsb_none (p q : ascii -> bool) s :
  (forall c, p c = true -> q c = false) ->
  string_forallb p s = true -> string_existsb q s = false.
Proof.
  intros Hpq. induction s as [|c s IH]; simpl; [reflexivity|].
  intros H. apply andb_true_iff in H. destruct H as [H1 H2].
  now rewrite (Hpq c H1), IH.
Qed.

(** *** String literals *)

Lemma scan_string_escape_char c tl :
  scan_string (escape_char c ++ tl) = cons_char c (scan_string tl).
Proof.
  destruct c as [[|] [|] [|] [|] [|] [|] [|] [|]]; reflexivity.
Qed.

Lemma scan_string_escape s rest :
  scan_string (escape s ++ String dquote rest) = Some (s, rest).
Proof.
  induction s as [|c s IH]; [reflexivity|].
  cbn [escape]. rewrite append_assoc, scan_string_escape_char, IH. reflexivity.
Qed.

Lemma escape_char_one_line c : string_forallb not_newline (escape_char c) = true.
Proof.
  destruct c as [[|] [|] [|] [|] [|] [|] [|] [|]]; reflexivity.
Qed.

Lemma escape_one_line s : string_forallb not_newline (escape s) = true.
Proof.
  induction s as [|c s IH]; [reflexivity|].
  cbn [escape]. now rewrite string_forallb_app, escape_char_one_line, IH.
Qed.

Lemma encode_string_one_line s : string_forallb not_newline (encode_string s) = true.
Proof.
  unfold encode_string. cbn [string_forallb].
  rewrite string_forallb_app, escape_one_line. reflexivity.
Qed.

(** *** Numbers *)

Lemma string_of_uint_digits d :
  string_forallb is_int_char (NilEmpty.string_of_uint d) = true.
Proof. induction d; simpl; auto. Qed.

Lemma to_uint_nonnil p : Pos.to_uint p <> Decimal.Nil.
Proof.
  intros E. pose proof (DecimalPos.Unsigned.of_to p) as H.
  rewrite E in H. discriminate.
Qed.

Lemma int_repr_chars z :
  int_repr z <> EmptyString /\ string_forallb is_int_char (int_repr z) = true.
Proof.
  unfold int_repr. destruct z as [|p|p]; cbn [Z.to_int NilZero.string_of_int].
  - split; [discriminate|reflexivity].
  - unfold NilZero.string_of_uint.
    pose proof (to_uint_nonnil p) as Hn. pose proof (string_of_uint_digits (Pos.to_uint p)).
    destruct (Pos.to_uint p); try contradiction; split; try discriminate; assumption.
  - split; [discriminate|]. cbn [string_forallb].
    unfold NilZero.string_of_uint.
    pose proof (to_uint_nonnil p) as Hn. pose proof (string_of_uint_digits (Pos.to_uint p)).
    destruct (Pos.to_uint p); try contradiction; assumption.
Qed.

Lemma int_repr_reads_back z :
  option_map (fun d => PyInt (Z.of_int d)) (NilZero.int_of_string (int_repr z))
  = Some (PyInt z).
Proof.
  unfold int_repr. rewrite NilZero.isi.
  - cbn [option_map]. now rewrite DecimalZ.of_to.
  - destruct z; cbn; try discriminate.
    intros E. injection E as E. exact (to_uint_nonnil _ E).
  - destruct z; cbn; try discriminate.
    intros E. injection E as E. exact (to_uint_nonnil _ E).
Qed.

Lemma is_int_char_number c : is_int_char c = true -> is_number_char c = true.
Proof.
  destruct c as [[|] [|] [|] [|] [|] [|] [|] [|]]; vm_compute; congruence.
Qed.

Lemma is_int_char_no_mark c : is_int_char c = true -> is_float_mark c = false.
Proof.
  destruct c as [[|] [|] [|] [|] [|] [|] [|] [|]]; vm_compute; congruence.
Qed.

Lemma is_number_char_one_line c : is_number_char c = true -> not_newline c = true.
Proof.
  destruct c as [[|] [|] [|] [|] [|] [|] [|] [|]]; vm_compute; congruence.
Qed.

Lemma span_number_token tok rest :
  string_forallb is_number_char tok = true -> delimited rest ->
  span_number (tok ++ rest) = (tok, rest).
Proof.
  intros Ht Hr. induction tok as [|c tok IH].
  - cbn. destruct rest as [|c rest]; [reflexivity|].
    cbn in Hr |- *. now rewrite Hr.
  - cbn in Ht. apply andb_true_iff in Ht. destruct Ht as [Hc Ht].
    cbn [append span_number]. rewrite Hc, (IH Ht). reflexivity.
Qed.

Lemma number_char_is_no_opener c :
  is_number_char c = true ->
  is_ws c = false /\ Ascii.eqb c dquote = false
  /\ Ascii.eqb c "[" = false /\ Ascii.eqb c "{" = false
  /\ Ascii.eqb c "]" = false /\ Ascii.eqb c "}" = false
  /\ Ascii.eqb c "n" = false /\ Ascii.eqb c "t" = false /\ Ascii.eqb c "f" = false.
Proof.
  destruct c as [[|] [|] [|] [|] [|] [|] [|] [|]]; vm_compute; intros H;
    try discriminate H; repeat split.
Qed.

Lemma skip_ws_head c tl : is_ws c = false -> skip_ws (String c tl) = String c tl.
Proof. intros H. cbn [skip_ws]. now rewrite H. Qed.

Lemma join_comma_cons a l :
  join_comma (a :: l)
  = (a ++ match l with [] => EmptyString | _ => ", " ++ join_comma l end)%string.
Proof.
  destruct l; cbn [join_comma]; [now rewrite append_empty_r|reflexivity].
Qed.

Lemma pyvalue_nested_ind (P : pyvalue -> Prop) :
  P PyNone ->
  (forall b, P (PyBool b)) ->
  (forall z, P (PyInt z)) ->
  (forall q, P (PyFloat q)) ->
  (forall s, P (PyStr s)) ->
  (forall d, P (PyDatetime d)) ->
  (forall items, Forall P items -> P (PyList items)) ->
  (forall items, Forall (fun kv => P (snd kv)) items -> P (PyDict items)) ->
  forall v, P v.
Proof.
  intros HN HB HI HF HS HD HL HM. fix IH 1.
  intros [ |b|z|q|s|d|items|items];
    [exact HN|apply HB|apply HI|apply HF|apply HS|apply HD| | ].
  - apply HL. revert items. fix IHl 1.
    intros [|x items]; constructor; [apply IH|apply IHl].
  - apply HM. revert items. fix IHl 1.
    intros [|[k x] items]; constructor; [apply IH|apply IHl].
Qed.

Section Reading.

Variable datetime_str : datetime -> string.
Variable float_repr : Q -> string.
Variable float_parse : string -> option Q.

Local Notation dumps := (json_dumps datetime_str float_repr).
Local Notation view := (json_view datetime_str).
Local Notation readable := (floats_readable float_repr float_parse).

Lemma parse_value_string fuel s :
  parse_value float_parse (S fuel) (String dquote s)
  = option_map (fun p => (PyStr (fst p), snd p)) (scan_string s).
Proof. reflexivity. Qed.

Lemma parse_value_list fuel s :
  parse_value float_parse (S fuel) (String "[" s)
  = match skip_ws s with
    | EmptyString => None
    | String c' rest' =>
        if Ascii.eqb c' "]" then Some (PyList [], rest')
        else option_map (fun p => (PyList (fst p), snd p))
                        (parse_elements float_parse fuel (String c' rest'))
    end.
Proof. reflexivity. Qed.

Lemma parse_value_dict fuel s :
  parse_value float_parse (S fuel) (String "{" s)
  = match skip_ws s with
    | EmptyString => None
    | String c' rest' =>
        if Ascii.eqb c' "}" then Some (PyDict [], rest')
        else option_map (fun p => (PyDict (fst p), snd p))
                        (parse_members float_parse fuel (String c' rest'))
    end.
Proof. reflexivity. Qed.

Lemma parse_elements_step fuel s :
  parse_elements float_parse (S fuel) s
  = match parse_value float_parse fuel s with
    | None => None
    | Some (v, rest) =>
        match skip_ws rest with
        | EmptyString => None
        | String c rest' =>
            if Ascii.eqb c "," then
              option_map (fun p => (v :: fst p, snd p))
                         (parse_elements float_parse fuel (skip_ws rest'))
            else if Ascii.eqb c "]" then Some ([v], rest')
            else None
        end
    end.
Proof. reflexivity. Qed.

Lemma parse_members_step fuel s :
  parse_members float_parse (S fuel) (String dquote s)
  = match scan_string s with
    | None => None
    | Some (key, rest1) =>
        match skip_ws rest1 with
        | EmptyString => None
        | String c1 rest2 =>
            if Ascii.eqb c1 ":" then
              match parse_value float_parse fuel (skip_ws rest2) with
              | None => None
              | Some (v, rest3) =>
                  match skip_ws rest3 with
                  | EmptyString => None
                  | String c3 rest4 =>
                      if Ascii.eqb c3 "," then
                        option_map (fun p => ((key, v) :: fst p, snd p))
                                   (parse_members float_parse fuel (skip_ws rest4))
                      else if Ascii.eqb c3 "}" then Some ([(key, v)], rest4)
                      else None
                  end
              end
            else None
        end
    end.
Proof. reflexivity. Qed.

(** A number token followed by a delimiter is read as that number. *)
Lemma parse_value_number fuel tok rest v :
  tok <> EmptyString ->
  string_forallb is_number_char tok = true ->
  delimited rest ->
  parse_number float_parse tok = Some v ->
  parse_value float_parse (S fuel) (tok ++ rest) = Some (v, rest).
Proof.
  intros Hne Hchars Hrest Hnum.
  pose proof (span_number_token tok rest Hchars Hrest) as Hspan.
  destruct tok as [|c tok]; [contradiction|].
  cbn [string_forallb] in Hchars. apply andb_true_iff in Hchars.
  destruct Hchars as [Hc _].
  destruct (number_char_is_no_opener c Hc)
    as (_ & Hq & Hl & Hd & _ & _ & Hn & Ht & Hf).
  cbn [append] in *. cbn [parse_value].
  rewrite Hq, Hl, Hd, Hn, Ht, Hf, Hspan, Hnum. reflexivity.
Qed.

(** The first character of a serialized value is never white space and
    never closes a list or an object. *)
Lemma dumps_head v tail :
  readable v ->
  exists c tl,
    (dumps v ++ tail)%string = String c tl
    /\ is_ws c = false
    /\ Ascii.eqb c "]" = false /\ Ascii.eqb c "}" = false.
Proof.
  assert (Hnum : forall tok,
             tok <> EmptyString -> string_forallb is_number_char tok = true ->
             exists c tl, (tok ++ tail)%string = String c tl
                          /\ is_ws c = false
                          /\ Ascii.eqb c "]" = false /\ Ascii.eqb c "}" = false).
  { intros [|c tok] Hne Hchars; [contradiction|].
    cbn [string_forallb] in Hchars. apply andb_true_iff in Hchars.
    destruct Hchars as [Hc _].
    destruct (number_char_is_no_opener c Hc) as (Hw & _ & _ & _ & Hb & Hbr & _).
    exists c, (tok ++ tail)%string. repeat split; assumption. }
  destruct v as [ |[|]|z|q|s|d|items|items]; intros Hr;
    try (eexists _, _; split; [reflexivity|]; repeat split; reflexivity).
  - destruct (int_repr_chars z) as [Hne Hchars]. apply Hnum; [exact Hne|].
    apply (string_forallb_impl is_int_char); [apply is_int_char_number|exact Hchars].
  - destruct Hr as (Hne & Hchars & _). now apply Hnum.
Qed.

Lemma skip_ws_dumps v tail :
  readable v -> skip_ws (dumps v ++ tail) = (dumps v ++ tail)%string.
Proof.
  intros Hr. destruct (dumps_head v tail Hr) as (c & tl & E & Hw & _).
  rewrite E. now apply skip_ws_head.
Qed.

Local Notation reads_back v :=
  (readable v ->
   forall fuel rest,
     (reading_fuel v <= fuel)%nat -> delimited rest ->
     parse_value float_parse fuel (dumps v ++ rest) = Some (view v, rest)).

Lemma readable_list items :
  fold_right (fun x acc => readable x /\ acc) True items -> Forall readable items.
Proof.
  induction items as [|x items IH]; cbn; intros H; constructor; tauto.
Qed.

Lemma readable_members (items : list (string * pyvalue)) :
  fold_right (fun kv acc => readable (snd kv) /\ acc) True items ->
  Forall (fun kv => readable (snd kv)) items.
Proof.
  induction items as [|x items IH]; cbn; intros H; constructor; tauto.
Qed.

Lemma comma_shape (j tail : string) :
  ((", " ++ j) ++ tail)%string = String "," (String " " (j ++ tail)).
Proof. reflexivity. Qed.

Lemma empty_shape (tail : string) : (EmptyString ++ tail)%string = tail.
Proof. reflexivity. Qed.

Lemma bracket_shape (o c : ascii) (j tail : string) :
  ((String o EmptyString ++ j ++ String c EmptyString) ++ tail)%string
  = String o (j ++ String c tail).
Proof. cbn [append]. f_equal. now rewrite append_assoc. Qed.

Lemma parse_elements_dumps items :
  Forall (fun v => reads_back v) items ->
  Forall readable items ->
  items <> [] ->
  forall fuel rest,
    (fold_right (fun x n => S (reading_fuel x + n)) 0 items <= fuel)%nat ->
    parse_elements float_parse fuel
      (join_comma (map dumps items) ++ String "]" rest)
    = Some (map view items, rest).
Proof.
  induction items as [|x items IH]; intros HP Hr Hne fuel rest Hfuel;
    [contradiction|].
  inversion HP as [|? ? Px HP']; subst. inversion Hr as [|? ? Rx Hr']; subst.
  cbn [fold_right] in Hfuel. destruct fuel as [|fuel]; [lia|].
  cbn [map]. rewrite join_comma_cons, append_assoc, parse_elements_step.
  destruct items as [|y items].
  - cbn [map]. rewrite empty_shape.
    rewrite (Px Rx fuel (String "]" rest)) by (try lia; reflexivity).
    rewrite skip_ws_head by reflexivity. reflexivity.
  - cbn [map]. rewrite comma_shape.
    rewrite (Px Rx fuel) by (try lia; reflexivity).
    rewrite skip_ws_head by reflexivity.
    change (Ascii.eqb "," ",") with true. cbv iota.
    change (skip_ws (String " " ?s)) with (skip_ws s).
    inversion Hr' as [|? ? Ry _]; subst.
    rewrite join_comma_cons, append_assoc, (skip_ws_dumps y _ Ry).
    rewrite <- append_assoc, <- join_comma_cons.
    change (dumps y :: map dumps items) with (map dumps (y :: items)).
    rewrite (IH HP' Hr') by (try discriminate; lia).
    reflexivity.
Qed.

Lemma member_shape k x tail :
  ((encode_string k ++ ": " ++ dumps x) ++ tail)%string
  = String dquote
      (escape k ++ String dquote (String ":" (String " " (dumps x ++ tail))))%string.
Proof.
  unfold encode_string. cbn [append]. f_equal.
  rewrite !append_assoc. cbn [append]. reflexivity.
Qed.

Lemma parse_members_dumps (items : list (string * pyvalue)) :
  Forall (fun kv => reads_back (snd kv)) items ->
  Forall (fun kv => readable (snd kv)) items ->
  items <> [] ->
  forall fuel rest,
    (fold_right (fun kv n => S (reading_fuel (snd kv) + n)) 0 items <= fuel)%nat ->
    parse_members float_parse fuel
      (join_comma (map (fun kv => (encode_string (fst kv) ++ ": "
                                   ++ dumps (snd kv))%string) items)
       ++ String "}" rest)%string
    = Some (map (fun kv => (fst kv, view (snd kv))) items, rest).
Proof.
  induction items as [|[k x] items IH]; intros HP Hr Hne fuel rest Hfuel;
    [contradiction|].
  inversion HP as [|? ? Px HP']; subst. inversion Hr as [|? ? Rx Hr']; subst.
  cbn [fst snd] in Px, Rx.
  cbn [fold_right snd] in Hfuel. destruct fuel as [|fuel]; [lia|].
  cbn [map fst snd]. rewrite join_comma_cons, append_assoc, member_shape.
  rewrite parse_members_step, scan_string_escape.
  rewrite skip_ws_head by reflexivity.
  change (Ascii.eqb ":" ":") with true. cbv iota.
  change (skip_ws (String " " ?s)) with (skip_ws s).
  rewrite (skip_ws_dumps x _ Rx).
  destruct items as [|[k' y] items].
  - cbn [map]. rewrite empty_shape.
    rewrite (Px Rx fuel (String "}" rest)) by (try lia; reflexivity).
    rewrite skip_ws_head by reflexivity. reflexivity.
  - cbn [map fst snd]. rewrite comma_shape.
    rewrite (Px Rx fuel) by (try lia; reflexivity).
    rewrite skip_ws_head by reflexivity.
    change (Ascii.eqb "," ",") with true. cbv iota.
    change (skip_ws (String " " ?s)) with (skip_ws s).
    rewrite join_comma_cons, append_assoc, member_shape.
    rewrite skip_ws_head by reflexivity.
    rewrite <- member_shape, <- append_assoc, <- join_comma_cons.
    change (?f (k', y) :: map ?g items) with (map g ((k', y) :: items)).
    rewrite (IH HP' Hr') by (try discriminate; lia). reflexivity.
Qed.

(** Reading a serialized value gives back what JSON keeps of it. *)
Lemma parse_value_dumps v : reads_back v.
Proof.
  induction v as [ |b|z|q|s|d|items IH|items IH] using pyvalue_nested_ind;
    intros Hr fuel rest Hfuel Hrest;
    (destruct fuel as [|fuel]; [cbn in Hfuel; lia|]).
  - reflexivity.
  - destruct b; reflexivity.
  - cbn [json_dumps json_view]. destruct (int_repr_chars z) as [Hne Hchars].
    apply parse_value_number; auto.
    + apply (string_forallb_impl is_int_char); [apply is_int_char_number|exact Hchars].
    + unfold parse_number.
      rewrite (string_existsb_none is_int_char is_float_mark _
                 is_int_char_no_mark Hchars).
      apply int_repr_reads_back.
  - cbn [json_dumps json_view]. destruct Hr as (Hne & Hchars & Hmark & Hparse).
    apply parse_value_number; auto.
    unfold parse_number. now rewrite Hmark, Hparse.
  - cbn [json_dumps json_view]. unfold encode_string. cbn [append].
    rewrite append_assoc. cbn [append].
    now rewrite parse_value_string, scan_string_escape.
  - cbn [json_dumps json_view]. unfold encode_string. cbn [append].
    rewrite append_assoc. cbn [append].
    now rewrite parse_value_string, scan_string_escape.
  - cbn [json_dumps json_view append]. rewrite append_assoc. cbn [append].
    rewrite parse_value_list.
    cbn [floats_readable] in Hr. apply readable_list in Hr.
    cbn [reading_fuel] in Hfuel.
    destruct items as [|x items]; [reflexivity|].
    inversion Hr as [|? ? Rx _]; subst.
    change (map dumps (x :: items)) with (dumps x :: map dumps items).
    rewrite join_comma_cons, append_assoc.
    destruct (dumps_head x
                (match map dumps items with
                 | [] => EmptyString
                 | _ :: _ => ", " ++ join_comma (map dumps items)
                 end ++ String "]" rest) Rx)
      as (c & tl & E & Hw & Hb & _).
    rewrite E, (skip_ws_head c tl Hw), Hb, <- E.
    rewrite <- append_assoc, <- join_comma_cons.
    change (dumps x :: map dumps items) with (map dumps (x :: items)).
    rewrite (parse_elements_dumps (x :: items) IH Hr) by (try discriminate; lia).
    reflexivity.
  - cbn [json_dumps json_view]. rewrite bracket_shape, parse_value_dict.
    cbn [floats_readable] in Hr. apply readable_members in Hr.
    cbn [reading_fuel] in Hfuel.
    destruct items as [|[k x] items]; [reflexivity|].
    pose proof (parse_members_dumps ((k, x) :: items) IH Hr ltac:(discriminate)
                  fuel rest ltac:(lia)) as Hm.
    cbn [map fst snd] in Hm |- *.
    rewrite join_comma_cons, append_assoc, member_shape in Hm |- *.
    rewrite skip_ws_head by reflexivity.
    change (Ascii.eqb dquote "}") with false. cbv iota.
    rewrite Hm. reflexivity.
Qed.

End Reading.

Lemma split_lines_line line rest :
  string_forallb not_newline line = true ->
  split_lines (line ++ String newline rest) = line :: split_lines rest.
Proof.
  induction line as [|c line IH]; intros H; [reflexivity|].
  cbn [string_forallb] in H. apply andb_true_iff in H. destruct H as [Hc Hl].
  cbn [append split_lines]. unfold not_newline in Hc.
  apply negb_true_iff in Hc. now rewrite Hc, (IH Hl).
Qed.

Lemma join_comma_one_line parts :
  Forall (fun s => string_forallb not_newline s = true) parts ->
  string_forallb not_newline (join_comma parts) = true.
Proof.
  induction 1 as [|x parts Hx _ IH]; [reflexivity|].
  rewrite join_comma_cons, string_forallb_app, Hx.
  destruct parts; [reflexivity|]. cbn [append string_forallb]. exact IH.
Qed.

Lemma json_view_native datetime_str v : json_native v -> json_view datetime_str v = v.
Proof.
  induction v as [ |b|z|q|s|d|items IH|items IH] using pyvalue_nested_ind;
    cbn [json_native json_view]; intros H; try reflexivity; try contradiction.
  - f_equal. induction IH as [|x items Hx _ IHl]; [reflexivity|].
    cbn [fold_right] in H. destruct H as [H1 H2].
    cbn [map]. now rewrite (Hx H1), (IHl H2).
  - f_equal. induction IH as [|[k x] items Hx _ IHl]; [reflexivity|].
    cbn [fold_right snd] in H. destruct H as [H1 H2].
    cbn [map fst snd] in *. now rewrite (Hx H1), (IHl H2).
Qed.

Section ExportFacts.

Variable datetime_str : datetime -> string.
Variable float_repr : Q -> string.
Variable float_parse : string -> option Q.

Local Notation dumps := (json_dumps datetime_str float_repr).
Local Notation view := (json_view datetime_str).
Local Notation readable := (floats_readable float_repr float_parse).

(** [json.dumps] without [indent] writes no line break. *)
Lemma json_dumps_one_line v :
  readable v -> string_forallb not_newline (dumps v) = true.
Proof.
  induction v as [ |b|z|q|s|d|items IH|items IH] using pyvalue_nested_ind;
    intros Hr.
  - reflexivity.
  - destruct b; reflexivity.
  - cbn [json_dumps]. destruct (int_repr_chars z) as [_ Hchars].
    apply (string_forallb_impl is_int_char); [|exact Hchars].
    intros c Hc. apply is_number_char_one_line, is_int_char_number, Hc.
  - cbn [json_dumps]. destruct Hr as (_ & Hchars & _).
    apply (string_forallb_impl is_number_char);
      [apply is_number_char_one_line|exact Hchars].
  - apply encode_string_one_line.
  - apply encode_string_one_line.
  - cbn [json_dumps]. cbn [append string_forallb].
    rewrite string_forallb_app, join_comma_one_line; [reflexivity|].
    cbn [floats_readable] in Hr.
    apply (readable_list float_repr float_parse) in Hr.
    apply Forall_map. revert Hr. induction IH as [|x items Hx _ IHl]; intros Hr;
      constructor; inversion Hr; subst; auto.
  - cbn [json_dumps]. cbn [append string_forallb].
    rewrite string_forallb_app, join_comma_one_line; [reflexivity|].
    cbn [floats_readable] in Hr.
    apply (readable_members float_repr float_parse) in Hr.
    apply Forall_map. revert Hr. induction IH as [|[k x] items Hx _ IHl]; intros Hr;
      constructor; inversion Hr; subst; auto.
    cbn [fst snd] in *.
    rewrite !string_forallb_app, encode_string_one_line. cbn [string_forallb].
    now rewrite Hx.
Qed.

Lemma json_loads_dumps v fuel :
  readable v -> (reading_fuel v <= fuel)%nat ->
  json_loads float_parse fuel (dumps v) = Some (view v).
Proof.
  intros Hr Hfuel. unfold json_loads.
  rewrite <- (append_empty_r (dumps v)).
  rewrite (skip_ws_dumps datetime_str float_repr float_parse v EmptyString Hr).
  now rewrite (parse_value_dumps datetime_str float_repr float_parse v Hr fuel
                 EmptyString Hfuel I).
Qed.

(** The file has one line per chunk, the line being the chunk's
    serialization. *)
Lemma split_lines_write_jsonl chunks :
  Forall readable chunks ->
  split_lines (write_jsonl datetime_str float_repr chunks) = map dumps chunks.
Proof.
  induction 1 as [|c chunks Hc _ IH]; [reflexivity|].
  cbn [write_jsonl map]. rewrite append_assoc. cbn [append].
  rewrite split_lines_line by (now apply json_dumps_one_line). now rewrite IH.
Qed.

(** Reading the file gives, chunk by chunk, what JSON keeps of it. *)
Lemma read_jsonl_write_jsonl chunks fuel :
  Forall readable chunks ->
  Forall (fun c => (reading_fuel c <= fuel)%nat) chunks ->
  read_jsonl float_parse fuel (write_jsonl datetime_str float_repr chunks)
  = Some (map view chunks).
Proof.
  intros Hr Hf. unfold read_jsonl. rewrite (split_lines_write_jsonl chunks Hr).
  induction Hr as [|c chunks Hc _ IH]; [reflexivity|].
  inversion Hf; subst. cbn [map all_some].
  rewrite (json_loads_dumps c fuel Hc) by assumption. now rewrite IH.
Qed.

Lemma enough_reading_fuel (chunks : list pyvalue) :
  exists fuel0, forall fuel, (fuel0 <= fuel)%nat ->
    Forall (fun c => (reading_fuel c <= fuel)%nat) chunks.
Proof.
  induction chunks as [|c chunks [n Hn]].
  - exists 0%nat. constructor.
  - exists (Nat.max (reading_fuel c) n). intros fuel Hf. constructor.
    + lia.
    + apply Hn. lia.
Qed.

Lemma row_object_readable r : readable (row_object r).
Proof.
  unfold row_object. cbn [floats_readable].
  induction r as [|[k v] r IH]; [exact I|].
  cbn [map fold_right fst snd]. split; [destruct v; exact I|exact IH].
Qed.

Lemma rows_readable rows : readable (PyList (map row_object rows)).
Proof.
  cbn [floats_readable]. induction rows as [|r rows IH]; [exact I|].
  cbn [map fold_right]. split; [apply row_object_readable|exact IH].
Qed.

Lemma streamed_objects_readable log :
  Forall (fun c => float_contract float_repr float_parse (FlatChunk.progress c))
         (yielded_chunks log) ->
  Forall readable (streamed_objects log).
Proof.
  induction log as [|ev log IH]; intros H; [constructor|].
  destruct ev as [q|c|c| ]; cbn [streamed_objects yielded_chunks flat_map app] in *;
    try (apply IH; exact H).
  - constructor; [|apply IH; exact H].
    cbn [window_chunk_object metadata_object floats_readable fold_right snd].
    pose proof (rows_readable (WindowChunk.data c)) as Hd.
    cbn [floats_readable] in Hd. tauto.
  - inversion H as [|? ? Hc H']; subst.
    constructor; [|apply IH; exact H'].
    cbn [flat_chunk_object metadata_object floats_readable fold_right snd].
    pose proof (rows_readable (FlatChunk.data c)) as Hd.
    cbn [floats_readable] in Hd. tauto.
Qed.

End ExportFacts.

Lemma export_to_file_jsonl_file
    strptime isoformat utcnow sql_where db datetime_str float_repr
    fuel self t st en path use_time_windows w sf :
  snd (export_to_file strptime isoformat utcnow sql_where db datetime_str
         float_repr fuel self t st en path "jsonl" use_time_windows w sf)
  = Some (write_jsonl datetime_str float_repr
            (streamed_objects
               (fst (fst (export_to_file strptime isoformat utcnow sql_where db
                            datetime_str float_repr fuel self t st en path "jsonl"
                            use_time_windows w sf))))).
Proof.
  unfold export_to_file. change (String.eqb "jsonl" "jsonl") with true. cbv iota.
  destruct use_time_windows.
  - destruct (stream_data_by_time_windows strptime isoformat utcnow sql_where db
                fuel self t st en w sf []); reflexivity.
  - destruct (stream_data_by_chunks strptime isoformat utcnow sql_where db
                fuel self t st en w sf []); reflexivity.
Qed.

(** C8: the [jsonl] export writes exactly one serialized envelope per line,
    in stream order, and reading the lines back gives the envelopes with
    every value JSON cannot hold (the timestamps of the records) replaced by
    its [str] text; the sequence read equals the original one field for
    field when the records hold no such value.  Floats are read under the
    interpreter's guarantee that [float(repr(x))] is [x]. *)
Theorem export_jsonl_one_envelope_per_line :
  forall strptime isoformat utcnow sql_where db datetime_str float_repr float_parse
         fuel self t st en path use_time_windows w sf,
    let run := export_to_file strptime isoformat utcnow sql_where db
                 datetime_str float_repr fuel self t st en path "jsonl"
                 use_time_windows w sf in
    let chunks := streamed_objects (fst (fst run)) in
    Forall (fun c => float_contract float_repr float_parse (FlatChunk.progress c))
           (yielded_chunks (fst (fst run))) ->
    snd run <> None
    /\ split_lines (file_text run) = map (json_dumps datetime_str float_repr) chunks
    /\ (exists fuel0, forall fuel', (fuel0 <= fuel')%nat ->
          read_jsonl float_parse fuel' (file_text run)
          = Some (map (json_view datetime_str) chunks))
    /\ (Forall json_native chunks -> map (json_view datetime_str) chunks = chunks).
Proof.
  intros strptime isoformat utcnow sql_where db datetime_str float_repr float_parse
         fuel self t st en path use_time_windows w sf run chunks Hfloats.
  pose proof (streamed_objects_readable float_repr float_parse _ Hfloats) as Hr.
  fold chunks in Hr.
  assert (Hfile : snd run = Some (write_jsonl datetime_str float_repr chunks))
    by apply export_to_file_jsonl_file.
  unfold file_text. rewrite Hfile. clearbody chunks.
  split; [discriminate|]. split; [|split].
  - now apply (split_lines_write_jsonl datetime_str float_repr float_parse).
  - destruct (enough_reading_fuel chunks) as [fuel0 Hfuel0].
    exists fuel0. intros fuel' Hf.
    apply read_jsonl_write_jsonl; [exact Hr|now apply Hfuel0].
  - intros Hn. clear -Hn. induction Hn as [|c cs Hc _ IH]; [reflexivity|].
    cbn [map]. now rewrite (json_view_native datetime_str c Hc), IH.
Qed.

Lemma export_jsonl_one_envelope_per_line_witness :
  snd sample_flat_export <> None
  /\ split_lines (file_text sample_flat_export)
     = map (json_dumps sample_datetime_str sample_float_repr)
           (streamed_objects (fst (fst sample_flat_export)))
  /\ (exists fuel0, forall fuel', (fuel0 <= fuel')%nat ->
        read_jsonl sample_float_parse fuel' (file_text sample_flat_export)
        = Some (map (json_view sample_datetime_str)
                    (streamed_objects (fst (fst sample_flat_export)))))
  /\ (Forall json_native (streamed_objects (fst (fst sample_flat_export))) ->
      map (json_view sample_datetime_str)
          (streamed_objects (fst (fst sample_flat_export)))
      = streamed_objects (fst (fst sample_flat_export))).
Proof.
  apply (export_jsonl_one_envelope_per_line sample_strptime sample_isoformat
           sample_utcnow sample_sql_where sample_db sample_datetime_str
           sample_float_repr sample_float_parse
           10 (init (Some 3) None None) "tweets"
           (TDatetime t_2024_01_01) (TDatetime t_2024_01_01_02h)
           "output/tweets.jsonl" false None None).
  vm_compute. repeat constructor; discriminate.
Defined.

(** A row with a timestamp: what the stream yields holds a [datetime], the
    line read back holds the text of [str]. *)
Lemma jsonl_reading_turns_timestamps_into_text :
  map (py_get "data") (streamed_objects (fst (fst sample_windowed_export)))
  = [ Some (PyList [ PyDict [ ("tweet_id", PyInt 1);
                              ("created_at_ts",
                               PyDatetime (utc_datetime 2024 1 1 0 10 0)) ] ]) ]
  /\ option_map (map (py_get "data"))
       (read_jsonl sample_float_parse 50 (file_text sample_windowed_export))
     = Some [ Some (PyList [ PyDict [ ("tweet_id", PyInt 1);
                                      ("created_at_ts",
                                       PyStr "2024-01-01 00:10:00+00:00") ] ]) ].
Proof. vm_compute. split; reflexivity. Qed.

(** * Further properties of the code *)

(** ** The time parser and the window loop *)

Section ParserMore.

Variable strptime : string -> string -> option datetime.

Lemma parse_formats_fails_iff s formats :
  (forall fmt, In fmt formats -> strptime s fmt = None)
  <-> parse_formats strptime s formats = Raised (ValueError_time_format s).
Proof.
  induction formats as [|f formats IH]; cbn [parse_formats].
  - split; [reflexivity|]. intros _ fmt [].
  - destruct (strptime s f) as [dt|] eqn:E.
    + split; [|discriminate]. intros H.
      rewrite (H f (or_introl eq_refl)) in E. discriminate.
    + rewrite <- IH. split.
      * intros H fmt Hin. apply H. now right.
      * intros H fmt [<-|Hin]; [exact E|now apply H].
Qed.

Lemma parse_formats_first_match s before fmt after dt :
  (forall f, In f before -> strptime s f = None) ->
  strptime s fmt = Some dt ->
  parse_formats strptime s (before ++ fmt :: after)
  = Returned (match tzinfo dt with
              | None => replace_tzinfo_utc dt
              | Some _ => dt
              end).
Proof.
  induction before as [|f before IH]; intros Hb Hf; cbn [app parse_formats].
  - now rewrite Hf.
  - rewrite (Hb f (or_introl eq_refl)). apply IH; [|exact Hf].
    intros g Hg. apply Hb. now right.
Qed.

(** X1: [parse_time] rejects a string exactly when none of the five layouts
    of [TIME_FORMATS] parses it, the error carrying the string; it raises
    nothing else, and never for a [datetime] argument. *)
Theorem parse_time_fails_iff_no_format_matches :
  forall s : string,
    ((forall fmt, In fmt TIME_FORMATS -> strptime s fmt = None)
     <-> parse_time strptime (TStr s) = Raised (ValueError_time_format s))
    /\ (forall e, parse_time strptime (TStr s) = Raised e ->
                  e = ValueError_time_format s)
    /\ parse_time strptime (TStr s) <> OutOfFuel
    /\ (forall d e, parse_time strptime (TDatetime d) <> Raised e).
Proof.
  intros s. split; [apply parse_formats_fails_iff|]. split; [|split].
  - cbn [parse_time]. induction TIME_FORMATS as [|f l IH]; cbn [parse_formats].
    + intros e H. now injection H as <-.
    + destruct (strptime s f); [discriminate|exact IH].
  - cbn [parse_time]. induction TIME_FORMATS as [|f l IH]; cbn [parse_formats].
    + discriminate.
    + destruct (strptime s f); [discriminate|exact IH].
  - discriminate.
Qed.

(** X2: the layouts are tried in the order of [TIME_FORMATS] and the first
    one that parses decides; the offset-naive value it reads comes back
    with the same clock fields and the UTC offset. *)
Theorem parse_time_first_matching_format :
  forall (s : string) (before : list string) (fmt : string) (after : list string)
         (dt : datetime),
    TIME_FORMATS = before ++ fmt :: after ->
    (forall f, In f before -> strptime s f = None) ->
    strptime s fmt = Some dt ->
    tzinfo dt = None ->
    parse_time strptime (TStr s)
    = Returned {| wall := wall dt; tzinfo := timezone_utc |}.
Proof.
  intros s before fmt after dt Hsplit Hb Hf Hn.
  cbn [parse_time]. rewrite Hsplit.
  rewrite (parse_formats_first_match s before fmt after dt Hb Hf), Hn.
  reflexivity.
Qed.

Lemma timedelta_minutes_cases m :
  timedelta_minutes m = Returned (m * US_PER_MINUTE)
  \/ timedelta_minutes m = Raised OverflowError.
Proof.
  unfold timedelta_minutes.
  destruct (Z.abs (m / 1440) >? TIMEDELTA_MAX_DAYS); [now right|now left].
Qed.

(** A positive step reaches the end of the range or raises: the loop ends. *)
Lemma windows_loop_positive_terminates (k : nat) :
  forall fuel m c e acc,
    0 < m -> is_utc c -> is_utc e ->
    wall e - wall c <= Z.of_nat k * (m * US_PER_MINUTE) ->
    (k < fuel)%nat ->
    windows_loop fuel m c e acc <> OutOfFuel.
Proof.
  induction k as [|k IH]; intros fuel m c e acc Hm Hc He Hk Hfuel;
    (destruct fuel as [|fuel]; [lia|]).
  - rewrite windows_loop_empty_range by (auto; lia). discriminate.
  - destruct (Z.le_gt_cases (wall e) (wall c)) as [Hle|Hlt].
    { rewrite windows_loop_empty_range by (auto; lia). discriminate. }
    assert (Hd : 0 < m * US_PER_MINUTE) by (unfold US_PER_MINUTE; lia).
    destruct (timedelta_minutes_cases m) as [Htd|Htd].
    + destruct ((0 <=? wall c + m * US_PER_MINUTE)
                && (wall c + m * US_PER_MINUTE <=? DATETIME_MAX)) eqn:E.
      * apply andb_true_iff in E. destruct E as [E1 E2].
        apply Z.leb_le in E1. apply Z.leb_le in E2.
        rewrite (windows_loop_step fuel m c e acc (m * US_PER_MINUTE))
          by (auto; lia).
        cbn zeta. rewrite Nat2Z.inj_succ in Hk.
        destruct (wall e <? wall c + m * US_PER_MINUTE) eqn:E3.
        -- assert (0 <= Z.of_nat k * (m * US_PER_MINUTE)) by nia.
           apply IH; auto; lia.
        -- apply Z.ltb_ge in E3. apply IH; auto; cbn [wall]; lia.
      * cbn [windows_loop]. rewrite (dt_lt_utc c e Hc He).
        replace (wall c <? wall e) with true by (symmetry; apply Z.ltb_lt; lia).
        cbn [obind]. rewrite Htd. cbn [obind]. unfold dt_add. rewrite E.
        discriminate.
    + cbn [windows_loop]. rewrite (dt_lt_utc c e Hc He).
      replace (wall c <? wall e) with true by (symmetry; apply Z.ltb_lt; lia).
      cbn [obind]. rewrite Htd. discriminate.
Qed.

(** X3: when exactly one end of the range is offset-naive, the first
    comparison of the window loop raises [TypeError]: no window is
    generated, and windowed mode ends there without a single query. *)
Theorem generate_time_windows_mixed_awareness :
  forall isoformat utcnow sql_where db fuel self t st en w sf (s e : datetime) log,
    parse_time strptime st = Returned s ->
    parse_time strptime en = Returned e ->
    (tzinfo s = None <-> tzinfo e <> None) ->
    generate_time_windows strptime (S fuel) self st en = Raised TypeError_naive_aware
    /\ stream_data_by_time_windows strptime isoformat utcnow sql_where db (S fuel)
         self t st en w sf log
       = (log, Raised TypeError_naive_aware).
Proof.
  intros isoformat utcnow sql_where db fuel self t st en w sf s e log Ps Pe Hmix.
  assert (Hgen : generate_time_windows strptime (S fuel) self st en
                 = Raised TypeError_naive_aware).
  { unfold generate_time_windows. rewrite Ps, Pe. cbn [obind windows_loop].
    unfold dt_lt. destruct (tzinfo s) as [os|], (tzinfo e) as [oe|];
      try reflexivity.
    - destruct Hmix as [_ H]. discriminate H. discriminate.
    - destruct Hmix as [H _]. exfalso. now apply H. }
  split; [exact Hgen|].
  unfold stream_data_by_time_windows, bind, lift. now rewrite Hgen.
Qed.

(** X4: a fetcher built by the constructor never loops forever in the
    window generator: between UTC instants the call returns or raises once
    it has fuel for the span of the range, because [__init__] turns a
    duration of 0 into 60. *)
Theorem constructed_fetcher_window_loop_ends :
  forall cs ti mc st en (s e : datetime),
    parse_time strptime st = Returned s ->
    parse_time strptime en = Returned e ->
    is_utc s -> is_utc e ->
    exists fuel0, forall fuel, (fuel0 <= fuel)%nat ->
      generate_time_windows strptime fuel (init cs ti mc) st en <> OutOfFuel.
Proof.
  intros cs ti mc st en s e Ps Pe Hs He.
  exists (S (Z.to_nat (wall e - wall s) + Z.to_nat (wall s) + 1)).
  intros fuel Hfuel. unfold generate_time_windows. rewrite Ps, Pe. cbn [obind].
  set (m := self_time_interval_minutes (init cs ti mc)).
  assert (Hm : m <> 0).
  { unfold m, init, py_or. cbn.
    destruct ti as [v|]; [destruct (v =? 0) eqn:E|]; try discriminate.
    now apply Z.eqb_neq in E. }
  destruct (Z.le_gt_cases (wall e) (wall s)) as [Hle|Hlt].
  { destruct fuel as [|fuel]; [lia|].
    rewrite windows_loop_empty_range by (auto; lia). discriminate. }
  destruct (Z.lt_trichotomy m 0) as [Hneg|[Hz|Hpos]]; [|contradiction|].
  - rewrite (windows_loop_negative_overflows (Z.to_nat (wall s) + 1))
      by (auto; lia).
    discriminate.
  - apply (windows_loop_positive_terminates (Z.to_nat (wall e - wall s)));
      auto; try lia.
    rewrite Z2Nat.id by lia. unfold US_PER_MINUTE. nia.
Qed.

End ParserMore.

(** ** Counts and pages of one range *)

Section StoreMore.

Variable strptime : string -> string -> option datetime.
Variable isoformat : datetime -> string.
Variable utcnow : nat -> datetime.
Variable sql_where : string -> row -> bool.
Variable db : database.

Lemma py_or_nonzero v d : v <> 0 -> py_or (Some v) d = v.
Proof.
  intros H. unfold py_or. destruct (v =? 0) eqn:E; [|reflexivity].
  apply Z.eqb_eq in E. contradiction.
Qed.

(** A page query on a registered table of the store, for any limit. *)
Lemma fetch_data_chunk_page self t cfg st en s e w sf rows offset limit log :
  dict_get t TABLE_CONFIGS = Some cfg ->
  parse_time strptime st = Returned s ->
  parse_time strptime en = Returned e ->
  dict_get t db = Some rows ->
  0 <= py_or limit (self_chunk_size self) -> 0 <= offset ->
  fetch_data_chunk strptime sql_where db self t st en offset limit w sf log
  = (log ++ [EvQuery (SelectRows (truthy_list sf) t (time_field cfg) s e
                                 (truthy_str w) (order_fields cfg)
                                 (py_or limit (self_chunk_size self)) offset)],
     Returned (page (truthy_list sf)
                    (matching_rows sql_where rows (time_field cfg) s e
                                   (truthy_str w) (order_fields cfg))
                    (py_or limit (self_chunk_size self)) offset)).
Proof.
  intros Hc Hs He Hd Hl Ho. unfold fetch_data_chunk, bind, lift, emit.
  rewrite Hc, Hs, He. cbn [run_query_rows]. rewrite Hd.
  replace (py_or limit (self_chunk_size self) <? 0) with false
    by (symmetry; apply Z.ltb_ge; lia).
  replace (offset <? 0) with false by (symmetry; apply Z.ltb_ge; lia).
  reflexivity.
Qed.

(** A page query that returns tells everything about its arguments. *)
Lemma fetch_data_chunk_returned_page self t st en offset limit w sf log log' data :
  fetch_data_chunk strptime sql_where db self t st en offset limit w sf log
  = (log', Returned data) ->
  exists cfg s e rows,
    dict_get t TABLE_CONFIGS = Some cfg
    /\ parse_time strptime st = Returned s
    /\ parse_time strptime en = Returned e
    /\ dict_get t db = Some rows
    /\ 0 <= py_or limit (self_chunk_size self) /\ 0 <= offset
    /\ data = page (truthy_list sf)
                   (matching_rows sql_where rows (time_field cfg) s e
                                  (truthy_str w) (order_fields cfg))
                   (py_or limit (self_chunk_size self)) offset
    /\ log' = log ++ [EvQuery (SelectRows (truthy_list sf) t (time_field cfg) s e
                                 (truthy_str w) (order_fields cfg)
                                 (py_or limit (self_chunk_size self)) offset)].
Proof.
  unfold fetch_data_chunk, bind, lift, emit, raise.
  destruct (dict_get t TABLE_CONFIGS) as [cfg|] eqn:Hc; [|discriminate].
  destruct (parse_time strptime st) as [s| |] eqn:Hs; try discriminate.
  destruct (parse_time strptime en) as [e| |] eqn:He; try discriminate.
  cbn [run_query_rows].
  destruct (dict_get t db) as [rows|] eqn:Hd; [|discriminate].
  destruct (offset <? 0) eqn:E2; [discriminate|].
  destruct (py_or limit (self_chunk_size self) <? 0) eqn:E1; [discriminate|].
  intros H. injection H as <- <-.
  apply Z.ltb_ge in E1. apply Z.ltb_ge in E2.
  exists cfg, s, e, rows. repeat split; auto.
Qed.

Lemma filter_empty_range tf (s e : datetime) cond rows :
  utc_micros e <= utc_micros s ->
  filter (selected sql_where tf s e cond) rows = [].
Proof.
  intros Hle. induction rows as [|r l IH]; [reflexivity|]. cbn [filter].
  replace (selected sql_where tf s e cond r) with false; [exact IH|].
  unfold selected, in_time_range.
  destruct (dict_get tf r) as [[ | | | |ts]|]; try reflexivity.
  destruct (Z.leb_spec (utc_micros s) (utc_micros ts));
    destruct (Z.ltb_spec (utc_micros ts) (utc_micros e)); cbn; try reflexivity; lia.
Qed.

Lemma page_nil fields limit offset : page fields [] limit offset = [].
Proof.
  unfold page. now rewrite skipn_nil, firstn_nil.
Qed.

Lemma firstn_add {A : Type} (a b : nat) (l : list A) :
  firstn (a + b) l = firstn a l ++ firstn b (skipn a l).
Proof.
  revert l. induction a as [|a IH]; intros l; [reflexivity|].
  destruct l as [|x l]; cbn [Nat.add firstn skipn app].
  - now rewrite firstn_nil.
  - now rewrite IH.
Qed.

(** X5: the count of a range between offset-aware instants is the sum of
    the counts of its two parts, wherever an offset-aware instant cuts it:
    the bounds are half-open, so a row stamped at the cut is counted once,
    on the right. *)
Theorem get_table_count_adds_over_a_cut :
  forall self t cfg rows (a b c : datetime) w log1 log2 log3,
    dict_get t TABLE_CONFIGS = Some cfg ->
    dict_get t db = Some rows ->
    tzinfo a <> None -> tzinfo b <> None -> tzinfo c <> None ->
    utc_micros a <= utc_micros b ->
    utc_micros b <= utc_micros c ->
    exists n1 n2,
      snd (get_table_count strptime sql_where db self t
             (TDatetime a) (TDatetime b) w log1) = Returned n1
      /\ snd (get_table_count strptime sql_where db self t
                (TDatetime b) (TDatetime c) w log2) = Returned n2
      /\ snd (get_table_count strptime sql_where db self t
                (TDatetime a) (TDatetime c) w log3) = Returned (n1 + n2)
      /\ 0 <= n1 /\ 0 <= n2.
Proof.
  intros self t cfg rows a b c w log1 log2 log3 Hc Hd Ha Hb Hcc Hab Hbc.
  rewrite (get_table_count_known strptime sql_where db self t cfg
             (TDatetime a) (TDatetime b) a b w rows log1 Hc eq_refl eq_refl Hd).
  rewrite (get_table_count_known strptime sql_where db self t cfg
             (TDatetime b) (TDatetime c) b c w rows log2 Hc eq_refl eq_refl Hd).
  rewrite (get_table_count_known strptime sql_where db self t cfg
             (TDatetime a) (TDatetime c) a c w rows log3 Hc eq_refl eq_refl Hd).
  cbn [snd]. do 2 eexists. split; [reflexivity|]. split; [reflexivity|].
  split; [|split; apply len_nonneg].
  now rewrite (count_range_split sql_where (time_field cfg) a b c (truthy_str w) rows).
Qed.


(** X7: pages of one range fit together, for offset-aware bounds, all
    columns selected, order fields that tell the rows of the table apart,
    and offsets and limits within the store's [bigint].  The page at
    [offset] with limit [l1] followed by the page at [offset + l1] with
    limit [l2] is the page at [offset] with limit [l1 + l2], and a page
    holds [min(limit, max(0, count - offset))] rows, [count] being what
    [get_table_count] returns for the range: past the end it is empty. *)
Theorem fetch_data_chunk_pages_fit_together :
  forall self t cfg rows st en (s e : datetime) w sf offset l1 l2 log,
    dict_get t TABLE_CONFIGS = Some cfg ->
    dict_get t db = Some rows ->
    parse_time strptime st = Returned s ->
    parse_time strptime en = Returned e ->
    tzinfo s <> None -> tzinfo e <> None ->
    truthy_list sf = None ->
    order_tells_rows_apart (order_fields cfg) rows ->
    0 <= offset -> 0 < l1 -> 0 < l2 ->
    offset + l1 <= BIGINT_MAX -> l1 + l2 <= BIGINT_MAX ->
    exists d1 d2 n,
      snd (fetch_data_chunk strptime sql_where db self t st en offset (Some l1)
             w sf log) = Returned d1
      /\ snd (fetch_data_chunk strptime sql_where db self t st en (offset + l1)
                (Some l2) w sf log) = Returned d2
      /\ snd (fetch_data_chunk strptime sql_where db self t st en offset
                (Some (l1 + l2)) w sf log) = Returned (d1 ++ d2)
      /\ snd (get_table_count strptime sql_where db self t st en w log) = Returned n
      /\ len d1 = Z.min l1 (Z.max 0 (n - offset))
      /\ (n <= offset -> d1 = []).
Proof.
  intros self t cfg rows st en s e w sf offset l1 l2 log Hc Hd Ps Pe Hs He Hsf Horder
         Ho H1 H2 Hbig1 Hbig2.
  rewrite !(fetch_data_chunk_page self t cfg st en s e w sf rows _ _ log Hc Ps Pe Hd)
    by (rewrite ?py_or_nonzero by lia; lia).
  rewrite (get_table_count_known strptime sql_where db self t cfg st en s e w
             rows log Hc Ps Pe Hd).
  rewrite !py_or_nonzero by lia. cbn [snd].
  set (ordered := matching_rows sql_where rows (time_field cfg) s e (truthy_str w)
                    (order_fields cfg)).
  assert (Hlen : len ordered
                 = len (filter (selected sql_where (time_field cfg) s e (truthy_str w))
                          rows)).
  { unfold ordered, matching_rows, len. now rewrite length_sort_rows. }
  assert (Hsize : len (page (truthy_list sf) ordered l1 offset)
                  = Z.min l1 (Z.max 0 (len ordered - offset))).
  { apply len_page; lia. }
  do 3 eexists. split; [reflexivity|]. split; [reflexivity|].
  split; [|split; [reflexivity|split]].
  - f_equal. unfold page. rewrite <- map_app. f_equal.
    rewrite !Z2Nat.inj_add by lia.
    rewrite (Nat.add_comm (Z.to_nat offset)), <- skipn_skipn.
    apply firstn_add.
  - rewrite <- Hlen. exact Hsize.
  - intros Hpast. rewrite <- Hlen in Hpast.
    assert (Hz : len (page (truthy_list sf) ordered l1 offset) = 0) by lia.
    unfold len in Hz.
    destruct (page (truthy_list sf) ordered l1 offset); [reflexivity|discriminate].
Qed.


End StoreMore.

(** ** The envelopes of flat mode *)

Lemma flat_envelopes_nth cs total fin chunks :
  forall idx o k c,
    flat_envelopes cs total fin idx o chunks ->
    nth_error chunks k = Some c ->
    FlatChunk.chunk_index c = idx + 1 + Z.of_nat k
    /\ FlatChunk.chunk_offset c = o + Z.of_nat k * cs
    /\ FlatChunk.total_count c = total
    /\ FlatChunk.chunk_size c = len (FlatChunk.data c)
    /\ FlatChunk.chunk_size c = Z.min cs (total - FlatChunk.chunk_offset c)
    /\ 0 < FlatChunk.chunk_size c
    /\ FlatChunk.progress c
       = (inject_Z (FlatChunk.chunk_offset c + FlatChunk.chunk_size c)
          / inject_Z total)%Q.
Proof.
  induction chunks as [|c0 rest IH]; intros idx o k c Hf Hk.
  - destruct k; discriminate.
  - destruct Hf as (Hi & Ho & Ht & Hl & Hs & Hp & Hq & Hrest).
    destruct k as [|k].
    + injection Hk as <-. rewrite Ho. cbn [Z.of_nat].
      repeat split; auto; lia.
    + cbn [nth_error] in Hk.
      destruct (IH (idx + 1) (o + cs) k c Hrest Hk) as (Hi' & Ho' & Hrem).
      rewrite Nat2Z.inj_succ. repeat split; try apply Hrem; lia.
Qed.

(** Every envelope but the last is a full page. *)
Lemma flat_envelopes_prefix_sum cs total fin chunks :
  forall idx o k c,
    flat_envelopes cs total fin idx o chunks ->
    nth_error chunks k = Some c ->
    sum_Z (map FlatChunk.chunk_size (firstn k chunks)) = Z.of_nat k * cs.
Proof.
  induction chunks as [|c0 rest IH]; intros idx o k c Hf Hk.
  - destruct k; discriminate.
  - destruct k as [|k]; [reflexivity|].
    destruct Hf as (Hi & Ho & Ht & Hl & Hs & Hp & Hq & Hrest).
    cbn [nth_error] in Hk. cbn [firstn map]. rewrite sum_Z_cons.
    rewrite (IH (idx + 1) (o + cs) k c Hrest Hk).
    destruct (flat_envelopes_nth cs total fin rest (idx + 1) (o + cs) k c Hrest Hk)
      as (_ & Ho' & _ & _ & Hs' & Hp' & _).
    rewrite Nat2Z.inj_succ.
    assert (0 < cs) by lia.
    assert (0 <= Z.of_nat k * cs) by nia.
    lia.
Qed.

Lemma flat_envelopes_last cs total chunks :
  forall idx o pre c,
    flat_envelopes cs total true idx o chunks ->
    chunks = pre ++ [c] ->
    FlatChunk.chunk_offset c + FlatChunk.chunk_size c = total.
Proof.
  induction chunks as [|c0 rest IH]; intros idx o pre c Hf Hsplit.
  - destruct pre; discriminate.
  - destruct Hf as (Hi & Ho & Ht & Hl & Hs & Hp & Hq & Hrest).
    destruct pre as [|p pre].
    + injection Hsplit as -> ->. cbn [flat_envelopes] in Hrest.
      assert (0 < cs) by lia. specialize (Hrest eq_refl H). lia.
    + injection Hsplit as -> ->. exact (IH _ _ pre c Hrest eq_refl).
Qed.

Lemma flat_envelopes_count cs total chunks :
  forall idx o,
    0 < cs -> o <= total ->
    flat_envelopes cs total true idx o chunks ->
    len chunks = ceil_div (total - o) cs.
Proof.
  unfold ceil_div.
  induction chunks as [|c0 rest IH]; intros idx o Hcs Ho Hf.
  - cbn [flat_envelopes] in Hf. specialize (Hf eq_refl Hcs).
    assert (E : total - o + cs - 1 = cs - 1) by lia. rewrite E.
    unfold len. cbn [List.length Z.of_nat]. symmetry. apply Z.div_small. lia.
  - destruct Hf as (Hi & Ho' & Ht & Hl & Hs & Hp & Hq & Hrest).
    unfold len in *. cbn [List.length]. rewrite Nat2Z.inj_succ.
    destruct (Z.le_gt_cases (total - o) cs) as [Hlast|Hmore].
    + destruct rest as [|c1 rest].
      * cbn [List.length Z.of_nat].
        assert (E : total - o + cs - 1 = 1 * cs + (total - o - 1)) by lia.
        rewrite E, Z.div_add_l by lia. rewrite Z.div_small; lia.
      * destruct Hrest as (_ & _ & _ & _ & Hs1 & Hp1 & _). lia.
    + rewrite (IH (idx + 1) (o + cs)) by (auto; lia).
      assert (E : total - o + cs - 1 = 1 * cs + (total - (o + cs) + cs - 1)) by lia.
      rewrite E, Z.div_add_l by lia. lia.
Qed.

Lemma progress_bounds (a total : Z) :
  0 < a <= total ->
  (0 < inject_Z a / inject_Z total)%Q /\ (inject_Z a / inject_Z total <= 1)%Q.
Proof.
  intros H. destruct total as [|p|p]; try lia.
  unfold Qlt, Qle, Qdiv, Qmult, Qinv, inject_Z. cbn [Qnum Qden].
  split; cbn; lia.
Qed.

Lemma progress_increases (a b total : Z) :
  0 < total -> a < b ->
  (inject_Z a / inject_Z total < inject_Z b / inject_Z total)%Q.
Proof.
  intros Ht Hab. destruct total as [|p|p]; try lia.
  unfold Qlt, Qdiv, Qmult, Qinv, inject_Z. cbn [Qnum Qden]. cbn. nia.
Qed.

Lemma progress_complete (total : Z) :
  0 < total -> (inject_Z total / inject_Z total == 1)%Q.
Proof.
  intros Ht. apply Qmult_inv_r. destruct total; try lia. discriminate.
Qed.

Section FlatMore.

Variable strptime : string -> string -> option datetime.
Variable isoformat : datetime -> string.
Variable utcnow : nat -> datetime.
Variable sql_where : string -> row -> bool.
Variable db : database.

Section KnownRange.

Variable self : TimeSeriesDataFetcher.
Variable t : string.
Variable cfg : table_config.
Variables st en : time_input.
Variables s e : datetime.
Variable w : option string.
Variable sf : option (list string).
Variable rows : list row.

Hypothesis known_table : dict_get t TABLE_CONFIGS = Some cfg.
Hypothesis parsed_start : parse_time strptime st = Returned s.
Hypothesis parsed_end : parse_time strptime en = Returned e.
Hypothesis stored : dict_get t db = Some rows.

Local Notation ordered :=
  (matching_rows sql_where rows (time_field cfg) s e (truthy_str w) (order_fields cfg)).
Local Notation n :=
  (len (filter (selected sql_where (time_field cfg) s e (truthy_str w)) rows)).

(** The paging loop of flat mode over a registered table of the store,
    for any chunk size and any fuel. *)
Lemma chunks_loop_envelopes fuel :
  forall o idx log,
    0 <= o ->
    exists evs out,
      chunks_loop strptime isoformat utcnow sql_where db fuel self t st en w sf
                  n o idx log = (log ++ evs, out)
      /\ flat_envelopes (self_chunk_size self) n (returned out) idx o
           (yielded_chunks evs)
      /\ (returned out = true -> 0 < self_chunk_size self ->
          List.length (issued_queries evs) = List.length (yielded_chunks evs)).
Proof.
  induction fuel as [|fuel IH]; intros o idx log Ho.
  { exists [], OutOfFuel. cbn [chunks_loop]. unfold lift. rewrite app_nil_r.
    split; [reflexivity|]. split; cbn; discriminate. }
  destruct (Z.lt_ge_cases o n) as [Hlt|Hge].
  2:{ exists [], (Returned idx). cbn [chunks_loop].
      replace (o <? n) with false by (symmetry; apply Z.ltb_ge; lia).
      unfold ret. rewrite app_nil_r. split; [reflexivity|].
      split; cbn; intros; lia. }
  destruct (Z.lt_trichotomy (self_chunk_size self) 0) as [Hneg|[Hzero|Hpos]].
  - eexists [_], (Raised _). cbn [chunks_loop].
    replace (o <? n) with true by (symmetry; apply Z.ltb_lt; lia).
    unfold bind at 1. unfold fetch_data_chunk, bind, lift, emit.
    rewrite known_table, parsed_start, parsed_end, py_or_same.
    cbn [run_query_rows]. rewrite stored.
    replace (o <? 0) with false by (symmetry; apply Z.ltb_ge; lia).
    replace (self_chunk_size self <? 0) with true by (symmetry; apply Z.ltb_lt; lia).
    split; [reflexivity|]. split; cbn; discriminate.
  - eexists [_], (Returned idx). cbn [chunks_loop].
    replace (o <? n) with true by (symmetry; apply Z.ltb_lt; lia).
    unfold bind at 1.
    rewrite (fetch_data_chunk_known strptime sql_where db self t cfg st en s e w sf
               rows o log known_table parsed_start parsed_end stored) by lia.
    rewrite is_empty_len, len_page by lia. rewrite Hzero.
    replace (Z.min 0 (Z.max 0 (len ordered - o)) =? 0) with true
      by (symmetry; apply Z.eqb_eq; lia).
    unfold ret. split; [reflexivity|]. split; cbn; intros; lia.
  - destruct (chunks_loop_step strptime isoformat utcnow sql_where db self t cfg
                st en s e w sf rows known_table parsed_start parsed_end stored Hpos
                fuel o idx log ltac:(lia))
      as (q & c & Hstep & Hi & Hoff & Hsize & Htot & Hprog & Hdata).
    destruct (IH (o + self_chunk_size self) (idx + 1)
                 (log ++ [EvQuery q; EvYieldChunk c; EvSleep]))
      as (evs & out & Hrun & Henv & Hq); [lia|].
    exists ([EvQuery q; EvYieldChunk c; EvSleep] ++ evs), out.
    rewrite Hstep, Hrun, <- app_assoc. split; [reflexivity|].
    rewrite yielded_chunks_app, issued_queries_app.
    cbn [yielded_chunks issued_queries flat_map app List.length].
    fold (yielded_chunks evs). fold (issued_queries evs).
    split.
    + cbn [flat_envelopes]. repeat split; auto; try lia.
      * rewrite Hsize, Hdata, len_page by lia.
        rewrite (len_ordered sql_where cfg s e w rows). lia.
      * now rewrite Hsize.
    + intros Hr Hcs. now rewrite (Hq Hr Hcs).
Qed.

End KnownRange.

(** Flat mode, whatever the arguments: its envelopes, and the queries of a
    run that returns. *)
Lemma stream_data_by_chunks_envelopes fuel self t st en w sf :
  exists total evs out,
    stream_data_by_chunks strptime isoformat utcnow sql_where db fuel self t
                          st en w sf [] = (evs, out)
    /\ flat_envelopes (self_chunk_size self) total (returned out) 0 0
         (yielded_chunks evs)
    /\ 0 <= total
    /\ (yielded_chunks evs <> [] ->
        snd (get_table_count strptime sql_where db self t st en w []) = Returned total)
    /\ (returned out = true ->
        snd (get_table_count strptime sql_where db self t st en w []) = Returned total
        /\ (0 < self_chunk_size self ->
            List.length (issued_queries evs) = S (List.length (yielded_chunks evs)))).
Proof.
  unfold stream_data_by_chunks. unfold bind at 1.
  destruct (get_table_count strptime sql_where db self t st en w [])
    as [log0 out0] eqn:E0.
  destruct out0 as [total| |].
  2,3: exists 0; eexists log0, _; split; [reflexivity|];
       destruct (get_table_count_log strptime sql_where db self t st en w [])
         as (evs0 & o0 & E0' & _ & Hc0 & _);
       rewrite E0 in E0'; injection E0' as -> _; cbn [app]; rewrite Hc0;
       (split; [cbn; discriminate|]); (split; [lia|]);
       (split; [intros H; now elim H|discriminate]).
  destruct (get_table_count_returned strptime sql_where db self t st en w [] log0
              total E0) as (cfg & s & e & rows & Hc & Ps & Pe & Hd & -> & ->).
  cbn [app snd].
  set (n := len (filter (selected sql_where (time_field cfg) s e (truthy_str w)) rows)).
  pose proof (len_nonneg (filter (selected sql_where (time_field cfg) s e
                                    (truthy_str w)) rows)) as Hn.
  fold n in Hn.
  destruct (n =? 0) eqn:Ez.
  - apply Z.eqb_eq in Ez. exists n. eexists _, _. split; [reflexivity|].
    cbn. split; [intros; lia|]. split; [exact Hn|].
    split; [intros H; now elim H|]. intros _. split; [reflexivity|reflexivity].
  - destruct (chunks_loop_envelopes self t cfg st en s e w sf rows Hc Ps Pe Hd fuel
                0 0 [EvQuery (SelectCount t (time_field cfg) s e (truthy_str w))]
                ltac:(lia)) as (evs & out & Hrun & Henv & Hq).
    exists n. eexists _, out. split; [exact Hrun|].
    cbn [app yielded_chunks issued_queries flat_map List.length].
    fold (yielded_chunks evs). fold (issued_queries evs).
    split; [exact Henv|]. split; [exact Hn|]. split; [reflexivity|].
    intros Hr. split; [reflexivity|]. intros Hcs. now rewrite (Hq Hr Hcs).
Qed.

(** X9: in flat mode the [k]-th envelope (from 0) has [chunk_index] [k + 1]
    and [chunk_offset] [k] pages; its [chunk_size] counts its rows, which
    are at least one, at most a page and never reach past [total_count];
    [total_count] is in every envelope the count of the range. *)
Theorem flat_envelopes_are_numbered_pages :
  forall fuel self t st en w sf,
    let ys := yielded_chunks
                (fst (stream_data_by_chunks strptime isoformat utcnow sql_where db
                        fuel self t st en w sf [])) in
    (forall k c, nth_error ys k = Some c ->
       FlatChunk.chunk_index c = Z.of_nat k + 1
       /\ FlatChunk.chunk_offset c = Z.of_nat k * self_chunk_size self
       /\ FlatChunk.chunk_size c = len (FlatChunk.data c)
       /\ 0 < FlatChunk.chunk_size c <= self_chunk_size self
       /\ FlatChunk.chunk_offset c + FlatChunk.chunk_size c <= FlatChunk.total_count c
       /\ snd (get_table_count strptime sql_where db self t st en w [])
          = Returned (FlatChunk.total_count c))
    /\ (forall k c c', nth_error ys k = Some c -> nth_error ys (S k) = Some c' ->
          FlatChunk.chunk_size c = self_chunk_size self).
Proof.
  intros fuel self t st en w sf ys.
  destruct (stream_data_by_chunks_envelopes fuel self t st en w sf)
    as (total & evs & out & E & Henv & Hn & Hcount & _).
  unfold ys. rewrite E. cbn [fst]. split.
  - intros k c Hk.
    destruct (flat_envelopes_nth _ _ _ _ 0 0 k c Henv Hk)
      as (Hi & Ho & Ht & Hl & Hs & Hp & _).
    rewrite Ht. repeat split; try lia.
    apply Hcount. intros Hnil. rewrite Hnil in Hk. destruct k; discriminate.
  - intros k c c' Hk Hk'.
    destruct (flat_envelopes_nth _ _ _ _ 0 0 k c Henv Hk)
      as (_ & Ho & _ & _ & Hs & Hp & _).
    destruct (flat_envelopes_nth _ _ _ _ 0 0 (S k) c' Henv Hk')
      as (_ & Ho' & _ & _ & Hs' & Hp' & _).
    rewrite Nat2Z.inj_succ in Ho'. lia.
Qed.

(** X10: the [progress] of a flat envelope is the share of the count
    handed over up to and including it: the sum of the [chunk_size] of the
    envelopes so far over [total_count].  It lies in (0, 1], grows strictly
    from one envelope to the next, and is 1 in the last envelope of a run
    that returns. *)
Theorem flat_progress_is_the_share_handed_over :
  forall fuel self t st en w sf,
    let run := stream_data_by_chunks strptime isoformat utcnow sql_where db
                 fuel self t st en w sf [] in
    let ys := yielded_chunks (fst run) in
    (forall k c, nth_error ys k = Some c ->
       FlatChunk.progress c
       = (inject_Z (sum_Z (map FlatChunk.chunk_size (firstn (S k) ys)))
          / inject_Z (FlatChunk.total_count c))%Q
       /\ (0 < FlatChunk.progress c)%Q /\ (FlatChunk.progress c <= 1)%Q)
    /\ (forall k c c', nth_error ys k = Some c -> nth_error ys (S k) = Some c' ->
          (FlatChunk.progress c < FlatChunk.progress c')%Q)
    /\ (forall pre c, ys = pre ++ [c] -> returned (snd run) = true ->
          (FlatChunk.progress c == 1)%Q).
Proof.
  intros fuel self t st en w sf run ys.
  destruct (stream_data_by_chunks_envelopes fuel self t st en w sf)
    as (total & evs & out & E & Henv & Hn & _).
  unfold ys, run. rewrite E. cbn [fst snd]. split; [|split].
  - intros k c Hk.
    destruct (flat_envelopes_nth _ _ _ _ 0 0 k c Henv Hk)
      as (Hi & Ho & Ht & Hl & Hs & Hp & Hq).
    pose proof (flat_envelopes_prefix_sum _ _ _ _ 0 0 k c Henv Hk) as Hsum.
    assert (Hfirst : firstn (S k) (yielded_chunks evs)
                     = firstn k (yielded_chunks evs) ++ [c]).
    { clear -Hk. revert k Hk. induction (yielded_chunks evs) as [|x l IHl];
        intros k Hk; [destruct k; discriminate|].
      destruct k as [|k].
      - injection Hk as <-. reflexivity.
      - cbn [nth_error] in Hk. cbn [firstn app] in *. f_equal. now apply IHl. }
    rewrite Hfirst, map_app, sum_Z_app, Hsum. cbn [map]. rewrite sum_Z_cons.
    cbn [sum_Z fold_right]. rewrite Z.add_0_r, Hq, Ht, Ho, Z.add_0_l.
    split; [reflexivity|].
    apply progress_bounds.
    assert (0 < self_chunk_size self) by lia.
    assert (0 <= Z.of_nat k * self_chunk_size self) by nia.
    lia.
  - intros k c c' Hk Hk'.
    destruct (flat_envelopes_nth _ _ _ _ 0 0 k c Henv Hk)
      as (_ & Ho & _ & _ & Hs & Hp & Hq).
    destruct (flat_envelopes_nth _ _ _ _ 0 0 (S k) c' Henv Hk')
      as (_ & Ho' & _ & _ & Hs' & Hp' & Hq').
    rewrite Hq, Hq'. rewrite Nat2Z.inj_succ in Ho'.
    assert (0 < self_chunk_size self) by lia.
    assert (0 <= Z.of_nat k * self_chunk_size self) by nia.
    apply progress_increases; lia.
  - intros pre c Hsplit Hr. rewrite Hr in Henv.
    pose proof (flat_envelopes_last _ _ _ 0 0 pre c Henv Hsplit) as Hlast.
    assert (Hk : nth_error (yielded_chunks evs) (List.length pre) = Some c).
    { rewrite Hsplit, nth_error_app2, Nat.sub_diag by lia. reflexivity. }
    destruct (flat_envelopes_nth _ _ _ _ 0 0 _ c Henv Hk)
      as (_ & Ho & _ & _ & Hs & Hp & Hq).
    rewrite Hq, Hlast. apply progress_complete.
    assert (0 < self_chunk_size self) by lia.
    assert (0 <= Z.of_nat (List.length pre) * self_chunk_size self) by nia.
    lia.
Qed.

(** X11: a run of flat mode that returns, with a positive chunk size,
    yields [ceil(count / chunk_size)] envelopes and sends one query more
    than it yields envelopes: the count and one page query each. *)
Theorem flat_mode_envelope_and_query_count :
  forall fuel self t st en w sf total,
    let run := stream_data_by_chunks strptime isoformat utcnow sql_where db
                 fuel self t st en w sf [] in
    returned (snd run) = true ->
    0 < self_chunk_size self ->
    snd (get_table_count strptime sql_where db self t st en w []) = Returned total ->
    len (yielded_chunks (fst run)) = ceil_div total (self_chunk_size self)
    /\ len (issued_queries (fst run)) = len (yielded_chunks (fst run)) + 1.
Proof.
  intros fuel self t st en w sf total run Hr Hcs Hcount.
  destruct (stream_data_by_chunks_envelopes fuel self t st en w sf)
    as (total' & evs & out & E & Henv & Hn & _ & Hret).
  unfold run in *. rewrite E in *. cbn [fst snd] in *.
  destruct (Hret Hr) as [Hcount' Hq]. rewrite Hcount in Hcount'.
  injection Hcount' as <-. rewrite Hr in Henv.
  split.
  - rewrite (flat_envelopes_count _ _ _ 0 0 Hcs Hn Henv). now rewrite Z.sub_0_r.
  - unfold len. rewrite (Hq Hcs). lia.
Qed.

End FlatMore.

(** ** The envelopes of windowed mode *)

Lemma ceil_div_zero cs : 0 < cs -> ceil_div 0 cs = 0.
Proof.
  intros H. unfold ceil_div. apply Z.div_small. lia.
Qed.

Lemma ceil_div_step a cs :
  0 < cs -> 0 < a -> ceil_div a cs = 1 + ceil_div (Z.max 0 (a - cs)) cs.
Proof.
  intros Hcs Ha. unfold ceil_div.
  destruct (Z.le_gt_cases a cs) as [Hle|Hgt].
  - replace (Z.max 0 (a - cs)) with 0 by lia.
    assert (E : a + cs - 1 = 1 * cs + (a - 1)) by lia.
    rewrite E, Z.div_add_l by lia.
    rewrite (Z.div_small (a - 1)) by lia. rewrite (Z.div_small (0 + cs - 1)); lia.
  - replace (Z.max 0 (a - cs)) with (a - cs) by lia.
    assert (E : a + cs - 1 = 1 * cs + (a - cs + cs - 1)) by lia.
    rewrite E, Z.div_add_l by lia. lia.
Qed.

Section WindowedMore.

Variable strptime : string -> string -> option datetime.
Variable isoformat : datetime -> string.
Variable utcnow : nat -> datetime.
Variable sql_where : string -> row -> bool.
Variable db : database.

(** The paging loop of one window, whatever the arguments: what every
    envelope it yields looks like. *)
Lemma window_pages_envelopes fuel :
  forall self t i ws we w sf wc offset total log,
    (exists k, 0 <= k /\ offset = k * self_chunk_size self) ->
    exists evs out,
      window_pages strptime isoformat utcnow sql_where db fuel self t i ws we w sf
                   wc offset total log = (log ++ evs, out)
      /\ Forall (fun c => window_envelope_ok self t c
                          /\ envelope_of_window isoformat sql_where db self t w sf
                               i ws we c)
                (yielded_windows evs).
Proof.
  induction fuel as [|fuel IH]; intros self t i ws we w sf wc offset total log Hk.
  { eexists [], _. cbn [window_pages]. unfold lift. rewrite app_nil_r.
    split; [reflexivity|constructor]. }
  cbn [window_pages]. destruct (offset <? wc).
  2:{ eexists [], _. unfold ret. rewrite app_nil_r. split; [reflexivity|constructor]. }
  unfold bind at 1.
  destruct (fetch_data_chunk strptime sql_where db self t (TDatetime ws)
              (TDatetime we) offset (Some (self_chunk_size self)) w sf log)
    as [log1 out1] eqn:E1.
  destruct (fetch_data_chunk_log strptime sql_where db self t (TDatetime ws)
              (TDatetime we) offset (Some (self_chunk_size self)) w sf log)
    as (evs1 & out1' & E1' & Hw1 & _).
  rewrite E1 in E1'. injection E1' as -> <-.
  destruct out1 as [data| |];
    try (exists evs1; eexists; split; [reflexivity|]; rewrite Hw1; constructor).
  destruct (fetch_data_chunk_returned_page strptime sql_where db self t _ _ offset _
              w sf log _ data E1)
    as (cfg & s & e & rows & Hc & Ps & Pe & Hd & Hcs & Ho & Hdata & _).
  cbn [parse_time] in Ps, Pe. injection Ps as <-. injection Pe as <-.
  rewrite py_or_same in Hcs, Hdata.
  assert (Hle : len data <= self_chunk_size self).
  { rewrite Hdata. unfold page, len. rewrite length_map, length_firstn. lia. }
  rewrite is_empty_len. destruct (len data =? 0) eqn:Eempty.
  { exists evs1; eexists; split; [reflexivity|]. rewrite Hw1. constructor. }
  apply Z.eqb_neq in Eempty. pose proof (len_nonneg data) as Hnn.
  unfold config_time_field. rewrite Hc.
  unfold bind at 1. unfold ret at 1.
  unfold bind at 1. unfold now_isoformat at 1.
  unfold bind at 1. unfold emit at 1.
  match goal with
  | |- context [EvYieldWindow ?c] => set (chunk := c)
  end.
  assert (Hchunk : window_envelope_ok self t chunk
                   /\ envelope_of_window isoformat sql_where db self t w sf
                        i ws we chunk).
  { split.
    - unfold window_envelope_ok, chunk.
      cbn [WindowChunk.chunk_size WindowChunk.data WindowChunk.chunk_offset
           WindowChunk.metadata Metadata.table_name Metadata.time_field].
      split; [reflexivity|]. split; [lia|]. split; [exact Hk|].
      split; [reflexivity|]. now rewrite Hc.
    - unfold envelope_of_window, chunk.
      cbn [WindowChunk.window_index WindowChunk.window_start WindowChunk.window_end
           WindowChunk.data WindowChunk.chunk_offset].
      repeat split. intros cfg' rows' Hc' Hd'.
      rewrite Hc in Hc'. rewrite Hd in Hd'.
      injection Hc' as <-. injection Hd' as <-. exact Hdata. }
  assert (Hnext : exists k, 0 <= k
                            /\ offset + self_chunk_size self = k * self_chunk_size self).
  { destruct Hk as (k & Hk0 & ->). exists (k + 1). split; lia. }
  match goal with
  | |- context [bind ?m _ ?l] =>
      assert (Hpause : exists evs0,
                 m l = (l ++ evs0, Returned tt) /\ yielded_windows evs0 = [])
  end.
  { destruct (len data >=? self_chunk_size self).
    - exists [EvSleep]. split; reflexivity.
    - exists []. unfold ret. now rewrite app_nil_r. }
  destruct Hpause as (evs0 & Epause & Hw0).
  unfold bind at 1. rewrite Epause.
  destruct (IH self t i ws we w sf wc (offset + self_chunk_size self)
               (total + len data) (((log ++ evs1) ++ [EvYieldWindow chunk]) ++ evs0)
               Hnext)
    as (evs & out & E & Hall).
  exists (evs1 ++ [EvYieldWindow chunk] ++ evs0 ++ evs), out.
  split; [rewrite E; f_equal; now rewrite <- !app_assoc|].
  rewrite !yielded_windows_app, Hw1, Hw0.
  cbn [app yielded_windows flat_map]. fold (yielded_windows evs).
  constructor; assumption.
Qed.

(** The loop over the windows, whatever the arguments. *)
Lemma for_each_window_envelopes fuel self t w sf windows :
  forall i total log,
    exists evs out,
      for_each_window strptime isoformat utcnow sql_where db fuel self t w sf
                      i windows total log = (log ++ evs, out)
      /\ Forall (fun c =>
                   window_envelope_ok self t c
                   /\ exists ws we,
                        i <= WindowChunk.window_index c
                        /\ nth_error windows
                             (Z.to_nat (WindowChunk.window_index c - i))
                           = Some (ws, we)
                        /\ envelope_of_window isoformat sql_where db self t w sf
                             (WindowChunk.window_index c) ws we c)
                (yielded_windows evs).
Proof.
  induction windows as [|[ws we] rest IH]; intros i total log.
  { eexists [], _. cbn [for_each_window]. unfold ret. rewrite app_nil_r.
    split; [reflexivity|constructor]. }
  assert (Hshift : forall evs,
             Forall (fun c =>
                       window_envelope_ok self t c
                       /\ exists a b,
                            i + 1 <= WindowChunk.window_index c
                            /\ nth_error rest
                                 (Z.to_nat (WindowChunk.window_index c - (i + 1)))
                               = Some (a, b)
                            /\ envelope_of_window isoformat sql_where db self t w sf
                                 (WindowChunk.window_index c) a b c)
                    (yielded_windows evs) ->
             Forall (fun c =>
                       window_envelope_ok self t c
                       /\ exists a b,
                            i <= WindowChunk.window_index c
                            /\ nth_error ((ws, we) :: rest)
                                 (Z.to_nat (WindowChunk.window_index c - i))
                               = Some (a, b)
                            /\ envelope_of_window isoformat sql_where db self t w sf
                                 (WindowChunk.window_index c) a b c)
                    (yielded_windows evs)).
  { intros evs H. eapply Forall_impl; [|exact H]. cbn beta.
    intros c (Hok & a & b & Hi & Hn & He). split; [exact Hok|].
    exists a, b. split; [lia|]. split; [|exact He].
    replace (Z.to_nat (WindowChunk.window_index c - i))
      with (S (Z.to_nat (WindowChunk.window_index c - (i + 1)))) by lia.
    exact Hn. }
  cbn [for_each_window]. unfold bind at 1.
  destruct (get_table_count_log strptime sql_where db self t
              (TDatetime ws) (TDatetime we) w log)
    as (evs0 & out0 & E0 & Hw0 & _).
  rewrite E0.
  destruct out0 as [wc| |];
    try (exists evs0; eexists; split; [reflexivity|]; rewrite Hw0; constructor).
  destruct (wc =? 0).
  - destruct (IH (i + 1) total (log ++ evs0)) as (evs & out & E & Hall).
    exists (evs0 ++ evs), out.
    split; [rewrite E; f_equal; now rewrite <- app_assoc|].
    rewrite yielded_windows_app, Hw0. cbn [app]. now apply Hshift.
  - unfold bind at 1.
    destruct (window_pages_envelopes fuel self t i ws we w sf wc 0 total (log ++ evs0))
      as (evs1 & out1 & E1 & Hall1).
    { exists 0. split; lia. }
    rewrite E1.
    assert (Hhead : Forall (fun c =>
                       window_envelope_ok self t c
                       /\ exists a b,
                            i <= WindowChunk.window_index c
                            /\ nth_error ((ws, we) :: rest)
                                 (Z.to_nat (WindowChunk.window_index c - i))
                               = Some (a, b)
                            /\ envelope_of_window isoformat sql_where db self t w sf
                                 (WindowChunk.window_index c) a b c)
                    (yielded_windows evs1)).
    { eapply Forall_impl; [|exact Hall1]. cbn beta.
      intros c (Hok & He). split; [exact Hok|].
      pose proof He as (Hi & _). exists ws, we. rewrite Hi.
      split; [lia|]. split; [now rewrite Z.sub_diag|exact He]. }
    destruct out1 as [total1| |].
    + destruct (IH (i + 1) total1 ((log ++ evs0) ++ evs1)) as (evs & out & E & Hall).
      exists (evs0 ++ evs1 ++ evs), out.
      split; [rewrite E; f_equal; now rewrite <- !app_assoc|].
      rewrite !yielded_windows_app, Hw0. cbn [app].
      apply Forall_app. split; [exact Hhead|now apply Hshift].
    + exists (evs0 ++ evs1); eexists. split; [now rewrite <- app_assoc|].
      rewrite yielded_windows_app, Hw0. exact Hhead.
    + exists (evs0 ++ evs1); eexists. split; [now rewrite <- app_assoc|].
      rewrite yielded_windows_app, Hw0. exact Hhead.
Qed.

(** X12: every envelope of windowed mode is well formed, whatever the
    arguments and however the run ends: [chunk_size] counts the rows of
    [data], which are at least one and at most a page; [chunk_offset] is a
    whole number of pages; the metadata names the table asked for and its
    registered time column. *)
Theorem windowed_envelopes_are_well_formed :
  forall fuel self t st en w sf,
    Forall (window_envelope_ok self t)
      (yielded_windows
         (fst (stream_data_by_time_windows strptime isoformat utcnow sql_where db
                 fuel self t st en w sf []))).
Proof.
  intros fuel self t st en w sf.
  unfold stream_data_by_time_windows, bind, lift.
  destruct (generate_time_windows strptime fuel self st en) as [windows| |];
    try constructor.
  destruct (for_each_window_envelopes fuel self t w sf windows 1 0 [])
    as (evs & out & E & Hall).
  rewrite E. cbn [fst app].
  eapply Forall_impl; [|exact Hall]. cbn beta. intros c [Hok _]. exact Hok.
Qed.


Section KnownTable.

Variable self : TimeSeriesDataFetcher.
Variable t : string.
Variable cfg : table_config.
Variable w : option string.
Variable sf : option (list string).
Variable rows : list row.

Hypothesis known_table : dict_get t TABLE_CONFIGS = Some cfg.
Hypothesis stored : dict_get t db = Some rows.
Hypothesis positive_chunk_size : 0 < self_chunk_size self.

Local Notation count_of window :=
  (rows_in_range sql_where rows (time_field cfg) w window).

(** The paging loop of one window of a registered table: a page query for
    every envelope, and as many envelopes as the rows left need pages. *)
Lemma window_pages_accounting fuel i a b :
  forall o total log,
    0 <= o ->
    exists evs out,
      window_pages strptime isoformat utcnow sql_where db fuel self t i a b w sf
                   (count_of (a, b)) o total log = (log ++ evs, out)
      /\ (returned out = true ->
          List.length (issued_queries evs) = List.length (yielded_windows evs)
          /\ len (yielded_windows evs)
             = ceil_div (Z.max 0 (count_of (a, b) - o)) (self_chunk_size self)).
Proof.
  unfold rows_in_range. cbn [fst snd].
  set (n := len (filter (selected sql_where (time_field cfg) a b (truthy_str w)) rows)).
  assert (Hlo : len (matching_rows sql_where rows (time_field cfg) a b (truthy_str w)
                       (order_fields cfg)) = n).
  { unfold matching_rows, len. now rewrite length_sort_rows. }
  induction fuel as [|fuel IH]; intros o total log Ho.
  { exists [], OutOfFuel. cbn [window_pages]. unfold lift. rewrite app_nil_r.
    split; [reflexivity|discriminate]. }
  destruct (Z.lt_ge_cases o n) as [Hlt|Hge].
  2:{ exists [], (Returned total). cbn [window_pages].
      replace (o <? n) with false by (symmetry; apply Z.ltb_ge; lia).
      unfold ret. rewrite app_nil_r. split; [reflexivity|]. intros _.
      split; [reflexivity|].
      replace (Z.max 0 (n - o)) with 0 by lia.
      now rewrite ceil_div_zero. }
  cbn [window_pages].
  replace (o <? n) with true by (symmetry; apply Z.ltb_lt; lia).
  unfold bind at 1.
  rewrite (fetch_data_chunk_known strptime sql_where db self t cfg
             (TDatetime a) (TDatetime b) a b w sf rows o log
             known_table eq_refl eq_refl stored) by lia.
  rewrite is_empty_len, len_page, Hlo by lia.
  replace (Z.min (self_chunk_size self) (Z.max 0 (n - o)) =? 0) with false
    by (symmetry; apply Z.eqb_neq; lia).
  unfold config_time_field. rewrite known_table.
  unfold bind at 1. unfold ret at 1.
  unfold bind at 1. unfold now_isoformat at 1.
  unfold bind at 1. unfold emit at 1.
  match goal with
  | |- context [EvYieldWindow ?c] => set (chunk := c)
  end.
  match goal with
  | |- context [bind ?m _ ?l] =>
      assert (Hpause : exists evs0,
                 m l = (l ++ evs0, Returned tt)
                 /\ yielded_windows evs0 = [] /\ issued_queries evs0 = [])
  end.
  { destruct (Z.min (self_chunk_size self) (Z.max 0 (n - o)) >=? self_chunk_size self).
    - exists [EvSleep]. repeat split; reflexivity.
    - exists []. unfold ret. now rewrite app_nil_r. }
  destruct Hpause as (evs0 & Epause & Hw0 & Hq0).
  unfold bind at 1. rewrite Epause.
  match goal with
  | |- context [window_pages _ _ _ _ _ fuel _ _ _ _ _ _ _ _ _ ?total' ?log'] =>
      destruct (IH (o + self_chunk_size self) total' log') as (evs & out & Hrun & Hacc);
        [lia|]
  end.
  eexists (_ :: EvYieldWindow chunk :: evs0 ++ evs), out.
  split; [rewrite Hrun; f_equal; now rewrite <- !app_assoc|].
  intros Hr. destruct (Hacc Hr) as [Hq Hy].
  cbn [yielded_windows issued_queries flat_map app].
  fold (yielded_windows (evs0 ++ evs)). fold (issued_queries (evs0 ++ evs)).
  rewrite yielded_windows_app, issued_queries_app, Hw0, Hq0. cbn [app List.length].
  split; [now rewrite Hq|].
  unfold len in *. cbn [List.length]. rewrite Nat2Z.inj_succ, Hy.
  rewrite (ceil_div_step (Z.max 0 (n - o))) by lia.
  replace (Z.max 0 (Z.max 0 (n - o) - self_chunk_size self))
    with (Z.max 0 (n - (o + self_chunk_size self))) by lia.
  lia.
Qed.

Lemma for_each_window_accounting fuel windows :
  forall i total log,
    exists evs out,
      for_each_window strptime isoformat utcnow sql_where db fuel self t w sf
                      i windows total log = (log ++ evs, out)
      /\ (returned out = true ->
          len (issued_queries evs) = len windows + len (yielded_windows evs)
          /\ len (yielded_windows evs)
             = sum_Z (map (fun window => ceil_div (count_of window)
                                                  (self_chunk_size self))
                          windows)).
Proof.
  induction windows as [|[a b] rest IH]; intros i total log.
  { exists [], (Returned total). cbn [for_each_window]. unfold ret.
    rewrite app_nil_r. split; [reflexivity|]. intros _. split; reflexivity. }
  cbn [for_each_window]. unfold bind at 1.
  rewrite (get_table_count_known strptime sql_where db self t cfg
             (TDatetime a) (TDatetime b) a b w rows log
             known_table eq_refl eq_refl stored).
  fold (count_of (a, b)).
  change (len (filter (selected sql_where (time_field cfg) a b (truthy_str w)) rows))
    with (count_of (a, b)).
  pose proof (len_nonneg (filter (selected sql_where (time_field cfg) a b
                                    (truthy_str w)) rows)) as Hnn.
  change (len (filter (selected sql_where (time_field cfg) a b (truthy_str w)) rows))
    with (count_of (a, b)) in Hnn.
  cbn [map]. rewrite sum_Z_cons.
  destruct (count_of (a, b) =? 0) eqn:E0.
  - apply Z.eqb_eq in E0.
    match goal with
    | |- context [for_each_window _ _ _ _ _ fuel _ _ _ _ _ rest total ?log'] =>
        destruct (IH (i + 1) total log') as (evs & out & Hrun & Hacc)
    end.
    eexists (_ :: evs), out.
    split; [rewrite Hrun; now rewrite <- app_assoc|].
    intros Hr. destruct (Hacc Hr) as [Hq Hy].
    cbn [yielded_windows issued_queries flat_map app].
    fold (yielded_windows evs). fold (issued_queries evs).
    rewrite E0, ceil_div_zero by exact positive_chunk_size.
    unfold len in *. cbn [List.length]. rewrite !Nat2Z.inj_succ. lia.
  - apply Z.eqb_neq in E0. unfold bind at 1.
    match goal with
    | |- context [window_pages _ _ _ _ _ fuel _ _ _ _ _ _ _ _ _ _ ?log'] =>
        destruct (window_pages_accounting fuel i a b 0 total log')
          as (evs1 & out1 & Hrun1 & Hacc1); [lia|]
    end.
    rewrite Hrun1.
    destruct out1 as [total1| |].
    + match goal with
      | |- context [for_each_window _ _ _ _ _ fuel _ _ _ _ _ rest total1 ?log'] =>
          destruct (IH (i + 1) total1 log') as (evs & out & Hrun & Hacc)
      end.
      eexists (_ :: evs1 ++ evs), out.
      split; [rewrite Hrun; now rewrite <- !app_assoc|].
      intros Hr. destruct (Hacc Hr) as [Hq Hy].
      destruct (Hacc1 eq_refl) as [Hq1 Hy1].
      cbn [yielded_windows issued_queries flat_map app].
      fold (yielded_windows (evs1 ++ evs)). fold (issued_queries (evs1 ++ evs)).
      rewrite yielded_windows_app, issued_queries_app.
      rewrite Z.sub_0_r in Hy1.
      replace (Z.max 0 (count_of (a, b))) with (count_of (a, b)) in Hy1 by lia.
      unfold len in *. cbn [List.length].
      rewrite !length_app, !Nat2Z.inj_succ, !Nat2Z.inj_add. lia.
    + eexists (_ :: evs1), _. split; [now rewrite <- app_assoc|discriminate].
    + eexists (_ :: evs1), _. split; [now rewrite <- app_assoc|discriminate].
Qed.


End KnownTable.

End WindowedMore.

(** ** Output formats *)

Section FormatFacts.

Variable strptime : string -> string -> option datetime.
Variable isoformat : datetime -> string.
Variable utcnow : nat -> datetime.
Variable sql_where : string -> row -> bool.
Variable db : database.
Variable datetime_str : datetime -> string.
Variable float_repr : Q -> string.
Variable to_csv : pyvalue -> option string.

Lemma supported_format_cases fmt :
  In fmt SUPPORTED_FORMATS
  <-> String.eqb fmt "json" || String.eqb fmt "jsonl" || String.eqb fmt "csv"
      || String.eqb fmt "parquet" = true.
Proof.
  unfold SUPPORTED_FORMATS. cbn [In]. rewrite !orb_true_iff, !String.eqb_eq.
  intuition congruence.
Qed.

(** X15: [format_output] raises its unsupported-format error exactly for
    the formats outside [SUPPORTED_FORMATS]; [export_to_file] has no such
    check: for those formats it returns normally without iterating the
    stream, so it sends no query and writes nothing. *)
Theorem unsupported_format_raises_or_is_ignored :
  forall self data fmt,
    (format_output datetime_str float_repr to_csv self data fmt
     = ValueError_unsupported_format fmt
     <-> ~ In fmt SUPPORTED_FORMATS)
    /\ (~ In fmt SUPPORTED_FORMATS ->
        forall fuel t st en path use_time_windows w sf,
          export_to_file strptime isoformat utcnow sql_where db datetime_str
            float_repr fuel self t st en path fmt use_time_windows w sf
          = ([], Returned tt, None)).
Proof.
  intros self data fmt. rewrite supported_format_cases.
  unfold format_output, export_to_file.
  destruct (String.eqb fmt "json") eqn:E1.
  { split; [split; [discriminate|]|]; cbn; intros H; now elim H. }
  destruct (String.eqb fmt "jsonl") eqn:E2.
  { split; [split; [discriminate|]|]; cbn; intros H; now elim H. }
  destruct (String.eqb fmt "csv") eqn:E3.
  { split; [split|]; cbn; try (intros H; now elim H).
    destruct data as [ | | | | | | |items]; try discriminate.
    destruct (dict_get "data" items) as [records|]; [|discriminate].
    destruct (py_truthy records); [|discriminate].
    destruct (to_csv records); discriminate. }
  destruct (String.eqb fmt "parquet") eqn:E4.
  { split; [split; [discriminate|]|]; cbn; intros H; now elim H. }
  cbn. split; [split; [discriminate|reflexivity]|]. intros _. reflexivity.
Qed.

End FormatFacts.

(** ** The [stream] command *)

Lemma envelopes_app a b : envelopes (a ++ b) = envelopes a ++ envelopes b.
Proof. apply flat_map_app. Qed.

Lemma envelopes_sizes log :
  sum_Z (map envelope_chunk_size (envelopes log))
  = sum_Z (map WindowChunk.chunk_size (yielded_windows log))
    + sum_Z (map FlatChunk.chunk_size (yielded_chunks log))
  /\ len (envelopes log) = len (yielded_windows log) + len (yielded_chunks log).
Proof.
  unfold len.
  induction log as [|ev log [IH1 IH2]]; [split; reflexivity|].
  destruct ev as [q|c|c| ];
    cbn [envelopes yielded_windows yielded_chunks flat_map app map List.length];
    fold (envelopes log); fold (yielded_windows log); fold (yielded_chunks log);
    rewrite ?sum_Z_cons; cbn [envelope_chunk_size]; rewrite ?Nat2Z.inj_succ; lia.
Qed.

Section CommandFacts.

Variable strptime : string -> string -> option datetime.
Variable isoformat : datetime -> string.
Variable utcnow : nat -> datetime.
Variable sql_where : string -> row -> bool.
Variable db : database.
Variable datetime_str : datetime -> string.
Variable float_repr : Q -> string.
Variable to_csv : pyvalue -> option string.

Local Notation consume := (consume_stream datetime_str float_repr to_csv).
Local Notation command :=
  (stream_data_command strptime isoformat utcnow sql_where db datetime_str
     float_repr to_csv).

(** The consumer loop: it never fails, it counts every chunk and adds up
    the sizes, and it prints rows only for the console formats. *)
Lemma consume_stream_totals fetcher args chunks :
  forall total_chunks total_records,
    exists printed,
      consume fetcher args chunks total_chunks total_records
      = (printed,
         (total_chunks + len chunks,
          total_records + sum_Z (map envelope_chunk_size chunks)),
         None)
      /\ (truthy_str (Args.output args) <> None -> printed = [])
      /\ (String.eqb (Args.format args) "json" = false ->
          String.eqb (Args.format args) "jsonl" = false ->
          forallb (fun line => negb (is_data_line line)) printed = true)
      /\ (truthy_str (Args.output args) = None ->
          String.eqb (Args.format args) "jsonl" = true ->
          printed = map (fun chunk =>
                           PrintText (json_dumps datetime_str float_repr
                                        (envelope_object chunk)))
                        chunks).
Proof.
  unfold len.
  induction chunks as [|chunk rest IH]; intros tc tr.
  { exists []. cbn. rewrite !Z.add_0_r. repeat split; reflexivity. }
  cbn [consume_stream].
  destruct (IH (tc + 1) (tr + envelope_chunk_size chunk))
    as (more & Hrun & Hout & Hfmt & Hjsonl).
  assert (Htotals : (tc + 1 + Z.of_nat (List.length rest),
                     tr + envelope_chunk_size chunk
                     + sum_Z (map envelope_chunk_size rest))
                    = (tc + Z.of_nat (List.length (chunk :: rest)),
                       tr + sum_Z (map envelope_chunk_size (chunk :: rest)))).
  { cbn [List.length map]. rewrite sum_Z_cons, Nat2Z.inj_succ. f_equal; lia. }
  destruct (truthy_str (Args.output args)) as [path|] eqn:Eout.
  { rewrite Hrun, Htotals. exists ([] ++ more). split; [reflexivity|].
    rewrite (Hout ltac:(discriminate)). repeat split; try reflexivity.
    intros H. discriminate H. }
  unfold format_output.
  change (String.eqb "json" "json") with true.
  change (String.eqb "jsonl" "json") with false.
  change (String.eqb "jsonl" "jsonl") with true. cbv iota.
  destruct (String.eqb (Args.format args) "json") eqn:Ejson.
  { rewrite Hrun, Htotals. eexists (_ ++ more). split; [reflexivity|].
    split; [intros H; now elim H|]. split; [discriminate|].
    intros _ Hl. apply String.eqb_eq in Ejson, Hl. rewrite Hl in Ejson.
    discriminate. }
  destruct (String.eqb (Args.format args) "jsonl") eqn:Ejsonl.
  { rewrite Hrun, Htotals. eexists (_ ++ more). split; [reflexivity|].
    split; [intros H; now elim H|]. split; [discriminate|].
    intros _ _. cbn [app map]. f_equal. now apply Hjsonl. }
  rewrite Hrun, Htotals. eexists (_ ++ more). split; [reflexivity|].
  split; [intros H; now elim H|]. split; [|discriminate].
  intros _ _. rewrite forallb_app, (Hfmt eq_refl eq_refl), andb_true_r.
  destruct (Args.verbose args); reflexivity.
Qed.

Lemma consume_stream_no_totals fetcher args chunks :
  forall total_chunks total_records,
    forallb (fun line => negb (is_totals_line line))
      (fst (fst (consume fetcher args chunks total_chunks total_records))) = true.
Proof.
  induction chunks as [|chunk rest IH]; intros tc tr; [reflexivity|].
  cbn [consume_stream].
  specialize (IH (tc + 1) (tr + envelope_chunk_size chunk)).
  destruct (consume fetcher args rest (tc + 1) (tr + envelope_chunk_size chunk))
    as [[more totals] failure].
  cbn [fst] in IH. unfold format_output.
  change (String.eqb "json" "json") with true.
  change (String.eqb "jsonl" "json") with false.
  change (String.eqb "jsonl" "jsonl") with true. cbv iota.
  destruct (truthy_str (Args.output args));
    [|destruct (String.eqb (Args.format args) "json");
      [|destruct (String.eqb (Args.format args) "jsonl");
        [|destruct (Args.verbose args)]]];
    cbn [fst app forallb is_totals_line negb andb]; exact IH.
Qed.

Lemma stream_data_by_time_windows_no_flat fuel self t st en w sf :
  yielded_chunks
    (fst (stream_data_by_time_windows strptime isoformat utcnow sql_where db
            fuel self t st en w sf [])) = [].
Proof.
  unfold stream_data_by_time_windows, bind, lift.
  destruct (generate_time_windows strptime fuel self st en) as [windows| |];
    try reflexivity.
  destruct (for_each_window_trace strptime isoformat utcnow sql_where db
              fuel self t w sf windows 1 0 [])
    as (evs & out & E & _ & Hc & _).
  rewrite E. exact Hc.
Qed.

(** X16: the totals the [stream] command prints.  The command never ends
    on a formatting error; when it returns, its last three lines are the
    closing banner, the number of chunks received and the sum of their
    [chunk_size]; in windowed mode that sum is the [total_records_so_far]
    of the last chunk.  When the stream raises, no total is printed. *)
Theorem stream_command_prints_the_totals :
  forall fuel args,
    let run := command fuel args in
    let log := fst (fst run) in
    let console := snd (fst run) in
    (forall r, snd run <> CommandFormatFailed r)
    /\ (snd run = CommandReturned ->
        exists printed,
          console
          = [PrintStart (Args.table args);
             PrintTimeRange (Args.start_time args) (Args.end_time args);
             PrintFormat (Args.format args)]
            ++ printed
            ++ [PrintDone;
                PrintTotalChunks (len (envelopes log));
                PrintTotalRecords (sum_Z (map envelope_chunk_size (envelopes log)))])
    /\ (snd run <> CommandReturned ->
        forallb (fun line => negb (is_totals_line line)) console = true)
    /\ (Args.use_time_windows args = true ->
        forall pre c, yielded_windows log = pre ++ [c] ->
          sum_Z (map envelope_chunk_size (envelopes log))
          = WindowChunk.total_records_so_far c).
Proof.
  intros fuel args run log console.
  unfold console, log, run, stream_data_command.
  set (fetcher := init (Some (Args.chunk_size args)) (Some (Args.time_interval args))
                       (Some (Args.max_connections args))).
  match goal with
  | |- context [let (_, _) := ?stream [] in _] =>
      destruct (stream []) as [evs out] eqn:Erun
  end.
  pose proof (consume_stream_no_totals fetcher args (envelopes evs) 0 0) as Hprinted.
  destruct (consume_stream_totals fetcher args (envelopes evs) 0 0)
    as (printed & Hcons & _).
  rewrite Hcons in Hprinted |- *. rewrite !Z.add_0_l. cbn [fst] in Hprinted.
  assert (Hwindowed :
            Args.use_time_windows args = true ->
            forall pre c, yielded_windows evs = pre ++ [c] ->
              sum_Z (map envelope_chunk_size (envelopes evs))
              = WindowChunk.total_records_so_far c).
  { intros Hwin pre c Hlast. rewrite Hwin in Erun.
    pose proof (stream_data_by_time_windows_no_flat fuel fetcher (Args.table args)
                  (TStr (Args.start_time args)) (TStr (Args.end_time args))
                  (Args.where_ args) (Args.fields args)) as Hflat.
    destruct (stream_data_by_time_windows_trace strptime isoformat utcnow
                sql_where db fuel fetcher (Args.table args)
                (TStr (Args.start_time args)) (TStr (Args.end_time args))
                (Args.where_ args) (Args.fields args))
      as (evs' & out' & E' & _ & Hr & _).
    rewrite Erun in Hflat, E'. injection E' as <- <-. cbn [fst] in Hflat.
    destruct (envelopes_sizes evs) as [Hsum _]. rewrite Hsum, Hflat.
    assert (Hk : nth_error (yielded_windows evs) (List.length pre) = Some c)
      by (rewrite Hlast, nth_error_app2, Nat.sub_diag by lia; reflexivity).
    rewrite (running_totals_prefix_sum _ 0 _ c Hr Hk).
    rewrite firstn_all2 by (rewrite Hlast, length_app; cbn; lia).
    cbn. lia. }
  destruct out as [v| |]; cbn [fst snd].
  - split; [discriminate|]. split; [intros _; now exists printed|].
    split; [intros H; now elim H|exact Hwindowed].
  - split; [discriminate|]. split; [discriminate|].
    split; [intros _; exact Hprinted|exact Hwindowed].
  - split; [discriminate|]. split; [discriminate|].
    split; [intros _; exact Hprinted|exact Hwindowed].
Qed.

(** X17: the [stream] command shows rows only as JSON on the console.
    With [--output] it does nothing with a chunk but count it, whatever
    the format: the console holds the opening banner and, when the stream
    returns, the totals.  Without [--output], formats other than ["json"]
    and ["jsonl"] print progress lines, never rows, and ["jsonl"] prints
    for each chunk the very line the [jsonl] export writes for it. *)
Theorem stream_command_shows_rows_only_as_json :
  forall fuel args,
    let run := command fuel args in
    let log := fst (fst run) in
    let console := snd (fst run) in
    let banner := [PrintStart (Args.table args);
                   PrintTimeRange (Args.start_time args) (Args.end_time args);
                   PrintFormat (Args.format args)] in
    (truthy_str (Args.output args) <> None ->
     console
     = banner ++ match snd run with
                 | CommandReturned =>
                     [PrintDone;
                      PrintTotalChunks (len (envelopes log));
                      PrintTotalRecords
                        (sum_Z (map envelope_chunk_size (envelopes log)))]
                 | _ => []
                 end)
    /\ (String.eqb (Args.format args) "json" = false ->
        String.eqb (Args.format args) "jsonl" = false ->
        forallb (fun line => negb (is_data_line line)) console = true)
    /\ (truthy_str (Args.output args) = None ->
        String.eqb (Args.format args) "jsonl" = true ->
        filter is_data_line console
        = map (fun chunk => PrintText (json_dumps datetime_str float_repr chunk))
              (streamed_objects log)).
Proof.
  intros fuel args run log console banner.
  unfold console, log, run, banner, stream_data_command.
  set (fetcher := init (Some (Args.chunk_size args)) (Some (Args.time_interval args))
                       (Some (Args.max_connections args))).
  match goal with
  | |- context [let (_, _) := ?stream [] in _] =>
      destruct (stream []) as [evs out]
  end.
  destruct (consume_stream_totals fetcher args (envelopes evs) 0 0)
    as (printed & Hcons & Hout & Hfmt & Hjsonl).
  rewrite Hcons. rewrite !Z.add_0_l.
  assert (Hobjects : map (fun chunk => PrintText (json_dumps datetime_str float_repr
                                                    (envelope_object chunk)))
                         (envelopes evs)
                     = map (fun chunk => PrintText (json_dumps datetime_str float_repr
                                                      chunk))
                           (streamed_objects evs)).
  { clear. induction evs as [|ev evs IH]; [reflexivity|].
    destruct ev as [q|c|c| ]; cbn [envelopes streamed_objects flat_map app map];
      fold (envelopes evs); fold (streamed_objects evs);
      cbn [envelope_object]; now rewrite ?IH. }
  assert (Hfilter : forall lines : list envelope,
             filter is_data_line
               (map (fun chunk => PrintText (json_dumps datetime_str float_repr
                                               (envelope_object chunk))) lines)
             = map (fun chunk => PrintText (json_dumps datetime_str float_repr
                                              (envelope_object chunk))) lines).
  { clear. induction lines as [|x lines IH]; [reflexivity|].
    cbn [map filter is_data_line]. now rewrite IH. }
  destruct out as [v| |]; cbn [fst snd].
  - split; [|split].
    + intros Ho. now rewrite (Hout Ho).
    + intros H1 H2. cbn [app forallb is_data_line negb andb].
      rewrite forallb_app, (Hfmt H1 H2). reflexivity.
    + intros Ho Hl. cbn [app filter is_data_line].
      rewrite filter_app, (Hjsonl Ho Hl), Hfilter. cbn [filter is_data_line].
      now rewrite app_nil_r, Hobjects.
  - split; [|split].
    + intros Ho. now rewrite (Hout Ho).
    + intros H1 H2. cbn [app forallb is_data_line negb andb]. exact (Hfmt H1 H2).
    + intros Ho Hl. cbn [app filter is_data_line].
      now rewrite (Hjsonl Ho Hl), Hfilter, Hobjects.
  - split; [|split].
    + intros Ho. now rewrite (Hout Ho).
    + intros H1 H2. cbn [app forallb is_data_line negb andb]. exact (Hfmt H1 H2).
    + intros Ho Hl. cbn [app filter is_data_line].
      now rewrite (Hjsonl Ho Hl), Hfilter, Hobjects.
Qed.

(** X18: the [stream] command with a time that none of the layouts parses
    ends at once with the time-format error naming that very text, in
    either mode, for a registered table: nothing but the opening banner is
    printed and no query is sent.  The start is examined first: when it
    does not parse the error names the start, whatever the end is; when it
    parses and the end does not, the error names the end. *)
Theorem stream_command_rejects_unparseable_time :
  forall fuel args cfg,
    dict_get (Args.table args) TABLE_CONFIGS = Some cfg ->
    ((forall fmt, In fmt TIME_FORMATS -> strptime (Args.start_time args) fmt = None) ->
     command fuel args
     = ([],
        [PrintStart (Args.table args);
         PrintTimeRange (Args.start_time args) (Args.end_time args);
         PrintFormat (Args.format args)],
        CommandRaised (ValueError_time_format (Args.start_time args))))
    /\ ((exists s, parse_time strptime (TStr (Args.start_time args)) = Returned s) ->
        (forall fmt, In fmt TIME_FORMATS -> strptime (Args.end_time args) fmt = None) ->
        command fuel args
        = ([],
           [PrintStart (Args.table args);
            PrintTimeRange (Args.start_time args) (Args.end_time args);
            PrintFormat (Args.format args)],
           CommandRaised (ValueError_time_format (Args.end_time args)))).
Proof.
  intros fuel args cfg Hc.
  assert (Hrun : forall text,
             (parse_time strptime (TStr (Args.start_time args))
              = Raised (ValueError_time_format text)
              \/ exists s, parse_time strptime (TStr (Args.start_time args))
                           = Returned s
                           /\ parse_time strptime (TStr (Args.end_time args))
                              = Raised (ValueError_time_format text)) ->
             command fuel args
             = ([],
                [PrintStart (Args.table args);
                 PrintTimeRange (Args.start_time args) (Args.end_time args);
                 PrintFormat (Args.format args)],
                CommandRaised (ValueError_time_format text))).
  { intros text Hparse. unfold stream_data_command.
    set (fetcher := init (Some (Args.chunk_size args)) (Some (Args.time_interval args))
                         (Some (Args.max_connections args))).
    assert (Hstream :
              (if Args.use_time_windows args
               then stream_data_by_time_windows strptime isoformat utcnow sql_where
                      db fuel fetcher (Args.table args)
                      (TStr (Args.start_time args)) (TStr (Args.end_time args))
                      (Args.where_ args) (Args.fields args)
               else stream_data_by_chunks strptime isoformat utcnow sql_where
                      db fuel fetcher (Args.table args)
                      (TStr (Args.start_time args)) (TStr (Args.end_time args))
                      (Args.where_ args) (Args.fields args)) []
              = ([], Raised (ValueError_time_format text))).
    { destruct (Args.use_time_windows args).
      - unfold stream_data_by_time_windows, generate_time_windows, bind, lift.
        destruct Hparse as [Hs|(s & Hs & He)]; rewrite Hs; [reflexivity|].
        cbn [obind]. now rewrite He.
      - unfold stream_data_by_chunks, get_table_count, bind, lift. rewrite Hc.
        destruct Hparse as [Hs|(s & Hs & He)]; rewrite Hs; [reflexivity|].
        now rewrite He. }
    rewrite Hstream. reflexivity. }
  split.
  - intros Hs. apply Hrun. left. now apply (parse_formats_fails_iff strptime).
  - intros [s Hs] He. apply Hrun. right. exists s. split; [exact Hs|].
    now apply (parse_formats_fails_iff strptime).
Qed.

End CommandFacts.

(** ** Indented JSON *)

Lemma join_with_cons sep a l :
  join_with sep (a :: l)
  = (a ++ match l with [] => EmptyString | _ => sep ++ join_with sep l end)%string.
Proof.
  destruct l; cbn [join_with]; [now rewrite append_empty_r|reflexivity].
Qed.

Lemma skip_ws_spaces n s :
  skip_ws (string_of_list_ascii (repeat " "%char n) ++ s) = skip_ws s.
Proof.
  induction n as [|n IH]; [reflexivity|]. cbn [repeat string_of_list_ascii append].
  cbn [skip_ws]. change (is_ws " ") with true. cbv iota. exact IH.
Qed.

Lemma skip_ws_newline_indent level s :
  skip_ws (newline_indent level ++ s) = skip_ws s.
Proof.
  unfold newline_indent. cbn [append skip_ws].
  change (is_ws newline) with true. cbv iota. apply skip_ws_spaces.
Qed.

Lemma newline_indent_delimited level s : delimited (newline_indent level ++ s).
Proof. reflexivity. Qed.

Section IndentFacts.

Variable datetime_str : datetime -> string.
Variable float_repr : Q -> string.
Variable float_parse : string -> option Q.

Local Notation dumps := (json_dumps datetime_str float_repr).
Local Notation dumps_indent := (json_dumps_indent datetime_str float_repr).
Local Notation view := (json_view datetime_str).
Local Notation readable := (floats_readable float_repr float_parse).

Lemma dumps_indent_list level x items :
  dumps_indent level (PyList (x :: items))
  = ("[" ++ newline_indent (S level)
     ++ join_with ("," ++ newline_indent (S level))
          (map (dumps_indent (S level)) (x :: items))
     ++ newline_indent level ++ "]")%string.
Proof. reflexivity. Qed.

Lemma dumps_indent_dict level kv items :
  dumps_indent level (PyDict (kv :: items))
  = ("{" ++ newline_indent (S level)
     ++ join_with ("," ++ newline_indent (S level))
          (map (fun kv => encode_string (fst kv) ++ ": "
                          ++ dumps_indent (S level) (snd kv))
               (kv :: items))
     ++ newline_indent level ++ "}")%string.
Proof. reflexivity. Qed.

(** The first character of an indented value is neither white space nor a
    closing bracket. *)
Lemma dumps_indent_head level v tail :
  readable v ->
  exists c tl,
    (dumps_indent level v ++ tail)%string = String c tl
    /\ is_ws c = false
    /\ Ascii.eqb c "]" = false /\ Ascii.eqb c "}" = false.
Proof.
  intros Hr.
  destruct v as [ |b|z|q|s|d|items|items];
    try exact (dumps_head datetime_str float_repr float_parse _ tail Hr).
  - destruct items as [|x items].
    + eexists _, _. split; [reflexivity|]. repeat split; reflexivity.
    + rewrite dumps_indent_list. eexists _, _. split; [reflexivity|].
      repeat split; reflexivity.
  - destruct items as [|x items].
    + eexists _, _. split; [reflexivity|]. repeat split; reflexivity.
    + rewrite dumps_indent_dict. eexists _, _. split; [reflexivity|].
      repeat split; reflexivity.
Qed.

Lemma skip_ws_dumps_indent level v tail :
  readable v ->
  skip_ws (dumps_indent level v ++ tail) = (dumps_indent level v ++ tail)%string.
Proof.
  intros Hr. destruct (dumps_indent_head level v tail Hr) as (c & tl & E & Hw & _).
  rewrite E. now apply skip_ws_head.
Qed.

Local Notation reads_back_indent v :=
  (readable v ->
   forall level fuel rest,
     (reading_fuel v <= fuel)%nat -> delimited rest ->
     parse_value float_parse fuel (dumps_indent level v ++ rest) = Some (view v, rest)).

Lemma separator_shape level (j tail : string) :
  ((("," ++ newline_indent level) ++ j) ++ tail)%string
  = String "," (newline_indent level ++ (j ++ tail)).
Proof.
  cbn [append]. f_equal. now rewrite !append_assoc.
Qed.

Lemma parse_elements_indent level items :
  Forall (fun v => reads_back_indent v) items ->
  Forall readable items ->
  items <> [] ->
  forall fuel rest,
    (fold_right (fun x n => S (reading_fuel x + n)) 0 items <= fuel)%nat ->
    parse_elements float_parse fuel
      (join_with ("," ++ newline_indent (S level))
         (map (dumps_indent (S level)) items)
       ++ newline_indent level ++ String "]" rest)
    = Some (map view items, rest).
Proof.
  induction items as [|x items IH]; intros HP Hr Hne fuel rest Hfuel;
    [contradiction|].
  inversion HP as [|? ? Px HP']; subst. inversion Hr as [|? ? Rx Hr']; subst.
  cbn [fold_right] in Hfuel. destruct fuel as [|fuel]; [lia|].
  cbn [map]. rewrite join_with_cons, append_assoc, parse_elements_step.
  destruct items as [|y items].
  - cbn [map]. rewrite empty_shape.
    rewrite (Px Rx (S level) fuel) by (try lia; apply newline_indent_delimited).
    rewrite skip_ws_newline_indent, skip_ws_head by reflexivity. reflexivity.
  - cbn [map]. rewrite separator_shape.
    rewrite (Px Rx (S level) fuel) by (try lia; reflexivity).
    rewrite skip_ws_head by reflexivity.
    change (Ascii.eqb "," ",") with true. cbv iota.
    rewrite skip_ws_newline_indent.
    inversion Hr' as [|? ? Ry _]; subst.
    rewrite join_with_cons, append_assoc, (skip_ws_dumps_indent _ y _ Ry).
    rewrite <- append_assoc, <- join_with_cons.
    change (dumps_indent (S level) y :: map (dumps_indent (S level)) items)
      with (map (dumps_indent (S level)) (y :: items)).
    rewrite (IH HP' Hr') by (try discriminate; lia).
    reflexivity.
Qed.

Lemma member_indent_shape level k x tail :
  ((encode_string k ++ ": " ++ dumps_indent level x) ++ tail)%string
  = String dquote
      (escape k
       ++ String dquote (String ":" (String " " (dumps_indent level x ++ tail))))%string.
Proof.
  unfold encode_string. cbn [append]. f_equal.
  rewrite !append_assoc. cbn [append]. reflexivity.
Qed.

Lemma parse_members_indent level (items : list (string * pyvalue)) :
  Forall (fun kv => reads_back_indent (snd kv)) items ->
  Forall (fun kv => readable (snd kv)) items ->
  items <> [] ->
  forall fuel rest,
    (fold_right (fun kv n => S (reading_fuel (snd kv) + n)) 0 items <= fuel)%nat ->
    parse_members float_parse fuel
      (join_with ("," ++ newline_indent (S level))
         (map (fun kv => (encode_string (fst kv) ++ ": "
                          ++ dumps_indent (S level) (snd kv))%string) items)
       ++ newline_indent level ++ String "}" rest)%string
    = Some (map (fun kv => (fst kv, view (snd kv))) items, rest).
Proof.
  induction items as [|[k x] items IH]; intros HP Hr Hne fuel rest Hfuel;
    [contradiction|].
  inversion HP as [|? ? Px HP']; subst. inversion Hr as [|? ? Rx Hr']; subst.
  cbn [fst snd] in Px, Rx.
  cbn [fold_right snd] in Hfuel. destruct fuel as [|fuel]; [lia|].
  cbn [map fst snd]. rewrite join_with_cons, append_assoc, member_indent_shape.
  rewrite parse_members_step, scan_string_escape.
  rewrite skip_ws_head by reflexivity.
  change (Ascii.eqb ":" ":") with true. cbv iota.
  change (skip_ws (String " " ?s)) with (skip_ws s).
  rewrite (skip_ws_dumps_indent _ x _ Rx).
  destruct items as [|[k' y] items].
  - cbn [map]. rewrite empty_shape.
    rewrite (Px Rx (S level) fuel) by (try lia; apply newline_indent_delimited).
    rewrite skip_ws_newline_indent, skip_ws_head by reflexivity. reflexivity.
  - cbn [map fst snd]. rewrite separator_shape.
    rewrite (Px Rx (S level) fuel) by (try lia; reflexivity).
    rewrite skip_ws_head by reflexivity.
    change (Ascii.eqb "," ",") with true. cbv iota.
    rewrite skip_ws_newline_indent.
    rewrite join_with_cons, append_assoc, member_indent_shape.
    rewrite skip_ws_head by reflexivity.
    rewrite <- member_indent_shape, <- append_assoc, <- join_with_cons.
    change (?f (k', y) :: map ?g items) with (map g ((k', y) :: items)).
    rewrite (IH HP' Hr') by (try discriminate; lia). reflexivity.
Qed.

Lemma open_shape (o c : ascii) (a j n tail : string) :
  ((String o EmptyString ++ a ++ j ++ n ++ String c EmptyString) ++ tail)%string
  = String o (a ++ (j ++ n ++ String c tail)).
Proof.
  cbn [append]. f_equal. rewrite !append_assoc. cbn [append]. reflexivity.
Qed.

(** Reading an indented value gives back what JSON keeps of it. *)
Lemma parse_value_dumps_indent v : reads_back_indent v.
Proof.
  induction v as [ |b|z|q|s|d|items IH|items IH] using pyvalue_nested_ind;
    intros Hr level fuel rest Hfuel Hrest;
    try exact (parse_value_dumps datetime_str float_repr float_parse _ Hr fuel rest
                 Hfuel Hrest).
  - destruct fuel as [|fuel]; [cbn in Hfuel; lia|].
    cbn [floats_readable] in Hr. apply (readable_list float_repr float_parse) in Hr.
    cbn [reading_fuel] in Hfuel. cbn [json_view].
    destruct items as [|x items]; [reflexivity|].
    rewrite dumps_indent_list, open_shape, parse_value_list, skip_ws_newline_indent.
    pose proof (parse_elements_indent level (x :: items) IH Hr ltac:(discriminate)
                  fuel rest ltac:(lia)) as Hm.
    inversion Hr as [|? ? Rx _]; subst.
    cbn [map] in Hm |- *. rewrite join_with_cons, append_assoc in Hm |- *.
    match goal with
    | |- context [skip_ws (dumps_indent (S level) x ++ ?tail)] =>
        destruct (dumps_indent_head (S level) x tail Rx) as (c & tl & E & Hw & Hb & _)
    end.
    rewrite E in Hm |- *. rewrite (skip_ws_head c tl Hw), Hb, Hm. reflexivity.
  - destruct fuel as [|fuel]; [cbn in Hfuel; lia|].
    cbn [floats_readable] in Hr. apply (readable_members float_repr float_parse) in Hr.
    cbn [reading_fuel] in Hfuel. cbn [json_view].
    destruct items as [|[k x] items]; [reflexivity|].
    rewrite dumps_indent_dict, open_shape, parse_value_dict, skip_ws_newline_indent.
    pose proof (parse_members_indent level ((k, x) :: items) IH Hr ltac:(discriminate)
                  fuel rest ltac:(lia)) as Hm.
    cbn [map fst snd] in Hm |- *.
    rewrite join_with_cons, append_assoc, member_indent_shape in Hm |- *.
    rewrite skip_ws_head by reflexivity.
    change (Ascii.eqb dquote "}") with false. cbv iota.
    rewrite Hm. reflexivity.
Qed.

Lemma json_loads_dumps_indent v fuel :
  readable v -> (reading_fuel v <= fuel)%nat ->
  json_loads float_parse fuel (dumps_indent 0 v) = Some (view v).
Proof.
  intros Hr Hfuel. unfold json_loads.
  rewrite <- (append_empty_r (dumps_indent 0 v)).
  rewrite (skip_ws_dumps_indent 0 v EmptyString Hr).
  now rewrite (parse_value_dumps_indent v Hr 0%nat fuel EmptyString Hfuel I).
Qed.

End IndentFacts.

Section JsonFormatFacts.

Variable datetime_str : datetime -> string.
Variable float_repr : Q -> string.
Variable float_parse : string -> option Q.

Local Notation view := (json_view datetime_str).
Local Notation readable := (floats_readable float_repr float_parse).

Lemma readable_py_list chunks : Forall readable chunks -> readable (PyList chunks).
Proof.
  cbn [floats_readable]. induction 1 as [|c chunks Hc _ IH]; cbn; auto.
Qed.

(** X19: the two JSON formats of [format_output] hold the same object.
    The ["json"] text, indented over several lines, and the ["jsonl"] text,
    which has no line break, both read back as what JSON keeps of the
    object (timestamps as their [str] text), floats being read under the
    interpreter's guarantee that [float(repr(x))] is [x]. *)
Theorem format_output_json_reads_back_like_jsonl :
  forall to_csv self data fuel,
    floats_readable float_repr float_parse data ->
    (reading_fuel data <= fuel)%nat ->
    exists pretty line,
      format_output datetime_str float_repr to_csv self data "json" = Formatted pretty
      /\ format_output datetime_str float_repr to_csv self data "jsonl" = Formatted line
      /\ json_loads float_parse fuel pretty = Some (view data)
      /\ json_loads float_parse fuel line = Some (view data)
      /\ string_forallb not_newline line = true
      /\ pretty = json_dumps_indent datetime_str float_repr 0 data.
Proof.
  intros to_csv self data fuel Hr Hfuel.
  exists (json_dumps_indent datetime_str float_repr 0 data),
         (json_dumps datetime_str float_repr data).
  split; [reflexivity|]. split; [reflexivity|].
  split; [now apply json_loads_dumps_indent|].
  split; [now apply json_loads_dumps|].
  split; [now apply (json_dumps_one_line datetime_str float_repr float_parse)|].
  reflexivity.
Qed.

(** X20: the ["json"] export holds the chunks the ["jsonl"] export holds.
    For the same stream, when it returns, the one indented array written
    by the ["json"] branch reads back as the list of what the lines of the
    ["jsonl"] file read back as.  When the stream does not return, the
    ["json"] branch has written nothing while the ["jsonl"] file keeps a
    line for every chunk yielded before the failure. *)
Theorem export_json_holds_the_chunks_of_jsonl :
  forall strptime isoformat utcnow sql_where db fuel self t st en path
         use_time_windows w sf,
    let stream :=
      if use_time_windows : bool
      then stream_data_by_time_windows strptime isoformat utcnow sql_where db fuel
             self t st en w sf
      else stream_data_by_chunks strptime isoformat utcnow sql_where db fuel
             self t st en w sf in
    let json_run := export_json datetime_str float_repr (stream []) in
    let jsonl_run := export_to_file strptime isoformat utcnow sql_where db
                       datetime_str float_repr fuel self t st en path "jsonl"
                       use_time_windows w sf in
    let chunks := streamed_objects (fst (stream [])) in
    Forall (fun c => float_contract float_repr float_parse (FlatChunk.progress c))
           (yielded_chunks (fst (stream []))) ->
    fst json_run
    = fst (export_to_file strptime isoformat utcnow sql_where db datetime_str
             float_repr fuel self t st en path "json" use_time_windows w sf)
    /\ (returned (snd (stream [])) = true ->
        exists fuel0, forall fuel', (fuel0 <= fuel')%nat ->
          json_loads float_parse fuel' (file_text json_run)
          = Some (PyList (map view chunks))
          /\ read_jsonl float_parse fuel' (file_text jsonl_run)
             = Some (map view chunks))
    /\ (returned (snd (stream [])) = false ->
        snd json_run = None
        /\ snd jsonl_run = Some (write_jsonl datetime_str float_repr chunks)).
Proof.
  intros strptime isoformat utcnow sql_where db fuel self t st en path
         use_time_windows w sf stream json_run jsonl_run chunks Hfloats.
  pose proof (streamed_objects_readable float_repr float_parse _ Hfloats) as Hr.
  fold chunks in Hr.
  assert (Hlines : snd jsonl_run = Some (write_jsonl datetime_str float_repr chunks)).
  { unfold jsonl_run, chunks, stream, export_to_file.
    change (String.eqb "jsonl" "jsonl") with true. cbv iota.
    destruct use_time_windows.
    - destruct (stream_data_by_time_windows strptime isoformat utcnow sql_where db
                  fuel self t st en w sf []); reflexivity.
    - destruct (stream_data_by_chunks strptime isoformat utcnow sql_where db
                  fuel self t st en w sf []); reflexivity. }
  split; [|split].
  - unfold json_run, stream, export_json, export_to_file.
    change (String.eqb "json" "jsonl") with false.
    change (String.eqb "json" "json") with true. cbv iota. cbn [orb].
    destruct use_time_windows.
    + destruct (stream_data_by_time_windows strptime isoformat utcnow sql_where db
                  fuel self t st en w sf []) as [log [v| |]]; reflexivity.
    + destruct (stream_data_by_chunks strptime isoformat utcnow sql_where db
                  fuel self t st en w sf []) as [log [v| |]]; reflexivity.
  - intros Hret.
    destruct (enough_reading_fuel chunks) as [fuel0 Hfuel0].
    exists (Nat.max fuel0 (reading_fuel (PyList chunks))). intros fuel' Hf.
    unfold file_text. rewrite Hlines. split.
    + unfold json_run, export_json. fold chunks.
      destruct (snd (stream [])) as [v| |]; try discriminate. cbn [snd].
      unfold write_json.
      rewrite (json_loads_dumps_indent datetime_str float_repr float_parse
                 (PyList chunks) fuel' (readable_py_list chunks Hr)) by lia.
      reflexivity.
    + apply read_jsonl_write_jsonl; [exact Hr|]. apply Hfuel0. lia.
  - intros Hret. split; [|exact Hlines].
    unfold json_run, export_json.
    destruct (snd (stream [])) as [v| |]; [discriminate|reflexivity|reflexivity].
Qed.

End JsonFormatFacts.

(** ** Exports that hold nothing *)

Lemma envelopes_forall (P : envelope -> Prop) log :
  Forall (fun c => P (WindowEnvelope c)) (yielded_windows log) ->
  Forall (fun c => P (FlatEnvelope c)) (yielded_chunks log) ->
  Forall P (envelopes log).
Proof.
  induction log as [|ev log IH]; intros Hw Hc; [constructor|].
  destruct ev as [q|c|c| ];
    cbn [envelopes yielded_windows yielded_chunks flat_map app] in *;
    try (apply IH; assumption).
  - inversion Hw; subst. constructor; [assumption|now apply IH].
  - inversion Hc; subst. constructor; [assumption|now apply IH].
Qed.

Lemma flat_envelopes_nonempty cs total fin chunks :
  forall idx o,
    flat_envelopes cs total fin idx o chunks ->
    Forall (fun c => envelope_data (FlatEnvelope c) <> []) chunks.
Proof.
  induction chunks as [|c rest IH]; intros idx o Hf; [constructor|].
  destruct Hf as (_ & _ & _ & Hl & _ & Hp & _ & Hrest).
  constructor; [|exact (IH _ _ Hrest)].
  cbn [envelope_data]. intros E. rewrite E in Hl. cbn in Hl. lia.
Qed.

Section EmptyExport.

Variable strptime : string -> string -> option datetime.
Variable isoformat : datetime -> string.
Variable utcnow : nat -> datetime.
Variable sql_where : string -> row -> bool.
Variable db : database.
Variable datetime_str : datetime -> string.
Variable float_repr : Q -> string.

Lemma chunks_loop_no_windows fuel :
  forall self t st en w sf total offset idx log,
    exists evs out,
      chunks_loop strptime isoformat utcnow sql_where db fuel self t st en w sf
                  total offset idx log = (log ++ evs, out)
      /\ yielded_windows evs = [].
Proof.
  induction fuel as [|fuel IH]; intros self t st en w sf total offset idx log.
  { eexists [], _. cbn [chunks_loop]. unfold lift. rewrite app_nil_r.
    split; reflexivity. }
  cbn [chunks_loop]. destruct (offset <? total).
  2:{ eexists [], _. unfold ret. rewrite app_nil_r. split; reflexivity. }
  unfold bind at 1.
  destruct (fetch_data_chunk_log strptime sql_where db self t st en offset
              (Some (self_chunk_size self)) w sf log)
    as (evs1 & out1 & E1 & Hw1 & _).
  rewrite E1.
  destruct out1 as [data| |];
    try (exists evs1; eexists; split; [reflexivity|exact Hw1]).
  destruct (is_empty data).
  { exists evs1; eexists; split; [reflexivity|exact Hw1]. }
  unfold config_time_field.
  destruct (dict_get t TABLE_CONFIGS) as [cfg|].
  2:{ exists evs1; eexists; unfold bind, raise; split; [reflexivity|exact Hw1]. }
  unfold bind at 1. unfold ret at 1.
  unfold bind at 1. unfold now_isoformat at 1.
  unfold bind at 1. unfold emit at 1.
  unfold bind at 1. unfold emit at 1.
  match goal with
  | |- context [EvYieldChunk ?c] => set (chunk := c)
  end.
  destruct (IH self t st en w sf total (offset + self_chunk_size self) (idx + 1)
               (((log ++ evs1) ++ [EvYieldChunk chunk]) ++ [EvSleep]))
    as (evs & out & E & Hw).
  exists (evs1 ++ [EvYieldChunk chunk; EvSleep] ++ evs), out.
  split; [rewrite E; f_equal; now rewrite <- !app_assoc|].
  rewrite !yielded_windows_app, Hw1, Hw. reflexivity.
Qed.

(** Every chunk either generator yields holds at least one row. *)
Lemma streamed_chunks_hold_rows fuel self t st en w sf (use_time_windows : bool) :
  Forall (fun chunk => envelope_data chunk <> [])
    (envelopes
       (fst ((if use_time_windows
              then stream_data_by_time_windows strptime isoformat utcnow sql_where db
                     fuel self t st en w sf
              else stream_data_by_chunks strptime isoformat utcnow sql_where db
                     fuel self t st en w sf) []))).
Proof.
  destruct use_time_windows; apply envelopes_forall.
  - unfold stream_data_by_time_windows, bind, lift.
    destruct (generate_time_windows strptime fuel self st en) as [windows| |];
      try constructor.
    destruct (for_each_window_envelopes strptime isoformat utcnow sql_where db
                fuel self t w sf windows 1 0 []) as (evs & out & E & Hall).
    rewrite E. cbn [fst app].
    eapply Forall_impl; [|exact Hall]. cbn beta.
    intros c ((Hl & Hp & _) & _). cbn [envelope_data]. intros Hnil.
    rewrite Hnil in Hl. cbn in Hl. lia.
  - rewrite (stream_data_by_time_windows_no_flat strptime isoformat utcnow
               sql_where db). constructor.
  - unfold stream_data_by_chunks. unfold bind at 1.
    destruct (get_table_count_log strptime sql_where db self t st en w [])
      as (evs0 & out0 & E0 & Hw0 & _).
    rewrite E0. cbn [app].
    destruct out0 as [total| |]; cbn [fst]; try (rewrite Hw0; constructor).
    destruct (total =? 0); [unfold ret; cbn [fst]; rewrite Hw0; constructor|].
    destruct (chunks_loop_no_windows fuel self t st en w sf total 0 0 evs0)
      as (evs & out & E & Hw).
    rewrite E. cbn [fst]. rewrite yielded_windows_app, Hw0, Hw. constructor.
  - destruct (stream_data_by_chunks_envelopes strptime isoformat utcnow sql_where db
                fuel self t st en w sf) as (total & evs & out & E & Henv & _).
    rewrite E. cbn [fst]. exact (flat_envelopes_nonempty _ _ _ _ _ _ Henv).
Qed.

(** X21: what each format leaves when the stream returns.  The ["csv"] and
    ["parquet"] branches write a file exactly when at least one chunk was
    yielded; when none was, as for a range without rows, they create no
    file at all, while the ["jsonl"] branch leaves an empty file and the
    ["json"] branch a file holding [[]]. *)
Theorem export_of_nothing_by_format :
  forall write_table fuel self t st en path use_time_windows w sf,
    let stream :=
      if use_time_windows : bool
      then stream_data_by_time_windows strptime isoformat utcnow sql_where db fuel
             self t st en w sf
      else stream_data_by_chunks strptime isoformat utcnow sql_where db fuel
             self t st en w sf in
    returned (snd (stream [])) = true ->
    (snd (export_table write_table (stream [])) = None
     <-> envelopes (fst (stream [])) = [])
    /\ (envelopes (fst (stream [])) = [] ->
        snd (export_to_file strptime isoformat utcnow sql_where db datetime_str
               float_repr fuel self t st en path "jsonl" use_time_windows w sf)
        = Some EmptyString
        /\ snd (export_json datetime_str float_repr (stream [])) = Some "[]").
Proof.
  intros write_table fuel self t st en path use_time_windows w sf stream Hret.
  pose proof (streamed_chunks_hold_rows fuel self t st en w sf use_time_windows)
    as Hrows.
  fold stream in Hrows.
  assert (Hobjects : forall log, envelopes log = [] -> streamed_objects log = []).
  { clear. induction log as [|ev log IH]; [reflexivity|].
    destruct ev as [q|c|c| ]; cbn [envelopes streamed_objects flat_map app];
      try exact IH; discriminate. }
  split.
  - unfold export_table.
    destruct (snd (stream [])) as [v| |]; try discriminate. cbn [snd].
    destruct (envelopes (fst (stream []))) as [|chunk rest].
    + split; reflexivity.
    + inversion Hrows as [|? ? Hchunk _]; subst.
      cbn [flat_map]. destruct (envelope_data chunk) as [|r rows]; [contradiction|].
      cbn [app is_empty]. split; discriminate.
  - intros Hnone. split.
    + unfold export_to_file. fold stream.
      change (String.eqb "jsonl" "jsonl") with true. cbv iota.
      destruct (stream []) as [log out]. cbn [fst snd] in *.
      now rewrite (Hobjects log Hnone).
    + unfold export_json.
      destruct (snd (stream [])) as [v| |]; try discriminate. cbn [snd].
      now rewrite (Hobjects _ Hnone).
Qed.

End EmptyExport.

Lemma export_of_nothing_by_format_witness :
  (snd (export_table (fun _ => "csv")
          (stream_data_by_chunks sample_strptime sample_isoformat sample_utcnow
             sample_sql_where sample_db 5 (init None None None) "users"
             (TDatetime t_2024_01_01) (TDatetime t_2024_01_01_02h) None None []))
   = None
   <-> envelopes
         (fst (stream_data_by_chunks sample_strptime sample_isoformat sample_utcnow
                 sample_sql_where sample_db 5 (init None None None) "users"
                 (TDatetime t_2024_01_01) (TDatetime t_2024_01_01_02h) None None []))
       = [])
  /\ (envelopes
        (fst (stream_data_by_chunks sample_strptime sample_isoformat sample_utcnow
                sample_sql_where sample_db 5 (init None None None) "users"
                (TDatetime t_2024_01_01) (TDatetime t_2024_01_01_02h) None None []))
      = [] ->
      snd (export_to_file sample_strptime sample_isoformat sample_utcnow
             sample_sql_where sample_db sample_datetime_str sample_float_repr
             5 (init None None None) "users"
             (TDatetime t_2024_01_01) (TDatetime t_2024_01_01_02h)
             "output/users.jsonl" "jsonl" false None None)
      = Some EmptyString
      /\ snd (export_json sample_datetime_str sample_float_repr
                (stream_data_by_chunks sample_strptime sample_isoformat sample_utcnow
                   sample_sql_where sample_db 5 (init None None None) "users"
                   (TDatetime t_2024_01_01) (TDatetime t_2024_01_01_02h)
                   None None []))
         = Some "[]").
Proof.
  apply (export_of_nothing_by_format sample_strptime sample_isoformat sample_utcnow
           sample_sql_where sample_db sample_datetime_str sample_float_repr
           (fun _ => "csv") 5 (init None None None) "users"
           (TDatetime t_2024_01_01) (TDatetime t_2024_01_01_02h)
           "output/users.jsonl" false None None).
  vm_compute. reflexivity.
Defined.

(** ** Further runs on the sample store *)

Lemma parse_time_first_matching_format_witness :
  parse_time sample_strptime (TStr "2024-01-01")
  = Returned {| wall := wall (naive_datetime 2024 1 1 0 0 0);
                tzinfo := timezone_utc |}.
Proof.
  apply (parse_time_first_matching_format sample_strptime "2024-01-01"
           ["%Y-%m-%d %H:%M:%S"] "%Y-%m-%d"
           ["%Y-%m-%dT%H:%M:%S"; "%Y-%m-%dT%H:%M:%SZ"; "%Y-%m-%d %H:%M:%S.%f"]
           (naive_datetime 2024 1 1 0 0 0)).
  - reflexivity.
  - intros f [<-|[]]. reflexivity.
  - reflexivity.
  - reflexivity.
Defined.

Lemma generate_time_windows_mixed_awareness_witness :
  generate_time_windows sample_strptime 1 (init None None None)
    (TDatetime (naive_datetime 2024 1 1 0 0 0)) (TStr "2024-01-02")
  = Raised TypeError_naive_aware
  /\ stream_data_by_time_windows sample_strptime sample_isoformat sample_utcnow
       sample_sql_where sample_db 1 (init None None None) "tweets"
       (TDatetime (naive_datetime 2024 1 1 0 0 0)) (TStr "2024-01-02") None None []
     = ([], Raised TypeError_naive_aware).
Proof.
  apply (generate_time_windows_mixed_awareness sample_strptime sample_isoformat
           sample_utcnow sample_sql_where sample_db 0 (init None None None) "tweets"
           (TDatetime (naive_datetime 2024 1 1 0 0 0)) (TStr "2024-01-02") None None
           (naive_datetime 2024 1 1 0 0 0)
           (replace_tzinfo_utc (naive_datetime 2024 1 2 0 0 0)) []).
  - reflexivity.
  - reflexivity.
  - split; [intros _; discriminate|intros _; reflexivity].
Defined.

Lemma constructed_fetcher_window_loop_ends_witness :
  exists fuel0, forall fuel, (fuel0 <= fuel)%nat ->
    generate_time_windows sample_strptime fuel (init (Some 0) (Some 0) (Some 0))
      (TStr "2024-01-01") (TStr "2024-01-02") <> OutOfFuel.
Proof.
  apply (constructed_fetcher_window_loop_ends sample_strptime
           (Some 0) (Some 0) (Some 0) (TStr "2024-01-01") (TStr "2024-01-02")
           (replace_tzinfo_utc (naive_datetime 2024 1 1 0 0 0))
           (replace_tzinfo_utc (naive_datetime 2024 1 2 0 0 0)));
    reflexivity.
Defined.

Lemma get_table_count_adds_over_a_cut_witness :
  exists n1 n2,
    snd (get_table_count sample_strptime sample_sql_where sample_db
           (init None None None) "tweets"
           (TDatetime t_2024_01_01) (TDatetime t_2024_01_01_01h) None [])
    = Returned n1
    /\ snd (get_table_count sample_strptime sample_sql_where sample_db
              (init None None None) "tweets"
              (TDatetime t_2024_01_01_01h) (TDatetime t_2024_01_01_02h) None [])
       = Returned n2
    /\ snd (get_table_count sample_strptime sample_sql_where sample_db
              (init None None None) "tweets"
              (TDatetime t_2024_01_01) (TDatetime t_2024_01_01_02h) None [])
       = Returned (n1 + n2)
    /\ 0 <= n1 /\ 0 <= n2.
Proof.
  apply (get_table_count_adds_over_a_cut sample_strptime sample_sql_where sample_db
           (init None None None) "tweets" sample_tweets_config sample_tweets
           t_2024_01_01 t_2024_01_01_01h t_2024_01_01_02h None [] [] []).
  - reflexivity.
  - reflexivity.
  - discriminate.
  - discriminate.
  - discriminate.
  - vm_compute. discriminate.
  - vm_compute. discriminate.
Defined.


Lemma fetch_data_chunk_pages_fit_together_witness :
  exists d1 d2 n,
    snd (fetch_data_chunk sample_strptime sample_sql_where sample_db
           (init None None None) "tweets"
           (TDatetime t_2024_01_01) (TDatetime t_2024_01_01_02h) 1 (Some 2) None None [])
    = Returned d1
    /\ snd (fetch_data_chunk sample_strptime sample_sql_where sample_db
              (init None None None) "tweets"
              (TDatetime t_2024_01_01) (TDatetime t_2024_01_01_02h) (1 + 2) (Some 5)
              None None [])
       = Returned d2
    /\ snd (fetch_data_chunk sample_strptime sample_sql_where sample_db
              (init None None None) "tweets"
              (TDatetime t_2024_01_01) (TDatetime t_2024_01_01_02h) 1 (Some (2 + 5))
              None None [])
       = Returned (d1 ++ d2)
    /\ snd (get_table_count sample_strptime sample_sql_where sample_db
              (init None None None) "tweets"
              (TDatetime t_2024_01_01) (TDatetime t_2024_01_01_02h) None [])
       = Returned n
    /\ len d1 = Z.min 2 (Z.max 0 (n - 1))
    /\ (n <= 1 -> d1 = []).
Proof.
  apply (fetch_data_chunk_pages_fit_together sample_strptime sample_sql_where
           sample_db (init None None None) "tweets" sample_tweets_config sample_tweets
           (TDatetime t_2024_01_01) (TDatetime t_2024_01_01_02h)
           t_2024_01_01 t_2024_01_01_02h None None 1 2 5 []).
  - reflexivity.
  - reflexivity.
  - reflexivity.
  - reflexivity.
  - discriminate.
  - discriminate.
  - reflexivity.
  - exact sample_tweets_told_apart.
  - vm_compute. discriminate.
  - reflexivity.
  - reflexivity.
  - vm_compute. discriminate.
  - vm_compute. discriminate.
Defined.


Lemma flat_mode_envelope_and_query_count_witness :
  len (yielded_chunks
         (fst (stream_data_by_chunks sample_strptime sample_isoformat sample_utcnow
                 sample_sql_where sample_db 10 (init (Some 3) None None) "tweets"
                 (TDatetime t_2024_01_01) (TDatetime t_2024_01_01_02h) None None [])))
  = ceil_div 4 (self_chunk_size (init (Some 3) None None))
  /\ len (issued_queries
            (fst (stream_data_by_chunks sample_strptime sample_isoformat sample_utcnow
                    sample_sql_where sample_db 10 (init (Some 3) None None) "tweets"
                    (TDatetime t_2024_01_01) (TDatetime t_2024_01_01_02h) None None [])))
     = len (yielded_chunks
              (fst (stream_data_by_chunks sample_strptime sample_isoformat
                      sample_utcnow sample_sql_where sample_db 10
                      (init (Some 3) None None) "tweets"
                      (TDatetime t_2024_01_01) (TDatetime t_2024_01_01_02h)
                      None None [])))
       + 1.
Proof.
  apply (flat_mode_envelope_and_query_count sample_strptime sample_isoformat
           sample_utcnow sample_sql_where sample_db 10 (init (Some 3) None None)
           "tweets" (TDatetime t_2024_01_01) (TDatetime t_2024_01_01_02h) None None 4).
  - vm_compute. reflexivity.
  - reflexivity.
  - vm_compute. reflexivity.
Defined.



Lemma stream_command_rejects_unparseable_time_witness :
  stream_data_command sample_strptime sample_isoformat sample_utcnow
    sample_sql_where sample_db sample_datetime_str sample_float_repr sample_to_csv
    10 sample_unparseable_args
  = ([],
     [PrintStart "tweets"; PrintTimeRange "yesterday" "2024-01-02";
      PrintFormat "json"],
     CommandRaised (ValueError_time_format "yesterday"))
  /\ stream_data_command sample_strptime sample_isoformat sample_utcnow
       sample_sql_where sample_db sample_datetime_str sample_float_repr sample_to_csv
       10 sample_unparseable_end_args
     = ([],
        [PrintStart "tweets"; PrintTimeRange "2024-01-01" "tomorrow";
         PrintFormat "jsonl"],
        CommandRaised (ValueError_time_format "tomorrow")).
Proof.
  split.
  - apply (proj1 (stream_command_rejects_unparseable_time sample_strptime
                    sample_isoformat sample_utcnow sample_sql_where sample_db
                    sample_datetime_str sample_float_repr sample_to_csv
                    10 sample_unparseable_args sample_tweets_config eq_refl)).
    intros fmt Hin. cbn in Hin.
    repeat (destruct Hin as [<-|Hin]; [reflexivity|]). contradiction.
  - apply (proj2 (stream_command_rejects_unparseable_time sample_strptime
                    sample_isoformat sample_utcnow sample_sql_where sample_db
                    sample_datetime_str sample_float_repr sample_to_csv
                    10 sample_unparseable_end_args sample_tweets_config eq_refl)).
    + eexists. reflexivity.
    + intros fmt Hin. cbn in Hin.
      repeat (destruct Hin as [<-|Hin]; [reflexivity|]). contradiction.
Defined.

Lemma format_output_json_reads_back_like_jsonl_witness :
  exists pretty line,
    format_output sample_datetime_str sample_float_repr sample_to_csv
      (init None None None) sample_envelope_object "json" = Formatted pretty
    /\ format_output sample_datetime_str sample_float_repr sample_to_csv
         (init None None None) sample_envelope_object "jsonl" = Formatted line
    /\ json_loads sample_float_parse 30 pretty
       = Some (json_view sample_datetime_str sample_envelope_object)
    /\ json_loads sample_float_parse 30 line
       = Some (json_view sample_datetime_str sample_envelope_object)
    /\ string_forallb not_newline line = true
    /\ pretty = json_dumps_indent sample_datetime_str sample_float_repr 0
                  sample_envelope_object.
Proof.
  apply (format_output_json_reads_back_like_jsonl sample_datetime_str
           sample_float_repr sample_float_parse sample_to_csv (init None None None)
           sample_envelope_object 30).
  - vm_compute. repeat split; discriminate.
  - vm_compute. repeat constructor.
Defined.

Lemma export_json_holds_the_chunks_of_jsonl_witness :
  fst (export_json sample_datetime_str sample_float_repr
         (stream_data_by_chunks sample_strptime sample_isoformat sample_utcnow
            sample_sql_where sample_db 10 (init (Some 3) None None) "tweets"
            (TDatetime t_2024_01_01) (TDatetime t_2024_01_01_02h) None None []))
  = fst (export_to_file sample_strptime sample_isoformat sample_utcnow
           sample_sql_where sample_db sample_datetime_str sample_float_repr
           10 (init (Some 3) None None) "tweets"
           (TDatetime t_2024_01_01) (TDatetime t_2024_01_01_02h)
           "output/tweets.json" "json" false None None)
  /\ (returned
        (snd (stream_data_by_chunks sample_strptime sample_isoformat sample_utcnow
                sample_sql_where sample_db 10 (init (Some 3) None None) "tweets"
                (TDatetime t_2024_01_01) (TDatetime t_2024_01_01_02h) None None []))
      = true ->
      exists fuel0, forall fuel', (fuel0 <= fuel')%nat ->
        json_loads sample_float_parse fuel'
          (file_text
             (export_json sample_datetime_str sample_float_repr
                (stream_data_by_chunks sample_strptime sample_isoformat sample_utcnow
                   sample_sql_where sample_db 10 (init (Some 3) None None) "tweets"
                   (TDatetime t_2024_01_01) (TDatetime t_2024_01_01_02h)
                   None None [])))
        = Some (PyList
                  (map (json_view sample_datetime_str)
                     (streamed_objects
                        (fst (stream_data_by_chunks sample_strptime sample_isoformat
                                sample_utcnow sample_sql_where sample_db 10
                                (init (Some 3) None None) "tweets"
                                (TDatetime t_2024_01_01) (TDatetime t_2024_01_01_02h)
                                None None [])))))
        /\ read_jsonl sample_float_parse fuel'
             (file_text
                (export_to_file sample_strptime sample_isoformat sample_utcnow
                   sample_sql_where sample_db sample_datetime_str sample_float_repr
                   10 (init (Some 3) None None) "tweets"
                   (TDatetime t_2024_01_01) (TDatetime t_2024_01_01_02h)
                   "output/tweets.json" "jsonl" false None None))
           = Some (map (json_view sample_datetime_str)
                     (streamed_objects
                        (fst (stream_data_by_chunks sample_strptime sample_isoformat
                                sample_utcnow sample_sql_where sample_db 10
                                (init (Some 3) None None) "tweets"
                                (TDatetime t_2024_01_01) (TDatetime t_2024_01_01_02h)
                                None None [])))))
  /\ (returned
        (snd (stream_data_by_chunks sample_strptime sample_isoformat sample_utcnow
                sample_sql_where sample_db 10 (init (Some 3) None None) "tweets"
                (TDatetime t_2024_01_01) (TDatetime t_2024_01_01_02h) None None []))
      = false ->
      snd (export_json sample_datetime_str sample_float_repr
             (stream_data_by_chunks sample_strptime sample_isoformat sample_utcnow
                sample_sql_where sample_db 10 (init (Some 3) None None) "tweets"
                (TDatetime t_2024_01_01) (TDatetime t_2024_01_01_02h) None None []))
      = None
      /\ snd (export_to_file sample_strptime sample_isoformat sample_utcnow
                sample_sql_where sample_db sample_datetime_str sample_float_repr
                10 (init (Some 3) None None) "tweets"
                (TDatetime t_2024_01_01) (TDatetime t_2024_01_01_02h)
                "output/tweets.json" "jsonl" false None None)
         = Some (write_jsonl sample_datetime_str sample_float_repr
                   (streamed_objects
                      (fst (stream_data_by_chunks sample_strptime sample_isoformat
                              sample_utcnow sample_sql_where sample_db 10
                              (init (Some 3) None None) "tweets"
                              (TDatetime t_2024_01_01) (TDatetime t_2024_01_01_02h)
                              None None []))))).
Proof.
  apply (export_json_holds_the_chunks_of_jsonl sample_datetime_str sample_float_repr
           sample_float_parse sample_strptime sample_isoformat sample_utcnow
           sample_sql_where sample_db 10 (init (Some 3) None None) "tweets"
           (TDatetime t_2024_01_01) (TDatetime t_2024_01_01_02h)
           "output/tweets.json" false None None).
  vm_compute. repeat constructor; discriminate.
Defined.

(** ** The exceptions of the two generators *)

Section ErrorFacts.

Variable strptime : string -> string -> option datetime.
Variable isoformat : datetime -> string.
Variable utcnow : nat -> datetime.
Variable sql_where : string -> row -> bool.
Variable db : database.

Lemma parse_time_raises_text x e :
  parse_time strptime x = Raised e -> e = match x with
                                         | TStr s => ValueError_time_format s
                                         | TDatetime _ => e
                                         end.
Proof.
  destruct x as [s|d]; [|reflexivity]. cbn [parse_time].
  induction TIME_FORMATS as [|f l IH]; cbn [parse_formats].
  - intros H. now injection H as <-.
  - destruct (strptime s f); [discriminate|exact IH].
Qed.

Lemma parse_time_query_error t st en x e :
  (x = st \/ x = en) ->
  parse_time strptime x = Raised e -> query_error t st en e.
Proof.
  intros Hx H. pose proof (parse_time_raises_text x e H) as E.
  destruct x as [s|d]; [|discriminate]. subst e. cbn. destruct Hx; subst; auto.
Qed.

Lemma get_table_count_raises self t st en w log e :
  snd (get_table_count strptime sql_where db self t st en w log) = Raised e ->
  query_error t st en e.
Proof.
  unfold get_table_count, bind, lift, emit, raise.
  destruct (dict_get t TABLE_CONFIGS) as [cfg|];
    [|cbn; intros H; now injection H as <-].
  destruct (parse_time strptime st) as [s|x|] eqn:Es; cbn [snd]; try discriminate.
  2:{ intros H. injection H as <-.
      now apply (parse_time_query_error t st en st x (or_introl eq_refl)). }
  destruct (parse_time strptime en) as [e'|x|] eqn:Ee; cbn [snd]; try discriminate.
  2:{ intros H. injection H as <-.
      now apply (parse_time_query_error t st en en x (or_intror eq_refl)). }
  cbn [run_query_count]. destruct (dict_get t db); [discriminate|].
  intros H. now injection H as <-.
Qed.

Lemma fetch_data_chunk_raises self t st en offset limit w sf log e :
  snd (fetch_data_chunk strptime sql_where db self t st en offset limit w sf log)
  = Raised e ->
  query_error t st en e.
Proof.
  unfold fetch_data_chunk, bind, lift, emit, raise.
  destruct (dict_get t TABLE_CONFIGS) as [cfg|];
    [|cbn; intros H; now injection H as <-].
  destruct (parse_time strptime st) as [s|x|] eqn:Es; cbn [snd]; try discriminate.
  2:{ intros H. injection H as <-.
      now apply (parse_time_query_error t st en st x (or_introl eq_refl)). }
  destruct (parse_time strptime en) as [e'|x|] eqn:Ee; cbn [snd]; try discriminate.
  2:{ intros H. injection H as <-.
      now apply (parse_time_query_error t st en en x (or_intror eq_refl)). }
  cbn [run_query_rows]. destruct (dict_get t db).
  - destruct (offset <? 0); [intros H; now injection H as <-|].
    destruct (py_or limit (self_chunk_size self) <? 0);
      [intros H; now injection H as <-|discriminate].
  - intros H. now injection H as <-.
Qed.

Lemma query_error_of_window t a b st en e :
  query_error t (TDatetime a) (TDatetime b) e -> query_error t st en e.
Proof.
  destruct e; cbn; auto. intros [H|H]; discriminate.
Qed.

(** The paging loop of flat mode raises what its page query raises. *)
Lemma chunks_loop_raises fuel :
  forall self t st en w sf total offset idx log e,
    snd (chunks_loop strptime isoformat utcnow sql_where db fuel self t st en w sf
           total offset idx log) = Raised e ->
    query_error t st en e.
Proof.
  induction fuel as [|fuel IH]; intros self t st en w sf total offset idx log e;
    cbn [chunks_loop]; [discriminate|].
  destruct (offset <? total); [|discriminate].
  unfold bind at 1.
  destruct (fetch_data_chunk strptime sql_where db self t st en offset
              (Some (self_chunk_size self)) w sf log) as [log1 out1] eqn:E1.
  destruct out1 as [data|e1|]; cbn [snd]; try discriminate.
  - destruct (fetch_data_chunk_returned_page strptime sql_where db self t st en
                offset _ w sf log log1 data E1) as (cfg & _ & _ & _ & Hc & _).
    destruct (is_empty data); [discriminate|].
    unfold config_time_field. rewrite Hc.
    unfold bind at 1. unfold ret at 1.
    unfold bind at 1. unfold now_isoformat at 1.
    unfold bind at 1. unfold emit at 1.
    unfold bind at 1. unfold emit at 1.
    apply IH.
  - intros H. injection H as <-.
    apply (fetch_data_chunk_raises self t st en offset
             (Some (self_chunk_size self)) w sf log). now rewrite E1.
Qed.

Lemma window_pages_raises fuel :
  forall self t i ws we w sf wc offset total log e,
    snd (window_pages strptime isoformat utcnow sql_where db fuel self t i ws we w sf
           wc offset total log) = Raised e ->
    query_error t (TDatetime ws) (TDatetime we) e.
Proof.
  induction fuel as [|fuel IH]; intros self t i ws we w sf wc offset total log e;
    cbn [window_pages]; [discriminate|].
  destruct (offset <? wc); [|discriminate].
  unfold bind at 1.
  destruct (fetch_data_chunk strptime sql_where db self t (TDatetime ws)
              (TDatetime we) offset (Some (self_chunk_size self)) w sf log)
    as [log1 out1] eqn:E1.
  destruct out1 as [data|e1|]; cbn [snd]; try discriminate.
  - destruct (fetch_data_chunk_returned_page strptime sql_where db self t _ _
                offset _ w sf log log1 data E1) as (cfg & _ & _ & _ & Hc & _).
    destruct (is_empty data); [discriminate|].
    unfold config_time_field. rewrite Hc.
    unfold bind at 1. unfold ret at 1.
    unfold bind at 1. unfold now_isoformat at 1.
    unfold bind at 1. unfold emit at 1.
    unfold bind at 1.
    destruct (len data >=? self_chunk_size self).
    + unfold emit at 1. apply IH.
    + unfold ret at 1. apply IH.
  - intros H. injection H as <-.
    apply (fetch_data_chunk_raises self t (TDatetime ws) (TDatetime we) offset
             (Some (self_chunk_size self)) w sf log). now rewrite E1.
Qed.

Lemma for_each_window_raises fuel self t w sf windows :
  forall i total log e,
    snd (for_each_window strptime isoformat utcnow sql_where db fuel self t w sf
           i windows total log) = Raised e ->
    forall st en, query_error t st en e.
Proof.
  induction windows as [|[ws we] rest IH]; intros i total log e;
    cbn [for_each_window]; [discriminate|].
  unfold bind at 1.
  destruct (get_table_count strptime sql_where db self t (TDatetime ws)
              (TDatetime we) w log) as [log0 out0] eqn:E0.
  destruct out0 as [wc|e0|]; cbn [snd]; try discriminate.
  - destruct (wc =? 0); [apply IH|].
    unfold bind at 1.
    destruct (window_pages strptime isoformat utcnow sql_where db fuel self t i
                ws we w sf wc 0 total log0) as [log1 out1] eqn:E1.
    destruct out1 as [total1|e1|]; cbn [snd]; try discriminate; [apply IH|].
    intros H st en. injection H as <-.
    apply (query_error_of_window t ws we).
    apply (window_pages_raises fuel self t i ws we w sf wc 0 total log0).
    now rewrite E1.
  - intros H st en. injection H as <-.
    apply (query_error_of_window t ws we).
    apply (get_table_count_raises self t (TDatetime ws) (TDatetime we) w log).
    now rewrite E0.
Qed.

(** Two times that are both naive or both aware never meet the comparison
    error in the window loop. *)
Lemma windows_loop_same_awareness fuel :
  forall m c e acc x,
    (tzinfo c = None <-> tzinfo e = None) ->
    windows_loop fuel m c e acc = Raised x -> x = OverflowError.
Proof.
  induction fuel as [|fuel IH]; intros m c e acc x Hsame; cbn [windows_loop];
    [discriminate|].
  unfold dt_lt at 1.
  destruct (tzinfo c) as [oc|] eqn:Ec, (tzinfo e) as [oe|] eqn:Ee;
    try (exfalso; destruct Hsame as [H1 H2];
         first [discriminate (H1 eq_refl)|discriminate (H2 eq_refl)]);
    cbn [obind].
  all: match goal with
       | |- context [if ?cond then _ else _] => destruct cond; [|discriminate]
       end.
  all: destruct (timedelta_minutes_cases m) as [Htd|Htd]; rewrite Htd; cbn [obind];
         [|intros H; now injection H as <-].
  all: unfold dt_add;
       destruct ((0 <=? wall c + m * US_PER_MINUTE)
                 && (wall c + m * US_PER_MINUTE <=? DATETIME_MAX));
         cbn [obind]; [|intros H; now injection H as <-].
  all: unfold py_min, dt_lt; cbn [tzinfo]; rewrite Ec, Ee; cbn [obind].
  all: match goal with
       | |- context [if ?cond then _ else _] => destruct cond
       end.
  all: apply IH; cbn [tzinfo]; rewrite ?Ec, ?Ee; split; intros H; try discriminate H;
         reflexivity.
Qed.

Lemma windows_loop_raises fuel m c e acc x :
  windows_loop fuel m c e acc = Raised x -> window_error x.
Proof.
  destruct (tzinfo c) as [oc|] eqn:Ec, (tzinfo e) as [oe|] eqn:Ee.
  - intros H. rewrite (windows_loop_same_awareness fuel m c e acc x); [exact I| |exact H].
    rewrite Ec, Ee. split; discriminate.
  - destruct fuel as [|fuel]; cbn [windows_loop]; [discriminate|].
    unfold dt_lt. rewrite Ec, Ee. cbn [obind]. intros H. now injection H as <-.
  - destruct fuel as [|fuel]; cbn [windows_loop]; [discriminate|].
    unfold dt_lt. rewrite Ec, Ee. cbn [obind]. intros H. now injection H as <-.
  - intros H. rewrite (windows_loop_same_awareness fuel m c e acc x); [exact I| |exact H].
    rewrite Ec, Ee. split; reflexivity.
Qed.

(** X22: the exceptions of the two generators.  Flat mode raises nothing
    but the unsupported-table error for the table asked for, the
    time-format error for one of the two times given as text, and errors
    of the data store.  Windowed mode adds the two errors of the window
    arithmetic, the naive/aware comparison and the overflow; when both
    times are given as text the comparison error cannot happen.  Neither
    mode ever raises [KeyError] from the registry lookup in the
    metadata. *)
Theorem generators_raise_only_these_errors :
  forall fuel self t st en w sf,
    let flat := stream_data_by_chunks strptime isoformat utcnow sql_where db fuel
                  self t st en w sf [] in
    let windowed := stream_data_by_time_windows strptime isoformat utcnow sql_where
                      db fuel self t st en w sf [] in
    (forall e, snd flat = Raised e -> query_error t st en e)
    /\ (forall e, snd windowed = Raised e ->
          (query_error t st en e \/ window_error e)
          /\ ((exists a b, st = TStr a /\ en = TStr b) -> e <> TypeError_naive_aware))
    /\ (forall key, snd flat <> Raised (KeyError key)
                    /\ snd windowed <> Raised (KeyError key)).
Proof.
  intros fuel self t st en w sf flat windowed.
  assert (Hflat : forall e, snd flat = Raised e -> query_error t st en e).
  { intros e. unfold flat, stream_data_by_chunks. unfold bind at 1.
    destruct (get_table_count strptime sql_where db self t st en w [])
      as [log0 out0] eqn:E0.
    destruct out0 as [total|e0|]; cbn [snd]; try discriminate.
    + destruct (total =? 0); [discriminate|]. apply chunks_loop_raises.
    + intros H. injection H as <-.
      apply (get_table_count_raises self t st en w []). now rewrite E0. }
  assert (Hwindowed : forall e, snd windowed = Raised e ->
            (query_error t st en e \/ window_error e)
            /\ ((exists a b, st = TStr a /\ en = TStr b) ->
                e <> TypeError_naive_aware)).
  { intros e.
    unfold windowed, stream_data_by_time_windows, generate_time_windows, bind, lift.
    destruct (parse_time strptime st) as [s|x|] eqn:Ps; cbn [obind snd];
      try discriminate.
    2:{ intros H. injection H as <-.
        pose proof (parse_time_query_error t st en st x (or_introl eq_refl) Ps) as Hq.
        split; [now left|]. intros _ ->. exact Hq. }
    destruct (parse_time strptime en) as [e'|x|] eqn:Pe; cbn [obind snd];
      try discriminate.
    2:{ intros H. injection H as <-.
        pose proof (parse_time_query_error t st en en x (or_intror eq_refl) Pe) as Hq.
        split; [now left|]. intros _ ->. exact Hq. }
    destruct (windows_loop fuel (self_time_interval_minutes self) s e' [])
      as [windows|x|] eqn:Ew; cbn [snd]; try discriminate.
    + intros H.
      pose proof (for_each_window_raises fuel self t w sf windows 1 0 [] e H st en)
        as Hq.
      split; [now left|]. intros _ ->. exact Hq.
    + intros H. injection H as <-. split.
      * right. exact (windows_loop_raises _ _ _ _ _ _ Ew).
      * intros (a & b & -> & ->) ->.
        pose proof (parse_time_str_aware strptime a s Ps) as Hs.
        pose proof (parse_time_str_aware strptime b e' Pe) as He.
        assert (Hx : TypeError_naive_aware = OverflowError).
        { apply (windows_loop_same_awareness fuel (self_time_interval_minutes self)
                   s e' []); [|exact Ew].
          split; intros H; contradiction. }
        discriminate Hx. }
  split; [exact Hflat|]. split; [exact Hwindowed|].
  intros key. split; intros H.
  - exact (Hflat _ H).
  - destruct (Hwindowed _ H) as [[Hq|Hq] _]; exact Hq.
Qed.

(** X23: a negative chunk size passes the constructor unchanged and comes
    back as an error of the data store.  Over a range between offset-aware
    instants that holds rows of a registered table, flat mode sends the
    count query and its first page query, the store rejects the negative
    [LIMIT], and nothing is yielded.  A page asked for at a negative offset
    is rejected with the store's [OFFSET] error whatever the limit is, the
    negative default included.  The numbers are within the store's
    [bigint]. *)
Theorem negative_chunk_size_fails_at_the_first_page :
  forall fuel cs ti mc t cfg rows st en (s e : datetime) w sf,
    BIGINT_MIN <= cs < 0 ->
    dict_get t TABLE_CONFIGS = Some cfg ->
    dict_get t db = Some rows ->
    parse_time strptime st = Returned s ->
    parse_time strptime en = Returned e ->
    tzinfo s <> None -> tzinfo e <> None ->
    filter (selected sql_where (time_field cfg) s e (truthy_str w)) rows <> [] ->
    self_chunk_size (init (Some cs) ti mc) = cs
    /\ stream_data_by_chunks strptime isoformat utcnow sql_where db (S fuel)
         (init (Some cs) ti mc) t st en w sf []
       = ([EvQuery (SelectCount t (time_field cfg) s e (truthy_str w));
           EvQuery (SelectRows (truthy_list sf) t (time_field cfg) s e (truthy_str w)
                      (order_fields cfg) cs 0)],
          Raised (PostgresError "LIMIT must not be negative"))
    /\ forall offset limit log,
         BIGINT_MIN <= offset < 0 ->
         BIGINT_MIN <= py_or limit cs <= BIGINT_MAX ->
         snd (fetch_data_chunk strptime sql_where db (init (Some cs) ti mc) t st en
                offset limit w sf log)
         = Raised (PostgresError "OFFSET must not be negative").
Proof.
  intros fuel cs ti mc t cfg rows st en s e w sf [Hmin Hcs] Hc Hd Ps Pe Hs He Hrows.
  assert (Hself : self_chunk_size (init (Some cs) ti mc) = cs).
  { unfold init. cbn [self_chunk_size]. apply py_or_nonzero. lia. }
  split; [exact Hself|]. split.
  - unfold stream_data_by_chunks. unfold bind at 1.
    rewrite (get_table_count_known strptime sql_where db _ t cfg st en s e w rows []
               Hc Ps Pe Hd).
    assert (Hn : len (filter (selected sql_where (time_field cfg) s e (truthy_str w))
                        rows) =? 0 = false).
    { apply Z.eqb_neq. unfold len.
      destruct (filter (selected sql_where (time_field cfg) s e (truthy_str w)) rows);
        [contradiction|cbn [List.length]; lia]. }
    rewrite Hn. cbn [chunks_loop app].
    apply Z.eqb_neq in Hn.
    pose proof (len_nonneg (filter (selected sql_where (time_field cfg) s e
                                      (truthy_str w)) rows)) as Hnn.
    replace (0 <? len (filter (selected sql_where (time_field cfg) s e (truthy_str w))
                         rows)) with true by (symmetry; apply Z.ltb_lt; lia).
    unfold bind at 1. unfold fetch_data_chunk, bind, lift, emit.
    rewrite Hc, Ps, Pe, py_or_same, Hself. cbn [run_query_rows]. rewrite Hd.
    change (0 <? 0) with false. cbv iota.
    replace (cs <? 0) with true by (symmetry; apply Z.ltb_lt; lia).
    reflexivity.
  - intros offset limit log [_ Ho] _.
    unfold fetch_data_chunk, bind, lift, emit.
    rewrite Hc, Ps, Pe, Hself. cbn [run_query_rows snd]. rewrite Hd.
    replace (offset <? 0) with true by (symmetry; apply Z.ltb_lt; lia).
    reflexivity.
Qed.

End ErrorFacts.

Lemma negative_chunk_size_fails_at_the_first_page_witness :
  self_chunk_size (init (Some (-5)) None None) = -5
  /\ stream_data_by_chunks sample_strptime sample_isoformat sample_utcnow
       sample_sql_where sample_db 1 (init (Some (-5)) None None) "tweets"
       (TDatetime t_2024_01_01) (TDatetime t_2024_01_01_02h) None None []
     = ([EvQuery (SelectCount "tweets" (time_field sample_tweets_config)
                    t_2024_01_01 t_2024_01_01_02h (truthy_str None));
         EvQuery (SelectRows (truthy_list None) "tweets"
                    (time_field sample_tweets_config) t_2024_01_01 t_2024_01_01_02h
                    (truthy_str None) (order_fields sample_tweets_config) (-5) 0)],
        Raised (PostgresError "LIMIT must not be negative"))
  /\ forall offset limit log,
       BIGINT_MIN <= offset < 0 ->
       BIGINT_MIN <= py_or limit (-5) <= BIGINT_MAX ->
       snd (fetch_data_chunk sample_strptime sample_sql_where sample_db
              (init (Some (-5)) None None) "tweets"
              (TDatetime t_2024_01_01) (TDatetime t_2024_01_01_02h)
              offset limit None None log)
       = Raised (PostgresError "OFFSET must not be negative").
Proof.
  apply (negative_chunk_size_fails_at_the_first_page sample_strptime sample_isoformat
           sample_utcnow sample_sql_where sample_db 0 (-5) None None "tweets"
           sample_tweets_config sample_tweets
           (TDatetime t_2024_01_01) (TDatetime t_2024_01_01_02h)
           t_2024_01_01 t_2024_01_01_02h None None).
  - vm_compute. split; [discriminate|reflexivity].
  - reflexivity.
  - reflexivity.
  - reflexivity.
  - reflexivity.
  - discriminate.
  - discriminate.
  - vm_compute. discriminate.
Defined.
